(** * Model-conversion scripts of the YOLOv8-ONNXRuntime-Rust example

    A shallow embedding of the Python scripts under
    [examples/YOLOv8-ONNXRuntime-Rust/scripts]:

    - [convert_fastest_to_onnx.py]  (modules [Fastest] and [FastestMain]),
    - [convert_fastest_darknet_to_onnx.py]  (module [Darknet]),
    - [quantize_onnx_int8.py]       (module [Quantize]),
    - [export_int8_models.py]       (module [ExportInt8]),
    - [export_osnet_official.py]    (module [Osnet]).

    [CfgSpec] states the layout of a config file in the words of the
    specification, [Demo] holds a concrete host and concrete libraries to
    run the scripts on examples, and the properties follow.

    Python values are modelled as follows.  A [str] is the list of its
    Unicode code points; a [dict] with string keys is a [gmap]; a file is
    the list of its bytes; an exception is a class and a text; a function
    with effects is a function of the file system that returns its
    outcome, the new file system and the events (console lines, opened
    files, third-party calls) it produced, in order. *)

From Stdlib Require Import Ascii String NArith ZArith.
From stdpp Require Import gmap list pretty.

Local Open Scope N_scope.

(** ** Python strings *)

Module Py.

(** A [str]: the sequence of its code points. *)
Abbreviation str := (list N).

(** Decoding of a UTF-8 byte sequence: the literals of this file are
    written as they stand in the scripts and decoded to code points. *)
Fixpoint utf8_go (need : nat) (acc : N) (bs : list N) : list N :=
  match bs with
  | [] => []
  | b :: bs' =>
      match need with
      | O =>
          if b <? 128 then b :: utf8_go 0 0 bs'
          else if b <? 224 then utf8_go 1 (N.land b 31) bs'
          else if b <? 240 then utf8_go 2 (N.land b 15) bs'
          else utf8_go 3 (N.land b 7) bs'
      | S n =>
          let acc' := acc * 64 + N.land b 63 in
          match n with
          | O => acc' :: utf8_go 0 0 bs'
          | S _ => utf8_go n acc' bs'
          end
      end
  end.

Definition py (s : string) : str :=
  utf8_go 0 0 (map N_of_ascii (list_ascii_of_string s)).

(** [ch.isspace()] for one code point, as [str.strip()] with no argument
    uses it (CPython's [_PyUnicode_IsWhitespace]). *)
Definition isspace (c : N) : bool :=
  ((9 <=? c) && (c <=? 13)) || ((28 <=? c) && (c <=? 32))
  || (c =? 133) || (c =? 160) || (c =? 5760)
  || ((8192 <=? c) && (c <=? 8202))
  || (c =? 8232) || (c =? 8233) || (c =? 8239) || (c =? 8287) || (c =? 12288).

(** [s.lstrip()], [s.rstrip()], [s.strip()]. *)
Fixpoint lstrip (s : str) : str :=
  match s with
  | [] => []
  | c :: s' => if isspace c then lstrip s' else s
  end.

Definition rstrip (s : str) : str := rev (lstrip (rev s)).

Definition strip (s : str) : str := lstrip (rstrip s).

(** [s.startswith(p)]. *)
Fixpoint startswith (p s : str) : bool :=
  match p, s with
  | [], _ => true
  | _ :: _, [] => false
  | a :: p', b :: s' => (a =? b) && startswith p' s'
  end.

(** [s.endswith(p)]. *)
Definition endswith (p s : str) : bool := startswith (rev p) (rev s).

(** [p in s] for strings: [p] occurs in [s] as a substring. *)
Fixpoint contains (p s : str) : bool :=
  startswith p s ||
  match s with
  | [] => false
  | _ :: s' => contains p s'
  end.

(** [s.split(sep)] for a separator of one character: the pieces between
    the occurrences of [sep], one more than there are occurrences. *)
Fixpoint split (sep : N) (s : str) : list str :=
  match s with
  | [] => [[]]
  | c :: s' =>
      if c =? sep then [] :: split sep s'
      else match split sep s' with
           | [] => [[c]]
           | w :: ws => (c :: w) :: ws
           end
  end.

(** [s[1:-1]]: the string without its first and its last character
    (empty when [s] has fewer than two characters). *)
Definition slice_1_m1 (s : str) : str := take (length s - 2) (drop 1 s).

(** [s.replace(old, new)] for a non-empty [old]: every occurrence of
    [old], found from left to right without overlap, becomes [new].
    [skip] counts the characters of a matched occurrence still to pass. *)
Fixpoint replace_go (old new : str) (skip : nat) (s : str) : str :=
  match s with
  | [] => []
  | c :: s' =>
      match skip with
      | S k => replace_go old new k s'
      | O =>
          if startswith old s then new ++ replace_go old new (length old - 1) s'
          else c :: replace_go old new 0 s'
      end
  end.

Definition replace (old new s : str) : str := replace_go old new 0 s.

(** Exceptions: the class and the text [str(e)] gives.  Every class here
    derives from [Exception]; [KeyboardInterrupt] and [SystemExit], which
    [except Exception] does not catch, are outside the model. *)
Inductive exn_class :=
  | ValueError
  | IndexError
  | ZeroDivisionError
  | FileNotFoundError
  | OtherException (name : str).

Record exn := Exn { exn_cls : exn_class; exn_text : str }.

(** The outcome of an expression that may raise. *)
Inductive result (A : Type) :=
  | Ok (a : A)
  | Raise (e : exn).
Global Arguments Ok {A} a.
Global Arguments Raise {A} e.

Definition rbind {A B} (r : result A) (k : A → result B) : result B :=
  match r with
  | Ok a => k a
  | Raise e => Raise e
  end.

(** [a, b = parts]: unpacking a list into two names (the texts are
    CPython's). *)
Definition unpack2 (parts : list str) : result (str * str) :=
  match parts with
  | [a; b] => Ok (a, b)
  | [] | [_] =>
      Raise (Exn ValueError (py "not enough values to unpack (expected 2, got 1)"))
  | _ => Raise (Exn ValueError (py "too many values to unpack (expected 2)"))
  end.

End Py.

Import Py.

(** ** The file system, the console and third-party calls *)

Module Sys.

(** The regular files, by the path the script names them with; a file is
    its bytes.  Directories are not modelled: a path exists when it is
    the path of a file, and whether a directory can be listed is for
    the host to say. *)
Abbreviation fsys := (gmap str (list Byte.byte)).

(** What a run does that can be observed, in order. *)
Inductive event :=
  | Printed (line : str)                  (* print(line) *)
  | Traceback (e : exn)                   (* traceback.print_exc() *)
  | Opened (path : str)                   (* open(path, ...) *)
  | Called (fn : str) (args : list str).  (* a call into a third-party library *)

(** An effectful computation. *)
Definition M (A : Type) : Type := fsys → result A * fsys * list event.

Definition ret {A} (a : A) : M A := λ s, (Ok a, s, []).

Definition bind {A B} (m : M A) (k : A → M B) : M B := λ s,
  match m s with
  | (Ok a, s1, t1) =>
      match k a s1 with
      | (r, s2, t2) => (r, s2, t1 ++ t2)
      end
  | (Raise e, s1, t1) => (Raise e, s1, t1)
  end.

(** [try: m  except Exception as e: h e]. *)
Definition try_except {A} (m : M A) (h : exn → M A) : M A := λ s,
  match m s with
  | (Ok a, s1, t1) => (Ok a, s1, t1)
  | (Raise e, s1, t1) =>
      match h e s1 with
      | (r, s2, t2) => (r, s2, t1 ++ t2)
      end
  end.

Definition lift {A} (r : result A) : M A := λ s, (r, s, []).

Definition emit (e : event) : M unit := λ s, (Ok tt, s, [e]).

Definition print (line : str) : M unit := emit (Printed line).

Definition print_exc (e : exn) : M unit := emit (Traceback e).

(** A call into a third-party library: [o] is what the library does to
    the file system and what it returns or raises. *)
Definition extern {A} (fn : str) (args : list str)
    (o : fsys → result A * fsys) : M A := λ s,
  match o s with
  | (r, s') => (r, s', [Called fn args])
  end.

(** The projections of an outcome. *)
Definition outcome {A} (x : result A * fsys * list event) : result A := x.1.1.
Definition final {A} (x : result A * fsys * list event) : fsys := x.1.2.
Definition events {A} (x : result A * fsys * list event) : list event := x.2.

Definition no_such_file (path : str) : exn :=
  Exn FileNotFoundError (py "[Errno 2] No such file or directory: '" ++ path ++ py "'").

(** [os.path.exists(path)], [Path.exists()]. *)
Definition exists_ (path : str) : M bool := λ s,
  (Ok (bool_decide (is_Some (s !! path))), s, []).

(** [os.path.getsize(path)], [Path.stat().st_size]. *)
Definition getsize (path : str) : M nat := λ s,
  match s !! path with
  | Some bytes => (Ok (length bytes), s, [])
  | None => (Raise (no_such_file path), s, [])
  end.

(** [open(path, ...)] followed by reading the whole file. *)
Definition read_file (path : str) : M (list Byte.byte) := λ s,
  match s !! path with
  | Some bytes => (Ok bytes, s, [Opened path])
  | None => (Raise (no_such_file path), s, [Opened path])
  end.

(** [shutil.move(src, dst)] of a file onto a file path. *)
Definition move (src dst : str) : M unit := λ s,
  match s !! src with
  | Some bytes => (Ok tt, <[dst := bytes]> (delete src s), [])
  | None => (Raise (no_such_file src), s, [])
  end.

(** [os.path.join(a, b)], [Path(a) / b] for a relative [b] (POSIX). *)
Definition pjoin (a b : str) : str := a ++ py "/" ++ b.

(** [os.path.basename(p)], [Path(p).name]: what follows the last [/]. *)
Definition basename (p : str) : str := List.last (split 47 p) [].

(** The names of the files directly in [d], in the order of the keys of
    the map: a listing [os.listdir(d)] may give. *)
Definition files_in (d : str) (s : fsys) : list str :=
  omap (λ kv : str * list Byte.byte,
          let p := kv.1 in
          let pre := d ++ py "/" in
          if startswith pre p && negb (contains (py "/") (drop (length pre) p))
               && negb (bool_decide (drop (length pre) p = []))
          then Some (drop (length pre) p) else None)
       (map_to_list s).

(** The parts of the host that the scripts' text does not fix. *)
Record host := Host {
  (** [os.listdir(d)]: the names of the entries of [d], in the order
      the platform gives them; it raises ([FileNotFoundError] when [d]
      is not there) when [d] cannot be listed. *)
  listdir : str → fsys → result (list str);
  (** [f.readlines()] of a file opened in text mode: decoding with the
      platform's encoding and splitting after each newline. *)
  readlines : list Byte.byte → result (list str);
  (** [int(s)] for a string. *)
  int_of_str : str → result Z;
  (** [f"{n / 1024 / 1024:.2f}"] for a size in bytes. *)
  fmt_mb : nat → str;
  (** [f"{n / (1024 * 1024):6.2f}"]. *)
  fmt_mb6 : nat → str;
  (** [f"{(a / (1024 * 1024)) / (b / (1024 * 1024)):.2f}"] for [b > 0]. *)
  fmt_ratio : nat → nat → str;
}.

End Sys.

Import Sys.

Declare Scope py_scope.
Delimit Scope py_scope with M.
Notation "x <- m ;; k" := (bind m (λ x, k))
  (at level 100, m at next level, right associativity) : py_scope.
Notation "m ;; k" := (bind m (λ _, k))
  (at level 100, right associativity) : py_scope.
Local Open Scope py_scope.

(** [str(n)] for an integer, and [f"{n:,}"]. *)
Definition str_of_nat (n : nat) : str := py (pretty n).
Definition str_of_Z (z : Z) : str := py (pretty z).

Fixpoint commas (k : nat) (ds : str) : str :=
  match ds with
  | [] => []
  | d :: ds' =>
      match k with
      | O => 44 :: d :: commas 2 ds'
      | S k' => d :: commas k' ds'
      end
  end.

Definition fmt_thousands (n : nat) : str := rev (commas 3 (rev (str_of_nat n))).

(** [f"{'='*60}"]. *)
Definition rule60 : str := replicate 60 61.

(** ** convert_fastest_to_onnx.py *)

Module Fastest.

(** One configuration block: a [dict] from field names to values. *)
Abbreviation block := (gmap str str).

(** The entries of [self.models], in the order of the dictionary. *)
Record model_info := ModelInfo {
  name : str;
  cfg : str;
  weights : str;
  output : str;
}.

Definition models : list (str * model_info) :=
  [ (py "1", ModelInfo (py "YOLO-Fastest-1.1")
               (py "yolo-fastest-1.1/yolo-fastest-1.1.cfg")
               (py "yolo-fastest-1.1/yolo-fastest-1.1.weights")
               (py "yolo-fastest-1.1.onnx"));
    (py "2", ModelInfo (py "YOLO-Fastest-XL")
               (py "yolo-fastest-1.1/yolo-fastest-1.1-xl.cfg")
               (py "yolo-fastest-1.1/yolo-fastest-1.1-xl.weights")
               (py "yolo-fastest-xl.onnx"));
    (py "3", ModelInfo (py "YOLO-Fastest-1.1-Body")
               (py "yolo-fastest-1.1_body/yolo-fastest-1.1_body.cfg")
               (py "yolo-fastest-1.1_body/yolo-fastest-1.1_body.weights")
               (py "yolo-fastest-1.1-body.onnx")) ].

(** [self.models[key]], [None] when [key not in self.models]. *)
Definition models_get (key : str) : option model_info :=
  snd <$> List.find (λ kv, bool_decide (kv.1 = key)) models.

(** The body of the [for line in lines] loop of [parse_cfg]: [blocks] and
    [block] are the two variables the loop updates. *)
Fixpoint parse_lines (lines : list str) (blocks : list block) (blk : block)
    : result (list block * block) :=
  match lines with
  | [] => Ok (blocks, blk)
  | line :: rest =>
      let line := strip line in
      if bool_decide (line = []) || startswith (py "#") line then
        parse_lines rest blocks blk
      else if startswith (py "[") line then
        let blocks := if bool_decide (blk ≠ ∅) then blocks ++ [blk] else blocks in
        parse_lines rest blocks {[ py "type" := strip (slice_1_m1 line) ]}
      else
        rbind (unpack2 (split 61 line)) (λ kv,
          parse_lines rest blocks (<[ strip kv.1 := strip kv.2 ]> blk))
  end.

(** [parse_cfg] on the lines [f.readlines()] returned. *)
Definition parse_cfg_lines (lines : list str) : result (list block) :=
  rbind (parse_lines lines [] ∅) (λ st,
    Ok (if bool_decide (st.2 ≠ ∅) then st.1 ++ [st.2] else st.1)).

(** [parse_cfg(self, cfg_file)]. *)
Definition parse_cfg (H : host) (cfg_file : str) : M (list block) :=
  bytes <- read_file cfg_file ;;
  lines <- lift (readlines H bytes) ;;
  lift (parse_cfg_lines lines).

(** A 32-bit value of a binary file, as the four bytes that store it:
    [np.int32] and [np.float32] items are not interpreted further. *)
Definition raw32 : Type := Byte.byte * Byte.byte * Byte.byte * Byte.byte.

(** The complete 4-byte items of a byte sequence. *)
Fixpoint items32 (bs : list Byte.byte) : list raw32 :=
  match bs with
  | a :: b :: c :: d :: rest => (a, b, c, d) :: items32 rest
  | _ => []
  end.

(** [np.fromfile(f, dtype=<32-bit>, count=n)] on the unread part [bs] of
    the file: the items read (at most [n]; all of them for [None]) and
    the part left unread. *)
Definition fromfile32 (count : option nat) (bs : list Byte.byte)
    : list raw32 * list Byte.byte :=
  let items := match count with
               | Some n => take n (items32 bs)
               | None => items32 bs
               end in
  (items, drop (4 * length items) bs).

(** [load_weights] on the bytes of the file: the header read and the
    weights returned. *)
Definition load_weights_bytes (bs : list Byte.byte) : list raw32 * list raw32 :=
  let '(header, rest) := fromfile32 (Some 5%nat) bs in
  let '(weights, _) := fromfile32 None rest in
  (header, weights).

(** [load_weights(self, weights_file)]. *)
Definition load_weights (weights_file : str) : M (list raw32) :=
  bytes <- read_file weights_file ;;
  ret (load_weights_bytes bytes).2.

(** The layers [SimplifiedYOLOFastest.__init__] builds. *)
Inductive layer :=
  | Conv2d (in_channels out_channels kernel_size padding : N)
  | BatchNorm2d (num_features : N)
  | ReLU (inplace : bool)
  | MaxPool2d (kernel_size stride : N).

Record network := Network {
  input_size : Z;
  backbone : list layer;
  head : layer;
}.

Definition SimplifiedYOLOFastest (input_size : Z) : network :=
  {| input_size := input_size;
     backbone := [Conv2d 3 64 3 1; BatchNorm2d 64; ReLU true; MaxPool2d 2 2];
     head := Conv2d 64 255 1 0 |}.

(** [build_model_from_cfg(self, blocks)]. *)
Definition build_model_from_cfg (H : host) (blocks : list block) : M network :=
  net_info <- lift (match blocks with
                    | b :: _ => Ok b
                    | [] => Raise (Exn IndexError (py "list index out of range"))
                    end) ;;
  input_size <- lift (match (net_info : block) !! py "width" with
                      | Some v => int_of_str H v
                      | None => Ok 320%Z
                      end) ;;
  print (py "Model input size: " ++ str_of_Z input_size ++ py "x" ++ str_of_Z input_size) ;;
  ret (SimplifiedYOLOFastest input_size).

(** The calls into torch and onnx. *)
Record torch_lib := TorchLib {
  onnx_proto : Type;
  (** [torch.onnx.export(model, dummy_input, path, ...)]. *)
  torch_onnx_export : network → str → fsys → result unit * fsys;
  (** [onnx.load(path)]. *)
  onnx_load : str → fsys → result onnx_proto * fsys;
  (** [onnx.checker.check_model(onnx_model)]. *)
  onnx_check_model : onnx_proto → fsys → result unit * fsys;
}.

(** [convert(self, model_key)]; [MODELS_DIR] is the text of the module's
    constant of that name.  [model.eval()] and the random [dummy_input]
    change nothing that is observed here and have no counterpart. *)
Definition convert (H : host) (L : torch_lib) (MODELS_DIR : str) (model_key : str)
    : M bool :=
  match models_get model_key with
  | None =>
      print (py "❌ Invalid model key: " ++ model_key) ;;
      ret false
  | Some model_info =>
      let cfg_path := pjoin MODELS_DIR (cfg model_info) in
      let weights_path := pjoin MODELS_DIR (weights model_info) in
      let output_path := pjoin MODELS_DIR (output model_info) in
      print (py "
" ++ rule60) ;;
      print (py "Converting " ++ name model_info) ;;
      print rule60 ;;
      cfg_exists <- exists_ cfg_path ;;
      if negb cfg_exists then
        print (py "❌ Config file not found: " ++ cfg_path) ;;
        ret false
      else
      weights_exists <- exists_ weights_path ;;
      if negb weights_exists then
        print (py "❌ Weights file not found: " ++ weights_path) ;;
        ret false
      else
      print (py "📄 Config: " ++ basename cfg_path) ;;
      weights_size <- getsize weights_path ;;
      print (py "⚖️  Weights: " ++ basename weights_path ++ py " ("
               ++ fmt_mb H weights_size ++ py " MB)") ;;
      try_except
        (print (py "
🔍 Parsing config...") ;;
         blocks <- parse_cfg H cfg_path ;;
         print (py "📦 Loading weights...") ;;
         weights <- load_weights weights_path ;;
         print (py "   Loaded " ++ fmt_thousands (length weights) ++ py " weight values") ;;
         print (py "🏗️  Building PyTorch model...") ;;
         model <- build_model_from_cfg H blocks ;;
         print (py "🔄 Converting to ONNX...") ;;
         extern (py "torch.onnx.export") [output_path]
           (torch_onnx_export L model output_path) ;;
         print (py "✅ Verifying ONNX model...") ;;
         onnx_model <- extern (py "onnx.load") [output_path] (onnx_load L output_path) ;;
         extern (py "onnx.checker.check_model") [] (onnx_check_model L onnx_model) ;;
         print (py "✅ Successfully converted to: " ++ basename output_path) ;;
         output_size <- getsize output_path ;;
         print (py "   Output size: " ++ fmt_mb H output_size ++ py " MB") ;;
         ret true)
        (λ e,
         print (py "❌ Conversion failed: " ++ exn_text e) ;;
         print_exc e ;;
         ret false)
  end.

(** [results[name] = success] on a dictionary kept in insertion order. *)
Fixpoint dict_set (d : list (str * bool)) (k : str) (v : bool) : list (str * bool) :=
  match d with
  | [] => [(k, v)]
  | (k', v') :: d' =>
      if bool_decide (k' = k) then (k', v) :: d' else (k', v') :: dict_set d' k v
  end.

(** The first loop of [convert_all], over the keys still to convert. *)
Fixpoint convert_each (H : host) (L : torch_lib) (MODELS_DIR : str)
    (todo : list (str * model_info)) (results : list (str * bool))
    : M (list (str * bool)) :=
  match todo with
  | [] => ret results
  | (key, info) :: todo' =>
      success <- convert H L MODELS_DIR key ;;
      convert_each H L MODELS_DIR todo' (dict_set results (name info) success)
  end.

(** The second loop of [convert_all]: one line per result. *)
Fixpoint print_summary (results : list (str * bool)) : M unit :=
  match results with
  | [] => ret tt
  | (name, success) :: results' =>
      print (name ++ py ": " ++ (if success then py "✅ Success" else py "❌ Failed")) ;;
      print_summary results'
  end.

(** [convert_all(self)]. *)
Definition convert_all (H : host) (L : torch_lib) (MODELS_DIR : str) : M bool :=
  results <- convert_each H L MODELS_DIR models [] ;;
  print (py "
" ++ rule60) ;;
  print (py "Conversion Summary") ;;
  print rule60 ;;
  print_summary results ;;
  ret (forallb snd results).

End Fastest.

(** ** quantize_onnx_int8.py *)

Module Quantize.

(** The call into onnxruntime:
    [quantize_dynamic(model_input, model_output, weight_type=QuantType.QUInt8)]. *)
Record quant_lib := QuantLib {
  quantize_dynamic : str → str → fsys → result unit * fsys;
}.

(** [size_mb / quantized_size_mb]: true division of floats raises on a
    zero divisor, and [n / (1024 * 1024)] is zero exactly when [n] is. *)
Definition compression_ratio (H : host) (size quantized_size : nat) : result str :=
  if bool_decide (quantized_size = 0%nat)
  then Raise (Exn ZeroDivisionError (py "float division by zero"))
  else Ok (fmt_ratio H size quantized_size).

(** [quantize_onnx_model(input_path, output_path)]. *)
Definition quantize_onnx_model (H : host) (L : quant_lib) (input_path output_path : str)
    : M bool :=
  print (py "
" ++ rule60) ;;
  print (py "📦 输入模型: " ++ input_path) ;;
  input_exists <- exists_ input_path ;;
  if negb input_exists then
    print (py "❌ 模型文件不存在: " ++ input_path) ;;
    ret false
  else
  size <- getsize input_path ;;
  print (py "📊 原始大小: " ++ fmt_mb H size ++ py " MB") ;;
  try_except
    (print (py "🔄 开始INT8动态量化...") ;;
     extern (py "quantize_dynamic") [input_path; output_path]
       (quantize_dynamic L input_path output_path) ;;
     quantized_size <- getsize output_path ;;
     ratio <- lift (compression_ratio H size quantized_size) ;;
     print (py "✅ 量化成功: " ++ output_path) ;;
     print (py "📊 量化后大小: " ++ fmt_mb H quantized_size ++ py " MB") ;;
     print (py "🗜️  压缩比: " ++ ratio ++ py "x") ;;
     ret true)
    (λ e,
     print (py "❌ 量化失败: " ++ exn_text e) ;;
     print_exc e ;;
     ret false).

Definition models_dir : str := py "models".

(** The filter of the first loop of [main]. *)
Definition is_input (filename : str) : bool :=
  endswith (py ".onnx") filename && negb (contains (py "_int8") filename).

(** [base_name = model_name.replace('.onnx', '')] and
    [output_name = f"{base_name}_int8.onnx"]. *)
Definition output_name (model_name : str) : str :=
  replace (py ".onnx") [] model_name ++ py "_int8.onnx".

(** The loop that lists the models found. *)
Fixpoint print_found (onnx_models : list str) : M unit :=
  match onnx_models with
  | [] => ret tt
  | model :: rest => print (py "   - " ++ model) ;; print_found rest
  end.

(** The quantization loop of [main]; the result is [success_count]. *)
Fixpoint quantize_each (H : host) (L : quant_lib) (onnx_models : list str)
    (success_count : nat) : M nat :=
  match onnx_models with
  | [] => ret success_count
  | model_name :: rest =>
      let input_path := pjoin models_dir model_name in
      let output_path := pjoin models_dir (output_name model_name) in
      output_exists <- exists_ output_path ;;
      if output_exists then
        print (py "
⏭️  跳过 (已存在): " ++ output_name model_name) ;;
        quantize_each H L rest success_count
      else
        ok <- quantize_onnx_model H L input_path output_path ;;
        quantize_each H L rest (if ok then S success_count else success_count)
  end.

(** [f"{s:30s}"]: padded with spaces on the right to 30 characters. *)
Definition pad30 (s : str) : str := s ++ replicate (30 - length s) 32.

(** The loop that lists the files generated. *)
Fixpoint print_generated (H : host) (onnx_models : list str) : M unit :=
  match onnx_models with
  | [] => ret tt
  | model_name :: rest =>
      let output_path := pjoin models_dir (output_name model_name) in
      output_exists <- exists_ output_path ;;
      (if output_exists then
         size <- getsize output_path ;;
         print (py "   ✅ " ++ pad30 (output_name model_name) ++ py " ("
                  ++ fmt_mb6 H size ++ py " MB)")
       else ret tt) ;;
      print_generated H rest
  end.

(** [main()]. *)
Definition main (H : host) (L : quant_lib) : M unit :=
  print (py "
    ╔════════════════════════════════════════════════════════╗
    ║         ONNX模型 INT8 量化工具                         ║
    ║         ONNX INT8 Quantization Tool                    ║
    ╚════════════════════════════════════════════════════════╝
    ") ;;
  filenames <- (λ s, (listdir H models_dir s, s, [])) ;;
  let onnx_models := filter (λ f, is_input f = true) filenames in
  if bool_decide (onnx_models = []) then
    print (py "❌ 在 models/ 目录下未找到ONNX模型")
  else
  print (py "🔍 找到 " ++ str_of_nat (length onnx_models) ++ py " 个模型:") ;;
  print_found onnx_models ;;
  success_count <- quantize_each H L onnx_models 0 ;;
  print (py "
" ++ rule60) ;;
  print (py "📊 量化完成!") ;;
  print (py "✅ 成功: " ++ str_of_nat success_count ++ py "/"
           ++ str_of_nat (length onnx_models)) ;;
  if bool_decide (0 < success_count)%nat then
    print (py "
💡 使用方法:") ;;
    print (py "   # 使用INT8量化的M模型") ;;
    print (py "   .\target\release\yolov8-rtsp.exe --int8 -m m") ;;
    print (py "   ") ;;
    print (py "   # 使用INT8量化的N模型 (最快)") ;;
    print (py "   .\target\release\yolov8-rtsp.exe --int8 -m n") ;;
    print (py "
📁 量化后的模型保存在: models/") ;;
    print (py "
📦 生成的INT8模型:") ;;
    print_generated H onnx_models
  else ret tt.

End Quantize.

(** ** export_int8_models.py *)

Module ExportInt8.

(** The calls into ultralytics. *)
Record yolo_lib := YoloLib {
  yolo_model : Type;
  (** [YOLO(model_path)]. *)
  YOLO : str → fsys → result yolo_model * fsys;
  (** [model.export] with the keywords of [export_args]: the path of the exported file. *)
  yolo_export : yolo_model → fsys → result str * fsys;
}.

(** [export_int8_model(model_path, output_dir)].  Directories are not
    modelled, so [os.makedirs(output_dir, exist_ok=True)] has no
    counterpart here. *)
Definition export_int8_model (H : host) (L : yolo_lib) (model_path output_dir : str)
    : M bool :=
  print (py "
" ++ rule60) ;;
  print (py "📦 加载模型: " ++ model_path) ;;
  model_exists <- exists_ model_path ;;
  if negb model_exists then
    print (py "❌ 模型文件不存在: " ++ model_path) ;;
    print (py "💡 请先下载模型: https://github.com/ultralytics/assets/releases") ;;
    ret false
  else
  try_except
    (model <- extern (py "YOLO") [model_path] (YOLO L model_path) ;;
     print (py "⚙️  导出配置: {'format': 'onnx', 'imgsz': 320, 'int8': True, 'dynamic': False, 'simplify': True, 'opset': 12}") ;;
     print (py "🔄 开始导出INT8量化ONNX...") ;;
     exported_path <- extern (py "model.export") [] (yolo_export L model) ;;
     print (py "✅ 导出成功: " ++ exported_path) ;;
     let base_name := replace (py ".pt") [] (basename model_path) in
     let target_path := pjoin output_dir (base_name ++ py "_int8.onnx") in
     exported_exists <- exists_ exported_path ;;
     (if exported_exists then
        move exported_path target_path ;;
        print (py "📁 已保存到: " ++ target_path) ;;
        size <- getsize target_path ;;
        print (py "📊 模型大小: " ++ fmt_mb H size ++ py " MB")
      else ret tt) ;;
     ret true)
    (λ e,
     print (py "❌ 导出失败: " ++ exn_text e) ;;
     ret false).

(** [models_to_export]. *)
Definition models_to_export : list (str * str) :=
  [ (py "yolov8n.pt", py "超轻量检测模型");
    (py "yolov8s.pt", py "小型检测模型");
    (py "yolov8m.pt", py "中型检测模型");
    (py "yolov8l.pt", py "大型检测模型");
    (py "yolov8x.pt", py "超大检测模型");
    (py "yolov8n-pose.pt", py "超轻量姿态估计");
    (py "yolov8s-pose.pt", py "小型姿态估计");
    (py "yolov8m-pose.pt", py "中型姿态估计");
    (py "yolov8l-pose.pt", py "大型姿态估计");
    (py "yolov8x-pose.pt", py "超大姿态估计") ].

(** The loop of [main]; the result is [(success_count, total_count)]. *)
Fixpoint export_each (H : host) (L : yolo_lib) (todo : list (str * str))
    (success_count total_count : nat) : M (nat * nat) :=
  match todo with
  | [] => ret (success_count, total_count)
  | (model_path, description) :: rest =>
      print (py "
🎯 " ++ description) ;;
      model_exists <- exists_ model_path ;;
      if model_exists then
        ok <- export_int8_model H L model_path (py "models") ;;
        export_each H L rest (if ok then S success_count else success_count)
          (S total_count)
      else
        print (py "⏭️  跳过 (文件不存在): " ++ model_path) ;;
        export_each H L rest success_count total_count
  end.

(** [main()]. *)
Definition main (H : host) (L : yolo_lib) : M unit :=
  print (py "
    ╔════════════════════════════════════════════════════════╗
    ║         YOLOv8 INT8 量化模型导出工具                   ║
    ║         INT8 Quantization Export Tool                  ║
    ╚════════════════════════════════════════════════════════╝
    ") ;;
  counts <- export_each H L models_to_export 0 0 ;;
  print (py "
" ++ rule60) ;;
  print (py "📊 导出完成!") ;;
  print (py "✅ 成功: " ++ str_of_nat counts.1 ++ py "/" ++ str_of_nat counts.2) ;;
  if bool_decide (0 < counts.1)%nat then
    print (py "
💡 使用方法:") ;;
    print (py "   # 使用INT8量化的M模型") ;;
    print (py "   .\target\release\yolov8-rtsp.exe --int8 -m m") ;;
    print (py "   ") ;;
    print (py "   # 使用INT8量化的N模型 (最快)") ;;
    print (py "   .\target\release\yolov8-rtsp.exe --int8 -m n")
  else ret tt.

End ExportInt8.

(** ** export_osnet_official.py *)

Module Osnet.

(** The calls into torchreid, torch, onnx, onnxruntime and numpy, and the
    texts Python's formatting gives for the values they return. *)
Record osnet_lib := OsnetLib {
  module : Type;
  checkpoint : Type;
  tensor : Type;
  proto : Type;
  session : Type;
  array : Type;
  (** [torchreid.models.build_model(name='osnet_ain_x1_0', ...)]. *)
  build_model : fsys → result module * fsys;
  (** [torch.load(path, map_location='cpu')]. *)
  torch_load : str → fsys → result checkpoint * fsys;
  (** [checkpoint['state_dict']] when ['state_dict' in checkpoint]. *)
  state_dict_of : checkpoint → option checkpoint;
  (** [model.load_state_dict(state_dict, strict=False)]. *)
  load_state_dict : module → checkpoint → fsys → result unit * fsys;
  (** [torch.randn(1, 3, 256, 128)]. *)
  randn : fsys → result tensor * fsys;
  (** [model(dummy_input)]. *)
  forward : module → tensor → fsys → result tensor * fsys;
  (** [f"{output.shape}"], [f"{output.min():.4f}"], [f"{output.max():.4f}"]. *)
  tensor_shape : tensor → str;
  tensor_min : tensor → str;
  tensor_max : tensor → str;
  (** [f"{torch.norm(output, p=2, dim=1).item():.4f}"]. *)
  l2_norm : tensor → fsys → result str * fsys;
  (** [torch.onnx.export(model, dummy_input, output_path, ...)]. *)
  torch_onnx_export : module → tensor → str → fsys → result unit * fsys;
  (** [onnx.load(output_path)]. *)
  onnx_load : str → fsys → result proto * fsys;
  (** [onnx.checker.check_model(onnx_model)]. *)
  onnx_check_model : proto → fsys → result unit * fsys;
  (** The name and the dimensions of [onnx_model.graph.input[0]] and of
      [onnx_model.graph.output[0]], as the two lines print them. *)
  graph_input : proto → result str;
  graph_output : proto → result str;
  (** [ort.InferenceSession(output_path, providers=['CPUExecutionProvider'])]. *)
  inference_session : str → fsys → result session * fsys;
  (** [session.run(None, {'input': dummy_input.numpy()})[0]]. *)
  session_run : session → tensor → fsys → result array * fsys;
  (** [f"{onnx_output.shape}"], [f"{onnx_output.min():.4f}"], ... *)
  array_shape : array → str;
  array_min : array → str;
  array_max : array → str;
  (** [np.abs(output.numpy() - onnx_output).max()]: whether it is below
      [1e-4], and [f"{diff:.6f}"]. *)
  max_diff : tensor → array → fsys → result (bool * str) * fsys;
}.

Definition output_path : str := py "models/osnet_ain_x1_0.onnx".

Definition weights_path : str := py "models/osnet_ain_x1_0_imagenet.pth".

(** [export_osnet_to_onnx()]. *)
Definition export_osnet_to_onnx (L : osnet_lib) : M unit :=
  print (py "🚀 开始导出OSNet-AIN x1.0模型到ONNX格式...") ;;
  print (py "📦 创建OSNet-AIN x1.0模型...") ;;
  model <- extern (py "torchreid.models.build_model") [py "osnet_ain_x1_0"]
             (build_model L) ;;
  print (py "📥 加载预训练权重: models/osnet_ain_x1_0_imagenet.pth") ;;
  checkpoint <- extern (py "torch.load") [weights_path] (torch_load L weights_path) ;;
  let state_dict := default checkpoint (state_dict_of L checkpoint) in
  extern (py "model.load_state_dict") [] (load_state_dict L model state_dict) ;;
  print (py "✅ 模型加载成功") ;;
  print (py "📝 创建示例输入: [1, 3, 256, 128]") ;;
  dummy_input <- extern (py "torch.randn") [] (randn L) ;;
  print (py "🧪 测试模型前向传播...") ;;
  output <- extern (py "model") [] (forward L model dummy_input) ;;
  print (py "   输出形状: " ++ tensor_shape L output) ;;
  print (py "   输出范围: [" ++ tensor_min L output ++ py ", "
           ++ tensor_max L output ++ py "]") ;;
  norm <- extern (py "torch.norm") [] (l2_norm L output) ;;
  print (py "   L2范数: " ++ norm) ;;
  print (py "
🔄 导出ONNX模型到: " ++ output_path) ;;
  extern (py "torch.onnx.export") [output_path]
    (torch_onnx_export L model dummy_input output_path) ;;
  print (py "✅ ONNX导出成功!") ;;
  print (py "
🔍 验证ONNX模型...") ;;
  onnx_model <- extern (py "onnx.load") [output_path] (onnx_load L output_path) ;;
  try_except
    (extern (py "onnx.checker.check_model") [] (onnx_check_model L onnx_model) ;;
     print (py "✅ ONNX模型验证通过"))
    (λ e, print (py "⚠️  ONNX模型验证失败: " ++ exn_text e)) ;;
  print (py "
📊 模型信息:") ;;
  input_text <- lift (graph_input L onnx_model) ;;
  print (py "   输入: " ++ input_text) ;;
  output_text <- lift (graph_output L onnx_model) ;;
  print (py "   输出: " ++ output_text) ;;
  print (py "
🧪 测试ONNX推理...") ;;
  session <- extern (py "ort.InferenceSession") [output_path]
               (inference_session L output_path) ;;
  onnx_output <- extern (py "session.run") [] (session_run L session dummy_input) ;;
  print (py "   ONNX输出形状: " ++ array_shape L onnx_output) ;;
  print (py "   ONNX输出范围: [" ++ array_min L onnx_output ++ py ", "
           ++ array_max L onnx_output ++ py "]") ;;
  diff <- extern (py "np.abs") [] (max_diff L output onnx_output) ;;
  print (py "   最大差异: " ++ diff.2) ;;
  (if diff.1 then print (py "✅ PyTorch和ONNX输出一致!")
   else print (py "⚠️  PyTorch和ONNX输出差异较大: " ++ diff.2)) ;;
  print (py "
✨ 导出完成! ONNX模型已保存到: models/osnet_ain_x1_0.onnx") ;;
  print (py "
📊 OSNet-AIN x1.0 性能指标:") ;;
  print (py "   - Rank-1 准确率: 94.7% (Market1501)") ;;
  print (py "   - mAP: 84.9%") ;;
  print (py "   - 参数量: 2.2M") ;;
  print (py "   - FLOPs: 1.13G") ;;
  print (py "   - 特点: 跨域泛化能力最强,适合多场景应用") ;;
  print (py "   - 相比标准x1.0: mAP +2.3%, 跨域性能显著提升").

End Osnet.

(** ** The layout of a config file, as the specification words it *)

Module CfgSpec.

Import Fastest.

(** What one line of the file is, once its surrounding whitespace is
    removed: blank lines and [#] comments are skipped, a header is
    [[title]], an entry is [key = value] with one [=]. *)
Inductive line_kind :=
  | Skipped
  | Header (title : str)
  | Entry (key value : str)
  | Malformed.

(** The text before the first [c], and the text after it. *)
Fixpoint before (c : N) (s : str) : str :=
  match s with
  | [] => []
  | x :: s' => if x =? c then [] else x :: before c s'
  end.

Fixpoint after (c : N) (s : str) : str :=
  match s with
  | [] => []
  | x :: s' => if x =? c then s' else after c s'
  end.

Fixpoint occurrences (c : N) (s : str) : nat :=
  match s with
  | [] => 0
  | x :: s' => (if x =? c then 1 else 0) + occurrences c s'
  end.

(** The text between the opening bracket and the closing one. *)
Definition between_brackets (l : str) : str := removelast (tail l).

Definition classify (line : str) : line_kind :=
  let l := strip line in
  match l with
  | [] => Skipped
  | c :: _ =>
      if c =? 35 then Skipped
      else if c =? 91 then
        if bool_decide (List.last l 0 = 93) then Header (strip (between_brackets l))
        else Malformed
      else if bool_decide (occurrences 61 l = 1%nat)
        then Entry (strip (before 61 l)) (strip (after 61 l))
        else Malformed
  end.

(** A well-formed file: no line is malformed. *)
Definition well_formed (lines : list str) : Prop :=
  Forall (λ line, classify line ≠ Malformed) lines.

(** The entries from here up to the next header. *)
Fixpoint entries (ks : list line_kind) : list (str * str) :=
  match ks with
  | Entry k v :: ks' => (k, v) :: entries ks'
  | Skipped :: ks' => entries ks'
  | _ => []
  end.

(** Recording entries in a block, one after the other. *)
Definition record (b : block) (es : list (str * str)) : block :=
  foldl (λ b kv, <[ kv.1 := kv.2 ]> b) b es.

(** One block per header, in the order of the file. *)
Fixpoint header_blocks (ks : list line_kind) : list block :=
  match ks with
  | [] => []
  | Header t :: ks' => record {[ py "type" := t ]} (entries ks') :: header_blocks ks'
  | _ :: ks' => header_blocks ks'
  end.

(** The blocks of a file: the entries that stand before the first header
    (the block is there when there are any), then one block per header. *)
Definition blocks_of (lines : list str) : list block :=
  let ks := map classify lines in
  match entries ks with
  | [] => []
  | es => [record ∅ es]
  end ++ header_blocks ks.

(** The entries of each block of the file, block by block. *)
Fixpoint header_entries (ks : list line_kind) : list (list (str * str)) :=
  match ks with
  | [] => []
  | Header _ :: ks' => entries ks' :: header_entries ks'
  | _ :: ks' => header_entries ks'
  end.

Definition block_entries (lines : list str) : list (list (str * str)) :=
  let ks := map classify lines in
  match entries ks with
  | [] => []
  | es => [es]
  end ++ header_entries ks.

(** The value of the last entry for [k] among [es]. *)
Fixpoint last_value (k : str) (es : list (str * str)) : option str :=
  match es with
  | [] => None
  | (k', v) :: es' =>
      match last_value k es' with
      | Some v' => Some v'
      | None => if bool_decide (k' = k) then Some v else None
      end
  end.

(** A line the loop of [parse_cfg] can take: blank, a comment, a line
    that starts with a bracket, or a line with exactly one [=]. *)
Definition splittable (line : str) : bool :=
  let l := strip line in
  bool_decide (l = []) || startswith (py "#") l || startswith (py "[") l
  || bool_decide (occurrences 61 l = 1%nat).

End CfgSpec.

(** ** A concrete host and concrete libraries, to run the scripts *)

Module Demo.

(** Text files in Latin-1 with [\n] line ends. *)
Fixpoint splitlines (cur : str) (s : str) : list str :=
  match s with
  | [] => match cur with [] => [] | _ => [rev cur] end
  | c :: s' =>
      if c =? 10 then rev (c :: cur) :: splitlines [] s'
      else splitlines (c :: cur) s'
  end.

Definition readlines (bytes : list Byte.byte) : result (list str) :=
  Ok (splitlines [] (map Byte.to_N bytes)).

(** Decimal literals of ASCII digits with an optional sign. *)
Fixpoint digits (acc : Z) (s : str) : option Z :=
  match s with
  | [] => Some acc
  | c :: s' =>
      if (48 <=? c) && (c <=? 57) then digits (acc * 10 + Z.of_N (c - 48)) s'
      else None
  end.

Definition int_of_str (s : str) : result Z :=
  let bad := Raise (Exn ValueError
                      (py "invalid literal for int() with base 10: '" ++ s ++ py "'")) in
  match s with
  | [] => bad
  | c :: s' =>
      let body := if (c =? 43) || (c =? 45) then s' else s in
      match body, digits 0 body with
      | _ :: _, Some z => Ok (if c =? 45 then (- z)%Z else z)
      | _, _ => bad
      end
  end.

(** Two decimals of [num / den], rounded half to even. *)
Definition fmt2 (num den : N) : str :=
  let q := (num * 100) / den in
  let r := (num * 100) mod den in
  let h := if (den <? 2 * r) || ((2 * r =? den) && N.odd q) then q + 1 else q in
  py (pretty (h / 100)) ++ py "." ++ py (pretty (h mod 100 / 10)) ++ py (pretty (h mod 10)).

(** A directory is there when a file is under it; listing one that is
    not raises. *)
Definition listdir (d : str) (s : fsys) : result (list str) :=
  if existsb (λ kv : str * list Byte.byte, startswith (d ++ py "/") kv.1) (map_to_list s)
  then Ok (files_in d s)
  else Raise (no_such_file d).

Definition host : Sys.host :=
  {| Sys.listdir := listdir;
     Sys.readlines := readlines;
     Sys.int_of_str := int_of_str;
     fmt_mb := λ n, fmt2 (N.of_nat n) 1048576;
     fmt_mb6 := λ n, let t := fmt2 (N.of_nat n) 1048576 in replicate (6 - length t) 32 ++ t;
     fmt_ratio := λ a b, fmt2 (N.of_nat a) (N.of_nat b) |}.

(** The bytes of a file given by its text. *)
Definition file (s : string) : list Byte.byte := list_byte_of_string s.

(** An exception a library raises. *)
Definition runtime_error (text : string) : exn :=
  Exn (OtherException (py "RuntimeError")) (py text).

(** torch and onnx: the export writes a file, the loader needs it. *)
Definition torch_ok : Fastest.torch_lib :=
  {| Fastest.onnx_proto := list Byte.byte;
     Fastest.torch_onnx_export := λ _ path s, (Ok tt, <[ path := file "onnx" ]> s);
     Fastest.onnx_load := λ path s,
       match s !! path with
       | Some bytes => (Ok bytes, s)
       | None => (Raise (no_such_file path), s)
       end;
     Fastest.onnx_check_model := λ _ s, (Ok tt, s) |}.

(** torch whose export raises. *)
Definition torch_failing : Fastest.torch_lib :=
  {| Fastest.onnx_proto := list Byte.byte;
     Fastest.torch_onnx_export := λ _ _ s, (Raise (runtime_error "export failed"), s);
     Fastest.onnx_load := Fastest.onnx_load torch_ok;
     Fastest.onnx_check_model := Fastest.onnx_check_model torch_ok |}.

(** A quantizer that writes its output. *)
Definition quant_ok : Quantize.quant_lib :=
  {| Quantize.quantize_dynamic := λ input output s,
       match s !! input with
       | Some bytes => (Ok tt, <[ output := take 1 bytes ]> s)
       | None => (Raise (no_such_file input), s)
       end |}.

(** A quantizer that raises and writes nothing. *)
Definition quant_failing : Quantize.quant_lib :=
  {| Quantize.quantize_dynamic := λ _ _ s, (Raise (runtime_error "quantization failed"), s) |}.

(** A quantizer that raises until its cache file, outside [models/],
    is there; it writes the cache file when it raises. *)
Definition quant_flaky : Quantize.quant_lib :=
  {| Quantize.quantize_dynamic := λ input output s,
       match s !! py "cache/ort" with
       | Some _ => Quantize.quantize_dynamic quant_ok input output s
       | None => (Raise (runtime_error "no cache"), <[ py "cache/ort" := [] ]> s)
       end |}.

(** ultralytics: the export writes [yolov8n.onnx] and returns its path. *)
Definition yolo_ok : ExportInt8.yolo_lib :=
  {| ExportInt8.yolo_model := unit;
     ExportInt8.YOLO := λ _ s, (Ok tt, s);
     ExportInt8.yolo_export := λ _ s,
       (Ok (py "yolov8n.onnx"), <[ py "yolov8n.onnx" := file "onnx" ]> s) |}.

(** ultralytics whose export returns a path where no file is. *)
Definition yolo_ghost : ExportInt8.yolo_lib :=
  {| ExportInt8.yolo_model := unit;
     ExportInt8.YOLO := λ _ s, (Ok tt, s);
     ExportInt8.yolo_export := λ _ s, (Ok (py "yolov8n.onnx"), s) |}.

(** ultralytics whose loader raises. *)
Definition yolo_failing : ExportInt8.yolo_lib :=
  {| ExportInt8.yolo_model := unit;
     ExportInt8.YOLO := λ _ s, (Raise (runtime_error "bad checkpoint"), s);
     ExportInt8.yolo_export := ExportInt8.yolo_export yolo_ok |}.

(** The libraries of the OSNet script: every call returns, but the
    export ([export_ok = false]) or the checker ([check_ok = false])
    raises. *)
Definition osnet (export_ok check_ok : bool) : Osnet.osnet_lib :=
  {| Osnet.module := unit;
     Osnet.checkpoint := unit;
     Osnet.tensor := unit;
     Osnet.proto := unit;
     Osnet.session := unit;
     Osnet.array := unit;
     Osnet.build_model := λ s, (Ok tt, s);
     Osnet.torch_load := λ _ s, (Ok tt, s);
     Osnet.state_dict_of := λ _, None;
     Osnet.load_state_dict := λ _ _ s, (Ok tt, s);
     Osnet.randn := λ s, (Ok tt, s);
     Osnet.forward := λ _ _ s, (Ok tt, s);
     Osnet.tensor_shape := λ _, py "torch.Size([1, 512])";
     Osnet.tensor_min := λ _, py "0.0000";
     Osnet.tensor_max := λ _, py "1.0000";
     Osnet.l2_norm := λ _ s, (Ok (py "1.0000"), s);
     Osnet.torch_onnx_export := λ _ _ path s,
       if export_ok then (Ok tt, <[ path := file "onnx" ]> s)
       else (Raise (runtime_error "export failed"), s);
     Osnet.onnx_load := λ _ s, (Ok tt, s);
     Osnet.onnx_check_model := λ _ s,
       if check_ok then (Ok tt, s) else (Raise (runtime_error "invalid model"), s);
     Osnet.graph_input := λ _, Ok (py "input - [0, 3, 256, 128]");
     Osnet.graph_output := λ _, Ok (py "output - [0, 512]");
     Osnet.inference_session := λ _ s, (Ok tt, s);
     Osnet.session_run := λ _ _ s, (Ok tt, s);
     Osnet.array_shape := λ _, py "(1, 512)";
     Osnet.array_min := λ _, py "0.0000";
     Osnet.array_max := λ _, py "1.0000";
     Osnet.max_diff := λ _ _ s, (Ok (true, py "0.000000"), s) |}.

End Demo.

(** ** Notions used to state the properties *)

(** What the loop of [parse_cfg] appends when it leaves a block. *)
Definition close (b : Fastest.block) : list Fastest.block :=
  if bool_decide (b ≠ ∅) then [b] else [].

(** The bytes that store a sequence of 32-bit values. *)
Definition item_bytes (items : list Fastest.raw32) : list Byte.byte :=
  concat (map (λ it : Fastest.raw32,
                 match it with (a, b, c, d) => [a; b; c; d] end) items).

(** The outcome [x] with the events [t] before its own. *)
Definition prepend {A} (t : list event) (x : result A * fsys * list event)
    : result A * fsys * list event :=
  (x.1.1, x.1.2, t ++ x.2).

(** The third-party calls among the events. *)
Definition is_call (ev : event) : bool :=
  match ev with
  | Called _ _ => true
  | _ => false
  end.

Definition calls_of (evs : list event) : list event :=
  filter (λ ev, is_call ev = true) evs.

(** The third-party calls made after the first traceback was printed. *)
Fixpoint calls_after_failure (evs : list event) : list event :=
  match evs with
  | [] => []
  | Traceback _ :: evs' => calls_of evs'
  | _ :: evs' => calls_after_failure evs'
  end.

(** The computation returns: it raises nothing. *)
Definition returns {A} (x : result A * fsys * list event) : Prop :=
  ∃ a, outcome x = Ok a.

(** The models [main] of the quantization script selects. *)
Definition selected (H : host) (fs : fsys) : list str :=
  match listdir H Quantize.models_dir fs with
  | Ok filenames => filter (λ f, Quantize.is_input f = true) filenames
  | Raise _ => []
  end.

(** ** Files and directories used in the examples *)

(** A small config file and the file system that holds it. *)
Definition demo_cfg : list Byte.byte := Demo.file "# YOLO-Fastest
[net]
width = 416
batch=1
  # indented comment

[convolutional]
filters = 8
filters = 16
".

Definition demo_cfg_lines : list str :=
  [ py "# YOLO-Fastest
"; py "[net]
"; py "width = 416
"; py "batch=1
"; py "  # indented comment
"; py "
"; py "[convolutional]
"; py "filters = 8
"; py "filters = 16
" ].

Definition demo_fs : fsys := {[ py "yolo.cfg" := demo_cfg ]}.

Definition demo_blocks : list Fastest.block :=
  [ {[ py "type" := py "net"; py "width" := py "416"; py "batch" := py "1" ]};
    {[ py "type" := py "convolutional"; py "filters" := py "16" ]} ].

(** A file with a bracketed header and a line that holds no [=]. *)
Definition bad_cfg_fs : fsys := {[ py "bad.cfg" := Demo.file "[net]
batch
" ]}.

Definition demo_weights : list Byte.byte :=
  Demo.file "MAJRMINRREVNSEENSEENaaaabbbb".

(** A models directory with two models to quantize and one quantized. *)
Definition demo_models : fsys :=
  {[ py "models/a.onnx" := Demo.file "abc";
     py "models/b.onnx" := Demo.file "xyz";
     py "models/c_int8.onnx" := Demo.file "q" ]}.

(** A models directory with one model, and what a first run with the
    quantizer that raises for want of its cache file leaves. *)
Definition one_model : fsys := {[ py "models/a.onnx" := Demo.file "abc" ]}.

Definition after_failed_run : fsys :=
  final (Quantize.main Demo.host Demo.quant_flaky one_model).

(** The directory a run with a quantizer that works leaves. *)
Definition after_good_run : fsys :=
  final (Quantize.main Demo.host Demo.quant_ok demo_models).

(** ** Paths that may be directories *)

Module Paths.

(** Whether the path [p] is there: as a file, or as a directory, which
    is there when a file is under it.  The scripts test two paths that
    are directories, [.venv] and [tensorrt_inference]. *)
Definition present (p : str) (s : fsys) : bool :=
  bool_decide (is_Some (s !! p))
  || existsb (λ kv : str * list Byte.byte, startswith (p ++ py "/") kv.1) (map_to_list s).

(** [Path(p).exists()] for a path that may be a directory. *)
Definition path_exists (p : str) : M bool := λ s, (Ok (present p s), s, []).

End Paths.

(** ** The interactive part of convert_fastest_to_onnx.py *)

Module FastestMain.

(** [input(prompt)] raises [EOFError] when the input has ended. *)
Definition eof_error : exn :=
  Exn (OtherException (py "EOFError")) (py "EOF when reading a line").

(** [s.lower()] on the letters A-Z; the other cased letters are left as
    they are (none of them has [y] as its lower case, which is all
    [main] compares with). *)
Definition lower (s : str) : str :=
  map (λ c, if (65 <=? c) && (c <=? 90) then c + 32 else c) s.

(** [show_menu()]. *)
Definition show_menu : M unit :=
  print (py "
" ++ rule60) ;;
  print (py "🚀 YOLO-Fastest to ONNX Converter") ;;
  print rule60 ;;
  print (py "
Available models:") ;;
  print (py "  1. YOLO-Fastest-1.1    (0.35M params, 1.3MB)") ;;
  print (py "  2. YOLO-Fastest-XL     (0.92M params, 3.5MB)") ;;
  print (py "  3. YOLO-Fastest-1.1-Body (body keypoints)") ;;
  print (py "  4. Convert all models") ;;
  print (py "  0. Exit") ;;
  print [].

(** The [while True] loop of [main]; [stdin] holds the lines still to be
    read, and the prompt [input] writes is recorded like a printed
    line. *)
Fixpoint menu_loop (H : host) (L : Fastest.torch_lib) (MODELS_DIR : str)
    (stdin : list str) : M unit :=
  show_menu ;;
  print (py "Select an option: ") ;;
  match stdin with
  | [] => lift (Raise eof_error)
  | line :: stdin' =>
      let choice := strip line in
      if bool_decide (choice = py "0") then
        print (py "
👋 Goodbye!")
      else if bool_decide (choice = py "4") then
        Fastest.convert_all H L MODELS_DIR ;;
        menu_loop H L MODELS_DIR stdin'
      else if bool_decide (choice ∈ [py "1"; py "2"; py "3"]) then
        Fastest.convert H L MODELS_DIR choice ;;
        menu_loop H L MODELS_DIR stdin'
      else
        print (py "❌ Invalid choice. Please select 0-4.") ;;
        menu_loop H L MODELS_DIR stdin'
  end.

(** [main()], reading the lines of [stdin]. *)
Definition main (H : host) (L : Fastest.torch_lib) (MODELS_DIR : str)
    (stdin : list str) : M unit :=
  print (py "
⚠️  IMPORTANT NOTICE") ;;
  print rule60 ;;
  print (py "This converter requires manual implementation of the complete") ;;
  print (py "Darknet -> PyTorch architecture parsing.") ;;
  print [] ;;
  print (py "For production use, please use official conversion tools:") ;;
  print (py "  1. YOLO-Fastest official repo:") ;;
  print (py "     https://github.com/dog-qiuqiu/Yolo-Fastest") ;;
  print [] ;;
  print (py "  2. Or download pre-converted ONNX models:") ;;
  print (py "     https://github.com/dog-qiuqiu/Yolo-Fastest/releases") ;;
  print rule60 ;;
  print [] ;;
  print (py "Continue with placeholder conversion? (y/N): ") ;;
  match stdin with
  | [] => lift (Raise eof_error)
  | line :: stdin' =>
      let response := lower (strip line) in
      if bool_decide (response ≠ py "y") then
        print (py "
💡 Recommended: Download pre-converted ONNX models") ;;
        print (py "   See: docs/20.模型下载指南.md")
      else menu_loop H L MODELS_DIR stdin'
  end.

(** The body of [if __name__ == "__main__"]. *)
Definition script (H : host) (L : Fastest.torch_lib) (MODELS_DIR : str)
    (stdin : list str) : M unit :=
  venv_exists <- Paths.path_exists (py ".venv") ;;
  (if negb venv_exists then
     print (py "⚠️  Warning: .venv directory not found") ;;
     print (py "   Recommended: Activate virtual environment first") ;;
     print (py "   .venv\Scripts\Activate.ps1  # Windows") ;;
     print []
   else ret tt) ;;
  main H L MODELS_DIR stdin.

End FastestMain.

(** ** convert_fastest_darknet_to_onnx.py *)

Module Darknet.

Import Paths.

(** [' '.join(words)]. *)
Fixpoint join_spaces (words : list str) : str :=
  match words with
  | [] => []
  | [w] => w
  | w :: ws => w ++ py " " ++ join_spaces ws
  end.

(** The class of the exception [subprocess.run(..., check=True)] raises
    when the command returns a non-zero status. *)
Definition CalledProcessError : exn_class := OtherException (py "CalledProcessError").

(** [sys.exit(code)] raises [SystemExit]; nothing in this script catches
    it. *)
Definition system_exit (code : nat) : exn :=
  Exn (OtherException (py "SystemExit")) (str_of_nat code).

#[global] Instance exn_class_eq_dec : EqDecision exn_class.
Proof. solve_decision. Defined.

(** [try: m  except subprocess.CalledProcessError as e: h e]: an
    exception of another class is not caught. *)
Definition try_except_called_process {A} (m : M A) (h : exn → M A) : M A := λ s,
  match m s with
  | (Ok a, s1, t1) => (Ok a, s1, t1)
  | (Raise e, s1, t1) =>
      if bool_decide (exn_cls e = CalledProcessError) then
        match h e s1 with
        | (r, s2, t2) => (r, s2, t1 ++ t2)
        end
      else (Raise e, s1, t1)
  end.

(** The call into the operating system: [subprocess.run(cmd, check=True)]. *)
Record proc_lib := ProcLib {
  subprocess_run : list str → fsys → result unit * fsys;
}.

Definition repo_path : str := py "tensorrt_inference".

(** [download_conversion_tool()]. *)
Definition download_conversion_tool (P : proc_lib) : M str :=
  repo_exists <- path_exists repo_path ;;
  if repo_exists then
    print (py "✅ Conversion tool already exists at: " ++ repo_path) ;;
    ret repo_path
  else
  print (py "📥 Cloning conversion tool from GitHub...") ;;
  let cmd := [ py "git"; py "clone";
               py "https://github.com/linghu8812/tensorrt_inference.git" ] in
  try_except_called_process
    (extern (py "subprocess.run") cmd (subprocess_run P cmd) ;;
     print (py "✅ Successfully cloned to: " ++ repo_path) ;;
     ret repo_path)
    (λ e,
     print (py "❌ Failed to clone repo: " ++ exn_text e) ;;
     lift (Raise (system_exit 1))).

(** The entries of [models], in the order of the dictionary. *)
Record model_info := ModelInfo {
  name : str;
  cfg : str;
  weights : str;
  output : str;
  strides : str;
  neck : str;
}.

Definition models : list (str * model_info) :=
  [ (py "1", ModelInfo (py "YOLO-Fastest-1.1")
               (py "models/yolo-fastest-1.1/yolo-fastest-1.1.cfg")
               (py "models/yolo-fastest-1.1/yolo-fastest-1.1.weights")
               (py "models/yolo-fastest-1.1.onnx")
               (py "32 16") (py "FPN"));
    (py "2", ModelInfo (py "YOLO-Fastest-XL")
               (py "models/yolo-fastest-1.1/yolo-fastest-1.1-xl.cfg")
               (py "models/yolo-fastest-1.1/yolo-fastest-1.1-xl.weights")
               (py "models/yolo-fastest-xl.onnx")
               (py "32 16") (py "FPN")) ].

Definition models_get (key : str) : option model_info :=
  snd <$> List.find (λ kv, bool_decide (kv.1 = key)) models.

(** The loop that shows the models. *)
Fixpoint print_models (todo : list (str * model_info)) : M unit :=
  match todo with
  | [] => ret tt
  | (key, model) :: todo' =>
      print (py "  " ++ key ++ py ". " ++ name model) ;;
      print (py "     Config: " ++ cfg model) ;;
      print (py "     Weights: " ++ weights model) ;;
      print_models todo'
  end.

(** The command that runs the conversion script of the tool. *)
Definition export_command (script_path : str) (model : model_info) : list str :=
  [ py "python"; script_path;
    py "--cfg_file"; cfg model;
    py "--weights_file"; weights model;
    py "--output_file"; output model;
    py "--strides"; strides model;
    py "--neck"; neck model ].

(** [convert_yolo_fastest()], reading the lines of [stdin]; the prompt
    [input] writes is recorded like a printed line. *)
Definition convert_yolo_fastest (H : host) (P : proc_lib) (stdin : list str) : M unit :=
  print (py "
" ++ rule60) ;;
  print (py "🚀 YOLO-Fastest Darknet → ONNX Converter") ;;
  print rule60 ;;
  print (py "
Available models:") ;;
  print_models models ;;
  print (py "  0. Exit") ;;
  print (py "
Select model to convert (1/2/0): ") ;;
  match stdin with
  | [] => lift (Raise FastestMain.eof_error)
  | line :: _ =>
      let choice := strip line in
      if bool_decide (choice = py "0") then
        print (py "
👋 Goodbye!")
      else
      match models_get choice with
      | None => print (py "❌ Invalid choice")
      | Some model =>
          cfg_exists <- exists_ (cfg model) ;;
          if negb cfg_exists then
            print (py "❌ Config file not found: " ++ cfg model) ;;
            print (py "   Please ensure the model files are in the correct location")
          else
          weights_exists <- exists_ (weights model) ;;
          if negb weights_exists then
            print (py "❌ Weights file not found: " ++ weights model) ;;
            print (py "   Please ensure the model files are in the correct location")
          else
          repo <- download_conversion_tool P ;;
          let script_path :=
            pjoin (pjoin (pjoin repo (py "project")) (py "Yolov4")) (py "export_onnx.py") in
          script_exists <- exists_ script_path ;;
          if negb script_exists then
            print (py "❌ Conversion script not found: " ++ script_path)
          else
          let cmd := export_command script_path model in
          print (py "
🔄 Converting " ++ name model ++ py "...") ;;
          print (py "Command: " ++ join_spaces cmd) ;;
          try_except_called_process
            (extern (py "subprocess.run") cmd (subprocess_run P cmd) ;;
             print (py "
✅ Successfully converted!") ;;
             print (py "   Output: " ++ output model) ;;
             output_exists <- exists_ (output model) ;;
             if output_exists then
               size <- getsize (output model) ;;
               print (py "   Size: " ++ fmt_mb H size ++ py " MB")
             else ret tt)
            (λ e,
             print (py "
❌ Conversion failed: " ++ exn_text e) ;;
             print (py "
Possible issues:") ;;
             print (py "  1. Missing dependencies (torch, onnx, numpy)") ;;
             print (py "  2. Incompatible model format") ;;
             print (py "  3. Path issues") ;;
             print (py "
Try installing dependencies:") ;;
             print (py "  pip install torch torchvision onnx numpy"))
      end
  end.

(** [main()]; [auto] is [args.auto], as [argparse] read it from the
    command line. *)
Definition main (H : host) (P : proc_lib) (auto : bool) (stdin : list str) : M unit :=
  venv_exists <- path_exists (py ".venv") ;;
  (if negb venv_exists then
     print (py "⚠️  Warning: Virtual environment not found") ;;
     print (py "   Recommended: Activate .venv first") ;;
     print (py "   .venv\Scripts\Activate.ps1  # Windows") ;;
     print []
   else ret tt) ;;
  if auto then print (py "🤖 Auto mode: Converting all models...")
  else convert_yolo_fastest H P stdin.

End Darknet.


(** ** Concrete operating-system calls, to run the scripts *)

Module DemoProc.

(** [git clone] writes the conversion script of the tool, and the
    conversion command writes the file named after [--output_file]. *)
Definition proc_ok : Darknet.proc_lib :=
  {| Darknet.subprocess_run := λ cmd s,
       match cmd with
       | [_; _; _] =>
           (Ok tt, <[ py "tensorrt_inference/project/Yolov4/export_onnx.py"
                      := Demo.file "script" ]> s)
       | _ => (Ok tt, <[ default [] (cmd !! 7%nat) := Demo.file "onnx" ]> s)
       end |}.

(** Every command returns a non-zero status. *)
Definition proc_failing : Darknet.proc_lib :=
  {| Darknet.subprocess_run := λ _ s,
       (Raise (Exn Darknet.CalledProcessError
                 (py "Command returned non-zero exit status 1.")), s) |}.

(** No command can be started: the program is not installed. *)
Definition proc_missing : Darknet.proc_lib :=
  {| Darknet.subprocess_run := λ _ s,
       (Raise (Exn FileNotFoundError (py "[Errno 2] No such file or directory")), s) |}.

(** The two model files of the first model, and the same with the
    conversion tool beside them. *)
Definition darknet_inputs : fsys :=
  {[ py "models/yolo-fastest-1.1/yolo-fastest-1.1.cfg" := Demo.file "[net]
";
     py "models/yolo-fastest-1.1/yolo-fastest-1.1.weights" := Demo.file "weights" ]}.

Definition darknet_ready : fsys :=
  <[ py "tensorrt_inference/project/Yolov4/export_onnx.py" := Demo.file "script" ]>
    darknet_inputs.

End DemoProc.

(** ** More notions used to state the properties *)

(** The events are printed lines only: no file was opened, no library
    was called, no traceback was written. *)
Definition printed_only (evs : list event) : Prop :=
  Forall (λ ev, match ev with Printed _ => True | _ => False end) evs.

(** A line that is the choice [0] of a menu. *)
Definition is_exit (line : str) : bool := bool_decide (strip line = py "0").

(** The command that clones the conversion tool, and the script of the
    tool that [convert_yolo_fastest] runs. *)
Definition git_clone : list str :=
  [ py "git"; py "clone"; py "https://github.com/linghu8812/tensorrt_inference.git" ].

Definition tool_script : str :=
  pjoin (pjoin (pjoin Darknet.repo_path (py "project")) (py "Yolov4")) (py "export_onnx.py").

(** A line the loop of [parse_cfg] passes over: blank, or a comment. *)
Definition is_skipped (line : str) : bool :=
  bool_decide (strip line = []) || startswith (py "#") (strip line).

(** The block is not empty; the block has a ["type"] entry. *)
Definition has_type (b : Fastest.block) : Prop := is_Some (b !! py "type").

(** The computation keeps the property [P] of the file system. *)
Definition preserves {A : Type} (P : fsys → Prop) (m : Sys.M A) : Prop :=
  ∀ s, P s → P (final (m s)).

(** What the loop of [parse_cfg] keeps: no block appended is empty,
    every block after the first one appended has a ["type"], and so has
    the block being filled once a block was appended. *)
Definition blocks_shaped (blocks : list Fastest.block) (blk : Fastest.block) : Prop :=
  Forall (λ b, b ≠ ∅) blocks
  ∧ Forall has_type (tail blocks)
  ∧ (blocks ≠ [] → has_type blk).

(** The small config file without its comment lines and its blank
    line, beside the file itself. *)
Definition demo_cfg_fs : fsys :=
  {[ py "yolo.cfg" := demo_cfg;
     py "clean.cfg" := Demo.file "[net]
width = 416
batch=1
[convolutional]
filters = 8
filters = 16
" ]}.

(** The three calls [convert] makes for a model, in their order. *)
Definition convert_calls (output_path : str) : list event :=
  [ Called (py "torch.onnx.export") [output_path];
    Called (py "onnx.load") [output_path];
    Called (py "onnx.checker.check_model") [] ].

(** * Properties *)

(** ** Strings *)

Section StringFacts.

Import CfgSpec.

Example py_literal : py "❌ [net]" = [10060; 32; 91; 110; 101; 116; 93].
Proof. vm_compute. reflexivity. Qed.

Example strip_line : strip (py "  width = 320
") = py "width = 320".
Proof. vm_compute. reflexivity. Qed.

Example split_equals : split 61 (py "a=b=c") = [py "a"; py "b"; py "c"].
Proof. vm_compute. reflexivity. Qed.

Example slice_header : slice_1_m1 (py "[net]") = py "net".
Proof. vm_compute. reflexivity. Qed.

Example replace_every_occurrence : replace (py ".onnx") [] (py "a.onnx.onnx") = py "a".
Proof. vm_compute. reflexivity. Qed.

Example thousands : fmt_thousands 1234 = py "1,234".
Proof. vm_compute. reflexivity. Qed.

Lemma py_hash : py "#" = [35].
Proof. reflexivity. Qed.

Lemma py_lbracket : py "[" = [91].
Proof. reflexivity. Qed.

Lemma startswith_char (c x : N) (s : str) : startswith [c] (x :: s) = (x =? c).
Proof. cbn [startswith]. rewrite andb_true_r. apply N.eqb_sym. Qed.

Lemma removelast_take {A} (l : list A) : removelast l = take (length l - 1) l.
Proof.
  induction l as [|a [|b l] IH]; [done..|].
  change (removelast (a :: b :: l)) with (a :: removelast (b :: l)).
  rewrite IH. cbn [length]. rewrite !Nat.sub_succ, Nat.sub_0_r. done.
Qed.

(** [s[1:-1]] is the text between the two characters at the ends. *)
Lemma slice_between (l : str) : slice_1_m1 l = between_brackets l.
Proof.
  unfold slice_1_m1, between_brackets. rewrite removelast_take.
  destruct l as [|a l]; [done|]. cbn [tail drop length].
  rewrite drop_0. f_equal; lia.
Qed.

Lemma split_nonempty (c : N) (s : str) : split c s ≠ [].
Proof. destruct s as [|x s]; cbn; [done|]. destruct (x =? c), (split c s); done. Qed.

Lemma split_length (c : N) (s : str) : length (split c s) = S (occurrences c s).
Proof.
  induction s as [|x s IH]; [done|]. cbn [split occurrences].
  destruct (x =? c); cbn [length]; [by rewrite IH|].
  destruct (split c s) eqn:E; [by destruct (split_nonempty c s)|].
  cbn [length] in *. lia.
Qed.

Lemma split_no_occurrence (c : N) (s : str) : occurrences c s = 0%nat → split c s = [s].
Proof.
  induction s as [|x s IH]; [done|]. cbn [split occurrences].
  destruct (x =? c); [done|]. intros Hs. by rewrite IH.
Qed.

Lemma split_one_occurrence (c : N) (s : str) :
  occurrences c s = 1%nat → split c s = [before c s; after c s].
Proof.
  induction s as [|x s IH]; [done|]. cbn [split occurrences before after].
  destruct (x =? c).
  - intros Hs. by rewrite split_no_occurrence by lia.
  - intros Hs. by rewrite IH.
Qed.

(** Unpacking the pieces into two names succeeds exactly on one [=]. *)
Lemma unpack2_split (c : N) (s : str) :
  unpack2 (split c s)
  = if bool_decide (occurrences c s = 1%nat) then Ok (before c s, after c s)
    else match split c s with
         | [_] => Raise (Exn ValueError (py "not enough values to unpack (expected 2, got 1)"))
         | _ => Raise (Exn ValueError (py "too many values to unpack (expected 2)"))
         end.
Proof.
  case_bool_decide as Hocc.
  - rewrite split_one_occurrence by assumption. reflexivity.
  - pose proof (split_length c s) as Hlen.
    destruct (split c s) as [|a [|b [|d l]]]; cbn [length] in Hlen;
      [lia | reflexivity | lia | reflexivity].
Qed.

End StringFacts.

(** ** The config reader *)

Section ParseCfg.

Import Fastest CfgSpec.

(** One round of the loop, by the kind of the line. *)
Lemma parse_lines_step (line : str) (rest : list str) (blocks : list block) (blk : block) :
  classify line ≠ Malformed →
  parse_lines (line :: rest) blocks blk
  = match classify line with
    | Skipped => parse_lines rest blocks blk
    | Header t => parse_lines rest (blocks ++ close blk) {[ py "type" := t ]}
    | Entry k v => parse_lines rest blocks (<[ k := v ]> blk)
    | Malformed => Ok (blocks, blk)
    end.
Proof.
  unfold classify. cbn [parse_lines]. rewrite py_hash, py_lbracket.
  destruct (strip line) as [|c l] eqn:El; [intros _; reflexivity|].
  rewrite (bool_decide_eq_false_2 (c :: l = [])) by discriminate.
  rewrite !startswith_char. cbn [orb].
  destruct (c =? 35); [intros _; reflexivity|].
  destruct (c =? 91).
  - destruct (bool_decide (List.last (c :: l) 0 = 93)); [intros _|by intros []].
    rewrite slice_between. unfold close.
    destruct (bool_decide (blk ≠ ∅)); [reflexivity|]. by rewrite app_nil_r.
  - destruct (bool_decide (occurrences 61 (c :: l) = 1%nat)) eqn:Hocc; [intros _|by intros []].
    rewrite unpack2_split, Hocc. reflexivity.
Qed.

(** On a line with no [=] or more than one, the loop raises. *)
Lemma parse_lines_raises (line : str) (rest : list str) (blocks : list block) (blk : block) :
  splittable line = false →
  ∃ e, parse_lines (line :: rest) blocks blk = Raise e ∧ exn_cls e = ValueError.
Proof.
  unfold splittable. cbn [parse_lines]. intros Hs.
  apply orb_false_elim in Hs as [Hs Hocc].
  apply orb_false_elim in Hs as [Hs Hbr].
  rewrite Hs, Hbr, unpack2_split, Hocc.
  destruct (split 61 (strip line)) as [|a [|b l]]; eexists; (split; [reflexivity|reflexivity]).
Qed.

Lemma parse_lines_splittable (line : str) (rest : list str) (blocks : list block) (blk : block) :
  splittable line = true →
  ∃ blocks' blk', parse_lines (line :: rest) blocks blk = parse_lines rest blocks' blk'.
Proof.
  unfold splittable. cbn [parse_lines]. intros Hs.
  destruct (bool_decide (strip line = []) || startswith (py "#") (strip line)) eqn:E1;
    [by eauto|].
  destruct (startswith (py "[") (strip line)) eqn:E2; [by eauto|].
  cbn [orb] in Hs. rewrite unpack2_split, Hs. cbn [rbind]. by eauto.
Qed.

(** The loop returns exactly when every line can be taken. *)
Lemma parse_lines_ok_iff (lines : list str) (blocks : list block) (blk : block) :
  (∃ st, parse_lines lines blocks blk = Ok st) ↔ Forall (λ l, splittable l = true) lines.
Proof.
  revert blocks blk. induction lines as [|line rest IH]; intros blocks blk.
  - split; [constructor | by eexists].
  - destruct (splittable line) eqn:Hs.
    + destruct (parse_lines_splittable line rest blocks blk Hs) as (blocks' & blk' & ->).
      rewrite IH. split; [by constructor | by inversion 1].
    + destruct (parse_lines_raises line rest blocks blk Hs) as (e & -> & _).
      split; [intros [st Hst]; discriminate | inversion 1; congruence].
Qed.

Lemma record_nonempty (b : block) (es : list (str * str)) : b ≠ ∅ → record b es ≠ ∅.
Proof.
  revert b. induction es as [|[k v] es IH]; intros b Hb; [done|].
  apply IH, insert_non_empty.
Qed.

Lemma close_record_empty (es : list (str * str)) :
  close (record ∅ es) = match es with [] => [] | _ => [record ∅ es] end.
Proof.
  unfold close. destruct es as [|[k v] es]; [done|].
  rewrite bool_decide_eq_true_2; [done|].
  change (record ∅ ((k, v) :: es)) with (record (<[ k := v ]> ∅) es).
  apply record_nonempty, insert_non_empty.
Qed.

(** The loop over a well-formed file leaves the blocks of the file. *)
Lemma parse_lines_blocks (lines : list str) :
  well_formed lines → ∀ blocks blk, ∃ bs b,
    parse_lines lines blocks blk = Ok (bs, b)
    ∧ bs ++ close b
      = blocks ++ close (record blk (entries (map classify lines)))
          ++ header_blocks (map classify lines).
Proof.
  induction 1 as [|line rest Hline _ IH]; intros blocks blk.
  - exists blocks, blk. by rewrite app_nil_r.
  - rewrite parse_lines_step by assumption. cbn [map].
    destruct (classify line) as [|t|k v|] eqn:Ek.
    + apply IH.
    + destruct (IH (blocks ++ close blk) {[ py "type" := t ]}) as (bs & b & -> & Hbs).
      exists bs, b. split; [done|]. rewrite Hbs. cbn [entries header_blocks record foldl].
      rewrite <- app_assoc. do 2 f_equal. unfold close at 1.
      rewrite bool_decide_eq_true_2; [done|].
      apply record_nonempty. apply (insert_non_empty (M:=gmap str)).
    + destruct (IH blocks (<[ k := v ]> blk)) as (bs & b & -> & Hbs).
      exists bs, b. split; [done|]. by rewrite Hbs.
    + done.
Qed.

Lemma parse_cfg_lines_blocks (lines : list str) :
  well_formed lines → parse_cfg_lines lines = Ok (blocks_of lines).
Proof.
  intros Hwf. unfold parse_cfg_lines.
  destruct (parse_lines_blocks lines Hwf [] ∅) as (bs & b & -> & Hbs).
  cbn [rbind fst snd app] in *. f_equal.
  transitivity (bs ++ close b).
  { unfold close. by destruct (bool_decide (b ≠ ∅)); rewrite ?app_nil_r. }
  rewrite Hbs, close_record_empty. unfold blocks_of.
  by destruct (entries (map classify lines)).
Qed.

Lemma parse_cfg_lines_ok_iff (lines : list str) :
  (∃ blocks, parse_cfg_lines lines = Ok blocks) ↔ Forall (λ l, splittable l = true) lines.
Proof.
  rewrite <- (parse_lines_ok_iff lines [] ∅). unfold parse_cfg_lines.
  destruct (parse_lines lines [] ∅) as [st|e]; cbn [rbind].
  - split; intros _; by eexists.
  - split; intros [x Hx]; discriminate.
Qed.

(** Reading the file and running the loop. *)
Lemma parse_cfg_run (H : host) (cfg_file : str) (fs : fsys) (bytes : list Byte.byte)
    (lines : list str) :
  fs !! cfg_file = Some bytes → readlines H bytes = Ok lines →
  parse_cfg H cfg_file fs = (parse_cfg_lines lines, fs, [Opened cfg_file]).
Proof.
  intros Hf Hl. unfold parse_cfg, bind, read_file, lift. rewrite Hf, Hl.
  by destruct (parse_cfg_lines lines).
Qed.

(** What a recorded block binds a key to. *)
Lemma record_lookup (b : block) (es : list (str * str)) (k : str) :
  record b es !! k = match last_value k es with Some v => Some v | None => b !! k end.
Proof.
  revert b. induction es as [|[k' v] es IH]; intros b; [done|].
  cbn [record foldl last_value fst snd]. fold (record (<[k':=v]> b) es). rewrite IH.
  destruct (last_value k es); [done|].
  case_bool_decide as Hk; [subst; by rewrite lookup_insert_eq|by rewrite lookup_insert_ne].
Qed.

Lemma header_blocks_last_value (ks : list line_kind) :
  Forall2 (λ (blk : block) es, ∀ k v, last_value k es = Some v → blk !! k = Some v)
    (header_blocks ks) (header_entries ks).
Proof.
  induction ks as [|[|t|k v|] ks IH]; cbn [header_blocks header_entries]; try done.
  constructor; [|done]. intros k v Hkv. by rewrite record_lookup, Hkv.
Qed.

Lemma blocks_of_last_value (lines : list str) :
  Forall2 (λ (blk : block) es, ∀ k v, last_value k es = Some v → blk !! k = Some v)
    (blocks_of lines) (block_entries lines).
Proof.
  unfold blocks_of, block_entries. apply Forall2_app; [|apply header_blocks_last_value].
  destruct (entries (map classify lines)) as [|e es] eqn:E; [constructor|].
  constructor; [|constructor]. intros k v Hkv. by rewrite record_lookup, Hkv.
Qed.

End ParseCfg.

Example demo_cfg_readlines : Demo.readlines demo_cfg = Ok demo_cfg_lines.
Proof. vm_compute. reflexivity. Qed.

Example demo_cfg_well_formed : CfgSpec.well_formed demo_cfg_lines.
Proof. repeat constructor; vm_compute; discriminate. Qed.

Example demo_cfg_blocks_of : CfgSpec.blocks_of demo_cfg_lines = demo_blocks.
Proof. vm_compute. reflexivity. Qed.

(** C1: for a config file whose headers and [key = value] lines are well
    formed, [parse_cfg] returns the blocks of the file in file order:
    blank lines and [#] lines are skipped, each [[title]] line starts a
    block that holds the stripped title under ["type"], and each
    [key = value] line is recorded in the current block with the key and
    the value stripped.  The file is opened and nothing else happens. *)
Theorem parse_cfg_blocks_in_file_order (H : host) (cfg_file : str) (fs : fsys)
    (bytes : list Byte.byte) (lines : list str) :
  fs !! cfg_file = Some bytes →
  readlines H bytes = Ok lines →
  CfgSpec.well_formed lines →
  Fastest.parse_cfg H cfg_file fs = (Ok (CfgSpec.blocks_of lines), fs, [Opened cfg_file]).
Proof.
  intros Hf Hl Hwf. rewrite (parse_cfg_run H cfg_file fs bytes lines Hf Hl).
  by rewrite parse_cfg_lines_blocks.
Qed.

(** The blocks of the small config file. *)
Lemma parse_cfg_blocks_in_file_order_witness :
  Fastest.parse_cfg Demo.host (py "yolo.cfg") demo_fs
  = (Ok (CfgSpec.blocks_of demo_cfg_lines), demo_fs, [Opened (py "yolo.cfg")]).
Proof.
  apply (parse_cfg_blocks_in_file_order Demo.host (py "yolo.cfg") demo_fs
           demo_cfg demo_cfg_lines).
  - vm_compute. reflexivity.
  - exact demo_cfg_readlines.
  - exact demo_cfg_well_formed.
Defined.

(** C2, as stated, fails: a line that is no header, no comment and not
    blank must hold exactly one [=], or [parse_cfg] raises. *)
Lemma parse_cfg_raises_without_equals :
  outcome (Fastest.parse_cfg Demo.host (py "bad.cfg") bad_cfg_fs)
  = Raise (Exn ValueError (py "not enough values to unpack (expected 2, got 1)")).
Proof. vm_compute. reflexivity. Qed.

Lemma parse_lines_raise_class (lines : list str) :
  ∀ blocks blk e, Fastest.parse_lines lines blocks blk = Raise e → exn_cls e = ValueError.
Proof.
  induction lines as [|line rest IH]; intros blocks blk e; [discriminate|].
  destruct (CfgSpec.splittable line) eqn:Hs.
  - destruct (parse_lines_splittable line rest blocks blk Hs) as (blocks' & blk' & ->).
    apply IH.
  - destruct (parse_lines_raises line rest blocks blk Hs) as (e' & -> & Hcls).
    by intros [= <-].
Qed.

(** C2, amended: [parse_cfg] returns a block list exactly when every
    line that is not blank, not a comment and does not start with a
    bracket holds exactly one [=]; nothing else about the keys or the
    values is checked, and what it raises otherwise is a [ValueError]. *)
Theorem parse_cfg_returns_iff_splittable (H : host) (cfg_file : str) (fs : fsys)
    (bytes : list Byte.byte) (lines : list str) :
  fs !! cfg_file = Some bytes →
  readlines H bytes = Ok lines →
  ((∃ blocks, outcome (Fastest.parse_cfg H cfg_file fs) = Ok blocks)
     ↔ Forall (λ l, CfgSpec.splittable l = true) lines)
  ∧ (∀ e, outcome (Fastest.parse_cfg H cfg_file fs) = Raise e → exn_cls e = ValueError).
Proof.
  intros Hf Hl. rewrite (parse_cfg_run H cfg_file fs bytes lines Hf Hl).
  unfold outcome. cbn [fst]. split; [apply parse_cfg_lines_ok_iff|].
  unfold Fastest.parse_cfg_lines. intros e.
  destruct (Fastest.parse_lines lines [] ∅) as [st|e'] eqn:E; cbn [rbind]; [discriminate|].
  intros [= <-]. by apply (parse_lines_raise_class lines [] ∅).
Qed.

(** The small config file: every line can be taken. *)
Lemma parse_cfg_returns_iff_splittable_witness :
  ((∃ blocks, outcome (Fastest.parse_cfg Demo.host (py "yolo.cfg") demo_fs) = Ok blocks)
     ↔ Forall (λ l, CfgSpec.splittable l = true) demo_cfg_lines)
  ∧ (∀ e, outcome (Fastest.parse_cfg Demo.host (py "yolo.cfg") demo_fs) = Raise e
          → exn_cls e = ValueError).
Proof.
  apply (parse_cfg_returns_iff_splittable Demo.host (py "yolo.cfg") demo_fs
           demo_cfg demo_cfg_lines).
  - vm_compute. reflexivity.
  - exact demo_cfg_readlines.
Defined.

(** C10: in the mapping returned for a block, each key of a
    [key = value] line of that block is bound to the stripped value of
    the last such line in the block. *)
Theorem parse_cfg_last_value_wins (H : host) (cfg_file : str) (fs : fsys)
    (bytes : list Byte.byte) (lines : list str) :
  fs !! cfg_file = Some bytes →
  readlines H bytes = Ok lines →
  CfgSpec.well_formed lines →
  ∃ blocks, outcome (Fastest.parse_cfg H cfg_file fs) = Ok blocks
    ∧ Forall2 (λ (blk : Fastest.block) es,
                 ∀ k v, CfgSpec.last_value k es = Some v → blk !! k = Some v)
        blocks (CfgSpec.block_entries lines).
Proof.
  intros Hf Hl Hwf. exists (CfgSpec.blocks_of lines).
  rewrite (parse_cfg_run H cfg_file fs bytes lines Hf Hl).
  rewrite parse_cfg_lines_blocks by assumption.
  split; [reflexivity|apply blocks_of_last_value].
Qed.

Example demo_block_entries :
  CfgSpec.block_entries demo_cfg_lines
  = [ [(py "width", py "416"); (py "batch", py "1")];
      [(py "filters", py "8"); (py "filters", py "16")] ].
Proof. vm_compute. reflexivity. Qed.

(** The small config file: [filters] is bound to its last value. *)
Lemma parse_cfg_last_value_wins_witness :
  ∃ blocks, outcome (Fastest.parse_cfg Demo.host (py "yolo.cfg") demo_fs) = Ok blocks
    ∧ Forall2 (λ (blk : Fastest.block) es,
                 ∀ k v, CfgSpec.last_value k es = Some v → blk !! k = Some v)
        blocks (CfgSpec.block_entries demo_cfg_lines).
Proof.
  apply (parse_cfg_last_value_wins Demo.host (py "yolo.cfg") demo_fs
           demo_cfg demo_cfg_lines).
  - vm_compute. reflexivity.
  - exact demo_cfg_readlines.
  - exact demo_cfg_well_formed.
Defined.

(** ** The weights reader *)

Section LoadWeights.

Import Fastest.

Lemma items32_app (n : nat) : ∀ a b : list Byte.byte,
  length a = (4 * n)%nat → items32 (a ++ b) = items32 a ++ items32 b.
Proof.
  induction n as [|n IH]; intros a b Hlen.
  - destruct a; [reflexivity|discriminate].
  - destruct a as [|a1 [|a2 [|a3 [|a4 a]]]]; cbn [length] in Hlen; try lia.
    cbn [items32 app]. f_equal. apply IH. lia.
Qed.

Lemma items32_length (n : nat) : ∀ a : list Byte.byte,
  length a = (4 * n)%nat → length (items32 a) = n.
Proof.
  induction n as [|n IH]; intros a Hlen.
  - destruct a; [reflexivity|discriminate].
  - destruct a as [|a1 [|a2 [|a3 [|a4 a]]]]; cbn [length] in Hlen; try lia.
    cbn [items32 length]. f_equal. apply IH. lia.
Qed.

Lemma item_bytes_items32 (n : nat) : ∀ a : list Byte.byte,
  length a = (4 * n)%nat → item_bytes (items32 a) = a.
Proof.
  induction n as [|n IH]; intros a Hlen.
  - destruct a; [reflexivity|discriminate].
  - destruct a as [|a1 [|a2 [|a3 [|a4 a]]]]; cbn [length] in Hlen; try lia.
    unfold item_bytes. cbn [items32 map concat app]. do 4 f_equal. apply IH. lia.
Qed.

Lemma load_weights_bytes_split (header body : list Byte.byte) :
  length header = 20%nat →
  load_weights_bytes (header ++ body) = (items32 header, items32 body).
Proof.
  intros Hh. unfold load_weights_bytes, fromfile32.
  rewrite (items32_app 5 header body) by exact Hh.
  pose proof (items32_length 5 header Hh) as Hlen.
  rewrite take_app_length' by (symmetry; exact Hlen). rewrite Hlen.
  change (4 * 5)%nat with 20%nat. rewrite <- Hh, drop_app_length. reflexivity.
Qed.

End LoadWeights.

(** C3, as stated, fails on files [load_weights] takes all the same: of
    a file of 7 bytes it reads a header of one value, not five, and
    returns nothing; of a file of 27 bytes it returns one value, and
    the last three bytes of the remainder are in no value. *)
Lemma load_weights_on_other_sizes :
  length (Fastest.load_weights_bytes (Demo.file "MAJRMIN")).1 = 1%nat
  ∧ Fastest.load_weights (py "w") {[ py "w" := Demo.file "MAJRMIN" ]}
    = (Ok [], {[ py "w" := Demo.file "MAJRMIN" ]}, [Opened (py "w")])
  ∧ item_bytes (Fastest.load_weights_bytes (Demo.file "MAJRMINRREVNSEENSEENaaaabbb")).2
    = Demo.file "aaaa"
  ∧ drop 20 (Demo.file "MAJRMINRREVNSEENSEENaaaabbb") = Demo.file "aaaabbb".
Proof. repeat split; vm_compute; reflexivity. Qed.

(** C3, amended: of a weights file made of 20 bytes and a whole number
    of 4-byte values after them, [load_weights] reads the first 20
    bytes as exactly five 32-bit header values and returns the rest of
    the file as a flat sequence of 32-bit values: the values returned
    are stored by exactly the bytes after the header, whatever the
    header holds, and nothing relates a value to a layer. *)
Theorem load_weights_skips_header (weights_file : str) (fs : fsys)
    (header body : list Byte.byte) (n : nat) :
  fs !! weights_file = Some (header ++ body) →
  length header = 20%nat →
  length body = (4 * n)%nat →
  ∃ weights : list Fastest.raw32,
    Fastest.load_weights weights_file fs = (Ok weights, fs, [Opened weights_file])
    ∧ length (Fastest.load_weights_bytes (header ++ body)).1 = 5%nat
    ∧ item_bytes (Fastest.load_weights_bytes (header ++ body)).1 = header
    ∧ item_bytes weights = body
    ∧ length weights = n.
Proof.
  intros Hf Hh Hb. exists (Fastest.items32 body).
  unfold Fastest.load_weights, bind, read_file, ret. rewrite Hf.
  rewrite load_weights_bytes_split by exact Hh. cbn [fst snd app].
  repeat split.
  - by apply (items32_length 5).
  - by apply (item_bytes_items32 5).
  - by apply (item_bytes_items32 n).
  - by apply items32_length.
Qed.

(** A weights file with two values after its header. *)
Lemma load_weights_skips_header_witness :
  ∃ weights : list Fastest.raw32,
    Fastest.load_weights (py "w.weights") {[ py "w.weights" := demo_weights ]}
    = (Ok weights, {[ py "w.weights" := demo_weights ]}, [Opened (py "w.weights")])
    ∧ length (Fastest.load_weights_bytes demo_weights).1 = 5%nat
    ∧ item_bytes (Fastest.load_weights_bytes demo_weights).1 = Demo.file "MAJRMINRREVNSEENSEEN"
    ∧ item_bytes weights = Demo.file "aaaabbbb"
    ∧ length weights = 2%nat.
Proof.
  apply (load_weights_skips_header (py "w.weights") {[ py "w.weights" := demo_weights ]}
           (Demo.file "MAJRMINRREVNSEENSEEN") (Demo.file "aaaabbbb") 2).
  - vm_compute. reflexivity.
  - reflexivity.
  - reflexivity.
Defined.

Example load_weights_demo :
  outcome (Fastest.load_weights (py "w.weights") {[ py "w.weights" := demo_weights ]})
  = Ok [ (Byte.x61, Byte.x61, Byte.x61, Byte.x61); (Byte.x62, Byte.x62, Byte.x62, Byte.x62) ].
Proof. vm_compute. reflexivity. Qed.

(** ** Running a script *)

Arguments py : simpl never.
Arguments rule60 : simpl never.

Lemma prepend_nil {A} (x : result A * fsys * list event) : prepend [] x = x.
Proof. by destruct x as [[r s] t]. Qed.

Lemma prepend_prepend {A} (t1 t2 : list event) (x : result A * fsys * list event) :
  prepend t1 (prepend t2 x) = prepend (t1 ++ t2) x.
Proof. unfold prepend. cbn [fst snd]. by rewrite app_assoc. Qed.

Lemma outcome_prepend {A} (t : list event) (x : result A * fsys * list event) :
  outcome (prepend t x) = outcome x.
Proof. reflexivity. Qed.

Lemma final_prepend {A} (t : list event) (x : result A * fsys * list event) :
  final (prepend t x) = final x.
Proof. reflexivity. Qed.

Lemma events_prepend {A} (t : list event) (x : result A * fsys * list event) :
  events (prepend t x) = t ++ events x.
Proof. reflexivity. Qed.

Section Runs.

Context {A B : Type}.

Lemma bind_run (m : M A) (k : A → M B) (s : fsys) :
  bind m k s = match m s with
               | (Ok a, s1, t1) => prepend t1 (k a s1)
               | (Raise e, s1, t1) => (Raise e, s1, t1)
               end.
Proof.
  unfold bind, prepend. destruct (m s) as [[[a|e] s1] t1]; [|reflexivity].
  by destruct (k a s1) as [[r s2] t2].
Qed.

Lemma try_except_run (m : M A) (h : exn → M A) (s : fsys) :
  try_except m h s = match m s with
                     | (Ok a, s1, t1) => (Ok a, s1, t1)
                     | (Raise e, s1, t1) => prepend t1 (h e s1)
                     end.
Proof.
  unfold try_except, prepend. destruct (m s) as [[[a|e] s1] t1]; [reflexivity|].
  by destruct (h e s1) as [[r s2] t2].
Qed.

Lemma bind_ret (a : A) (k : A → M B) (s : fsys) : bind (ret a) k s = k a s.
Proof. rewrite bind_run. unfold ret. apply prepend_nil. Qed.

Lemma bind_lift (r : result A) (k : A → M B) (s : fsys) :
  bind (lift r) k s = match r with Ok a => k a s | Raise e => (Raise e, s, []) end.
Proof. rewrite bind_run. unfold lift. destruct r; [apply prepend_nil|reflexivity]. Qed.

Lemma bind_extern (fn : str) (args : list str) (o : fsys → result A * fsys)
    (k : A → M B) (s : fsys) :
  bind (extern fn args o) k s
  = match o s with
    | (Ok a, s1) => prepend [Called fn args] (k a s1)
    | (Raise e, s1) => (Raise e, s1, [Called fn args])
    end.
Proof. rewrite bind_run. unfold extern. by destruct (o s) as [[a|e] s1]. Qed.

End Runs.

Section RunsUnit.

Context {B : Type}.

Lemma bind_print (line : str) (k : unit → M B) (s : fsys) :
  bind (print line) k s = prepend [Printed line] (k tt s).
Proof. by rewrite bind_run. Qed.

Lemma bind_print_exc (e : exn) (k : unit → M B) (s : fsys) :
  bind (print_exc e) k s = prepend [Traceback e] (k tt s).
Proof. by rewrite bind_run. Qed.

Lemma bind_exists (path : str) (k : bool → M B) (s : fsys) :
  bind (exists_ path) k s = k (bool_decide (is_Some (s !! path))) s.
Proof. rewrite bind_run. unfold exists_. apply prepend_nil. Qed.

Lemma bind_getsize (path : str) (k : nat → M B) (s : fsys) :
  bind (getsize path) k s
  = match s !! path with
    | Some bytes => k (length bytes) s
    | None => (Raise (no_such_file path), s, [])
    end.
Proof. rewrite bind_run. unfold getsize. destruct (s !! path); [apply prepend_nil|done]. Qed.

Lemma bind_move (src dst : str) (k : unit → M B) (s : fsys) :
  bind (move src dst) k s
  = match s !! src with
    | Some bytes => k tt (<[ dst := bytes ]> (delete src s))
    | None => (Raise (no_such_file src), s, [])
    end.
Proof. rewrite bind_run. unfold move. destruct (s !! src); [apply prepend_nil|done]. Qed.

End RunsUnit.

Lemma print_run (line : str) (s : fsys) : print line s = (Ok tt, s, [Printed line]).
Proof. reflexivity. Qed.

Lemma ret_run {A} (a : A) (s : fsys) : ret a s = (Ok a, s, []).
Proof. reflexivity. Qed.

Lemma prepend_pair {A} (t t' : list event) (r : result A) (s : fsys) :
  prepend t (r, s, t') = (r, s, t ++ t').
Proof. reflexivity. Qed.

Create Rewrite HintDb run.
#[local] Hint Rewrite @bind_print @bind_print_exc @bind_exists @bind_ret
  @print_run @ret_run @prepend_pair @prepend_prepend @prepend_nil : run.

(** ** Missing input files *)

(** C4: when the config file or the weights file of a valid model key is
    missing, [convert] prints the banner and one line that names the
    missing file and returns [False]: no file is opened, no library is
    called and the file system is unchanged.  [export_int8_model] does
    the same for a missing checkpoint. *)
Theorem missing_input_stops (H : host) (L : Fastest.torch_lib) (MODELS_DIR key : str)
    (info : Fastest.model_info) (Y : ExportInt8.yolo_lib) (model_path output_dir : str)
    (fs : fsys) :
  let cfg_path := pjoin MODELS_DIR (Fastest.cfg info) in
  let weights_path := pjoin MODELS_DIR (Fastest.weights info) in
  let banner := [ Printed (py "
" ++ rule60); Printed (py "Converting " ++ Fastest.name info); Printed rule60 ] in
  (Fastest.models_get key = Some info →
   fs !! cfg_path = None →
   Fastest.convert H L MODELS_DIR key fs
   = (Ok false, fs, banner ++ [Printed (py "❌ Config file not found: " ++ cfg_path)]))
  ∧ (Fastest.models_get key = Some info →
     is_Some (fs !! cfg_path) →
     fs !! weights_path = None →
     Fastest.convert H L MODELS_DIR key fs
     = (Ok false, fs, banner ++ [Printed (py "❌ Weights file not found: " ++ weights_path)]))
  ∧ (fs !! model_path = None →
     ExportInt8.export_int8_model H Y model_path output_dir fs
     = (Ok false, fs,
        [ Printed (py "
" ++ rule60);
          Printed (py "📦 加载模型: " ++ model_path);
          Printed (py "❌ 模型文件不存在: " ++ model_path);
          Printed (py "💡 请先下载模型: https://github.com/ultralytics/assets/releases") ])).
Proof.
  intros cfg_path weights_path banner. split; [|split].
  - intros Hkey Hcfg. unfold Fastest.convert. rewrite Hkey.
    fold cfg_path. autorewrite with run.
    rewrite bool_decide_eq_false_2 by (rewrite Hcfg; apply is_Some_None).
    cbn [negb]. autorewrite with run. reflexivity.
  - intros Hkey Hcfg Hw. unfold Fastest.convert. rewrite Hkey.
    fold cfg_path weights_path. autorewrite with run.
    rewrite bool_decide_eq_true_2 by exact Hcfg.
    cbn [negb]. autorewrite with run.
    rewrite bool_decide_eq_false_2 by (rewrite Hw; apply is_Some_None).
    cbn [negb]. autorewrite with run. reflexivity.
  - intros Hm. unfold ExportInt8.export_int8_model. autorewrite with run.
    rewrite bool_decide_eq_false_2 by (rewrite Hm; apply is_Some_None).
    cbn [negb]. autorewrite with run. reflexivity.
Qed.

(** [convert] on an empty file system. *)
Lemma missing_input_stops_witness :
  outcome (Fastest.convert Demo.host Demo.torch_ok (py "/m") (py "1") ∅) = Ok false
  ∧ final (Fastest.convert Demo.host Demo.torch_ok (py "/m") (py "1") ∅) = ∅
  ∧ calls_of (events (Fastest.convert Demo.host Demo.torch_ok (py "/m") (py "1") ∅)) = [].
Proof.
  destruct (missing_input_stops Demo.host Demo.torch_ok (py "/m") (py "1")
              (Fastest.ModelInfo (py "YOLO-Fastest-1.1")
                 (py "yolo-fastest-1.1/yolo-fastest-1.1.cfg")
                 (py "yolo-fastest-1.1/yolo-fastest-1.1.weights")
                 (py "yolo-fastest-1.1.onnx"))
              Demo.yolo_ok (py "yolov8n.pt") (py "models") ∅) as [Hcfg _].
  rewrite Hcfg; [|vm_compute; reflexivity|vm_compute; reflexivity].
  repeat split.
Defined.

(** ** Exceptions of the library calls *)

Lemma returns_prepend {A} (t : list event) (x : result A * fsys * list event) :
  returns x → returns (prepend t x).
Proof. intros [a Ha]. by exists a. Qed.

Lemma returns_ok {A} (a : A) (s : fsys) (t : list event) : returns (Ok a, s, t).
Proof. by exists a. Qed.

Lemma try_except_returns {A} (m : M A) (h : exn → M A) (s : fsys) :
  (∀ e s', returns (h e s')) → returns (try_except m h s).
Proof.
  intros Hh. rewrite try_except_run. destruct (m s) as [[[a|e] s1] t1].
  - apply returns_ok.
  - apply returns_prepend, Hh.
Qed.

Ltac skip_events :=
  repeat match goal with |- returns (prepend _ _) => apply returns_prepend end.

Section Guarded.

Variable H : host.

(** [quantize_onnx_model] never raises. *)
Lemma quantize_onnx_model_returns (L : Quantize.quant_lib) (input_path output_path : str)
    (fs : fsys) :
  returns (Quantize.quantize_onnx_model H L input_path output_path fs).
Proof.
  unfold Quantize.quantize_onnx_model. autorewrite with run. skip_events.
  destruct (fs !! input_path) as [bytes|] eqn:Hin.
  - rewrite bool_decide_eq_true_2 by (by eexists). cbn [negb].
    rewrite bind_getsize, Hin. autorewrite with run. skip_events.
    apply try_except_returns. intros e s'. autorewrite with run. apply returns_ok.
  - rewrite bool_decide_eq_false_2 by apply is_Some_None. cbn [negb].
    autorewrite with run. apply returns_ok.
Qed.

(** What [quantize_onnx_model] does when [quantize_dynamic] raises. *)
Lemma quantize_onnx_model_caught (L : Quantize.quant_lib) (input_path output_path : str)
    (fs fs' : fsys) (bytes : list Byte.byte) (e : exn) :
  fs !! input_path = Some bytes →
  Quantize.quantize_dynamic L input_path output_path fs = (Raise e, fs') →
  Quantize.quantize_onnx_model H L input_path output_path fs
  = (Ok false, fs',
     [ Printed (py "
" ++ rule60);
       Printed (py "📦 输入模型: " ++ input_path);
       Printed (py "📊 原始大小: " ++ fmt_mb H (length bytes) ++ py " MB");
       Printed (py "🔄 开始INT8动态量化...");
       Called (py "quantize_dynamic") [input_path; output_path];
       Printed (py "❌ 量化失败: " ++ exn_text e);
       Traceback e ]).
Proof.
  intros Hin Hq. unfold Quantize.quantize_onnx_model. autorewrite with run.
  rewrite bool_decide_eq_true_2 by (by eexists). cbn [negb].
  rewrite bind_getsize, Hin. autorewrite with run.
  rewrite try_except_run. autorewrite with run. rewrite bind_extern, Hq.
  autorewrite with run. reflexivity.
Qed.

(** [export_int8_model] never raises. *)
Lemma export_int8_model_returns (Y : ExportInt8.yolo_lib) (model_path output_dir : str)
    (fs : fsys) :
  returns (ExportInt8.export_int8_model H Y model_path output_dir fs).
Proof.
  unfold ExportInt8.export_int8_model. autorewrite with run. skip_events.
  destruct (bool_decide (is_Some (fs !! model_path))); cbn [negb].
  - apply try_except_returns. intros e s'. autorewrite with run. apply returns_ok.
  - autorewrite with run. apply returns_ok.
Qed.

(** What [export_int8_model] does when [YOLO(model_path)] raises. *)
Lemma export_int8_model_caught_load (Y : ExportInt8.yolo_lib) (model_path output_dir : str)
    (fs fs' : fsys) (e : exn) :
  is_Some (fs !! model_path) →
  ExportInt8.YOLO Y model_path fs = (Raise e, fs') →
  ExportInt8.export_int8_model H Y model_path output_dir fs
  = (Ok false, fs',
     [ Printed (py "
" ++ rule60);
       Printed (py "📦 加载模型: " ++ model_path);
       Called (py "YOLO") [model_path];
       Printed (py "❌ 导出失败: " ++ exn_text e) ]).
Proof.
  intros Hin Hy. unfold ExportInt8.export_int8_model. autorewrite with run.
  rewrite bool_decide_eq_true_2 by exact Hin. cbn [negb].
  rewrite try_except_run, bind_extern, Hy. autorewrite with run. reflexivity.
Qed.

(** What [export_int8_model] does when [model.export] raises. *)
Lemma export_int8_model_caught_export (Y : ExportInt8.yolo_lib)
    (model_path output_dir : str) (fs fs1 fs2 : fsys)
    (model : ExportInt8.yolo_model Y) (e : exn) :
  is_Some (fs !! model_path) →
  ExportInt8.YOLO Y model_path fs = (Ok model, fs1) →
  ExportInt8.yolo_export Y model fs1 = (Raise e, fs2) →
  ExportInt8.export_int8_model H Y model_path output_dir fs
  = (Ok false, fs2,
     [ Printed (py "
" ++ rule60);
       Printed (py "📦 加载模型: " ++ model_path);
       Called (py "YOLO") [model_path];
       Printed (py "⚙️  导出配置: {'format': 'onnx', 'imgsz': 320, 'int8': True, 'dynamic': False, 'simplify': True, 'opset': 12}");
       Printed (py "🔄 开始导出INT8量化ONNX...");
       Called (py "model.export") [];
       Printed (py "❌ 导出失败: " ++ exn_text e) ]).
Proof.
  intros Hin Hy He. unfold ExportInt8.export_int8_model. autorewrite with run.
  rewrite bool_decide_eq_true_2 by exact Hin. cbn [negb].
  rewrite try_except_run, bind_extern, Hy. autorewrite with run.
  rewrite bind_extern, He. autorewrite with run. reflexivity.
Qed.

(** [convert] never raises. *)
Lemma convert_returns (L : Fastest.torch_lib) (MODELS_DIR model_key : str) (fs : fsys) :
  returns (Fastest.convert H L MODELS_DIR model_key fs).
Proof.
  unfold Fastest.convert. destruct (Fastest.models_get model_key) as [info|].
  - autorewrite with run. skip_events.
    destruct (bool_decide (is_Some (fs !! pjoin MODELS_DIR (Fastest.cfg info))));
      cbn [negb]; [|autorewrite with run; apply returns_ok].
    autorewrite with run.
    destruct (fs !! pjoin MODELS_DIR (Fastest.weights info)) as [wbytes|] eqn:Hw.
    + rewrite bool_decide_eq_true_2 by (by eexists). cbn [negb].
      autorewrite with run. rewrite bind_getsize, Hw. autorewrite with run. skip_events.
      apply try_except_returns. intros e s'. autorewrite with run. apply returns_ok.
    + rewrite bool_decide_eq_false_2 by apply is_Some_None. cbn [negb].
      autorewrite with run. apply returns_ok.
  - autorewrite with run. apply returns_ok.
Qed.

(** What [convert] does when [torch.onnx.export] raises. *)
Lemma convert_caught (L : Fastest.torch_lib) (MODELS_DIR model_key : str)
    (info : Fastest.model_info) (fs fs' : fsys) (cbytes wbytes : list Byte.byte)
    (lines : list str) (b : Fastest.block) (rest : list Fastest.block) (z : Z) (e : exn) :
  let cfg_path := pjoin MODELS_DIR (Fastest.cfg info) in
  let weights_path := pjoin MODELS_DIR (Fastest.weights info) in
  let output_path := pjoin MODELS_DIR (Fastest.output info) in
  Fastest.models_get model_key = Some info →
  fs !! cfg_path = Some cbytes →
  fs !! weights_path = Some wbytes →
  readlines H cbytes = Ok lines →
  Fastest.parse_cfg_lines lines = Ok (b :: rest) →
  match b !! py "width" with Some v => int_of_str H v | None => Ok 320%Z end = Ok z →
  Fastest.torch_onnx_export L (Fastest.SimplifiedYOLOFastest z) output_path fs
  = (Raise e, fs') →
  Fastest.convert H L MODELS_DIR model_key fs
  = (Ok false, fs',
     [ Printed (py "
" ++ rule60);
       Printed (py "Converting " ++ Fastest.name info);
       Printed rule60;
       Printed (py "📄 Config: " ++ basename cfg_path);
       Printed (py "⚖️  Weights: " ++ basename weights_path ++ py " ("
                  ++ fmt_mb H (length wbytes) ++ py " MB)");
       Printed (py "
🔍 Parsing config...");
       Opened cfg_path;
       Printed (py "📦 Loading weights...");
       Opened weights_path;
       Printed (py "   Loaded "
                  ++ fmt_thousands (length (Fastest.load_weights_bytes wbytes).2)
                  ++ py " weight values");
       Printed (py "🏗️  Building PyTorch model...");
       Printed (py "Model input size: " ++ str_of_Z z ++ py "x" ++ str_of_Z z);
       Printed (py "🔄 Converting to ONNX...");
       Called (py "torch.onnx.export") [output_path];
       Printed (py "❌ Conversion failed: " ++ exn_text e);
       Traceback e ]).
Proof.
  intros cfg_path weights_path output_path Hkey Hc Hw Hl Hp Hz He.
  unfold Fastest.convert. rewrite Hkey. fold cfg_path weights_path output_path.
  autorewrite with run.
  rewrite (bool_decide_eq_true_2 (is_Some (fs !! cfg_path))) by (by eexists). cbn [negb].
  autorewrite with run.
  rewrite (bool_decide_eq_true_2 (is_Some (fs !! weights_path))) by (by eexists).
  cbn [negb]. autorewrite with run. rewrite bind_getsize, Hw. autorewrite with run.
  rewrite try_except_run. autorewrite with run.
  rewrite bind_run, (parse_cfg_run H cfg_path fs cbytes lines Hc Hl), Hp.
  autorewrite with run.
  unfold Fastest.load_weights at 1. rewrite (bind_run (bind _ _)), (bind_run (read_file _)).
  unfold read_file at 1. rewrite Hw. autorewrite with run.
  unfold Fastest.build_model_from_cfg.
  rewrite (bind_run (bind _ _)), bind_lift, bind_lift, Hz. autorewrite with run.
  rewrite bind_extern, He. autorewrite with run. reflexivity.
Qed.

(** In [export_osnet_to_onnx] the export is not guarded: when the calls
    before it return and [torch.onnx.export] raises, the exception leaves
    the function. *)
Lemma export_osnet_propagates (L : Osnet.osnet_lib) (fs s1 s2 s3 s4 s5 s6 s7 : fsys)
    (model : Osnet.module L) (ckpt : Osnet.checkpoint L) (x out : Osnet.tensor L)
    (norm : str) (e : exn) :
  Osnet.build_model L fs = (Ok model, s1) →
  Osnet.torch_load L Osnet.weights_path s1 = (Ok ckpt, s2) →
  Osnet.load_state_dict L model (default ckpt (Osnet.state_dict_of L ckpt)) s2 = (Ok tt, s3) →
  Osnet.randn L s3 = (Ok x, s4) →
  Osnet.forward L model x s4 = (Ok out, s5) →
  Osnet.l2_norm L out s5 = (Ok norm, s6) →
  Osnet.torch_onnx_export L model x Osnet.output_path s6 = (Raise e, s7) →
  outcome (Osnet.export_osnet_to_onnx L fs) = Raise e
  ∧ final (Osnet.export_osnet_to_onnx L fs) = s7.
Proof.
  intros Hb Hl Hs Hr Hf Hn He. unfold Osnet.export_osnet_to_onnx.
  autorewrite with run. rewrite bind_extern, Hb. autorewrite with run.
  rewrite bind_extern, Hl. autorewrite with run.
  rewrite bind_extern, Hs. autorewrite with run.
  rewrite bind_extern, Hr. autorewrite with run.
  rewrite bind_extern, Hf. autorewrite with run.
  rewrite bind_extern, Hn. autorewrite with run.
  rewrite bind_extern, He. autorewrite with run. split; reflexivity.
Qed.

End Guarded.

(** C5, as stated, fails for [export_osnet_official.py]: nothing guards
    its [torch.onnx.export], and the exception leaves
    [export_osnet_to_onnx]. *)
Lemma export_osnet_lets_export_error_out :
  outcome (Osnet.export_osnet_to_onnx (Demo.osnet false true) ∅)
  = Raise (Exn (OtherException (py "RuntimeError")) (py "export failed")).
Proof. vm_compute. reflexivity. Qed.

(** C5, amended: [convert], [export_int8_model] and [quantize_onnx_model]
    never raise, whatever the libraries do.  When the library call
    raises, the handler prints the text of the exception ([convert] and
    [quantize_onnx_model] a traceback too) and the function returns
    [False]; the library is not called again and the file system stays
    as the failed call left it.  In [export_osnet_to_onnx] an exception
    of [torch.onnx.export] leaves the function. *)
Theorem library_exceptions_caught (H : host) :
  (∀ L MODELS_DIR model_key fs, returns (Fastest.convert H L MODELS_DIR model_key fs))
  ∧ (∀ Y model_path output_dir fs,
       returns (ExportInt8.export_int8_model H Y model_path output_dir fs))
  ∧ (∀ L input_path output_path fs,
       returns (Quantize.quantize_onnx_model H L input_path output_path fs))
  ∧ (∀ L input_path output_path fs fs' e,
       is_Some (fs !! input_path) →
       Quantize.quantize_dynamic L input_path output_path fs = (Raise e, fs') →
       let r := Quantize.quantize_onnx_model H L input_path output_path fs in
       outcome r = Ok false ∧ final r = fs'
       ∧ calls_of (events r) = [Called (py "quantize_dynamic") [input_path; output_path]]
       ∧ Printed (py "❌ 量化失败: " ++ exn_text e) ∈ events r
       ∧ Traceback e ∈ events r)
  ∧ (∀ Y model_path output_dir fs fs' e,
       is_Some (fs !! model_path) →
       ExportInt8.YOLO Y model_path fs = (Raise e, fs') →
       let r := ExportInt8.export_int8_model H Y model_path output_dir fs in
       outcome r = Ok false ∧ final r = fs'
       ∧ calls_of (events r) = [Called (py "YOLO") [model_path]]
       ∧ Printed (py "❌ 导出失败: " ++ exn_text e) ∈ events r)
  ∧ (∀ Y model_path output_dir fs fs1 fs2 model e,
       is_Some (fs !! model_path) →
       ExportInt8.YOLO Y model_path fs = (Ok model, fs1) →
       ExportInt8.yolo_export Y model fs1 = (Raise e, fs2) →
       let r := ExportInt8.export_int8_model H Y model_path output_dir fs in
       outcome r = Ok false ∧ final r = fs2
       ∧ calls_of (events r)
         = [Called (py "YOLO") [model_path]; Called (py "model.export") []]
       ∧ Printed (py "❌ 导出失败: " ++ exn_text e) ∈ events r)
  ∧ (∀ L MODELS_DIR model_key info fs fs' cbytes wbytes lines b rest z e,
       Fastest.models_get model_key = Some info →
       fs !! pjoin MODELS_DIR (Fastest.cfg info) = Some cbytes →
       fs !! pjoin MODELS_DIR (Fastest.weights info) = Some wbytes →
       readlines H cbytes = Ok lines →
       Fastest.parse_cfg_lines lines = Ok (b :: rest) →
       match b !! py "width" with Some v => int_of_str H v | None => Ok 320%Z end = Ok z →
       Fastest.torch_onnx_export L (Fastest.SimplifiedYOLOFastest z)
         (pjoin MODELS_DIR (Fastest.output info)) fs = (Raise e, fs') →
       let r := Fastest.convert H L MODELS_DIR model_key fs in
       outcome r = Ok false ∧ final r = fs'
       ∧ calls_of (events r)
         = [Called (py "torch.onnx.export") [pjoin MODELS_DIR (Fastest.output info)]]
       ∧ Printed (py "❌ Conversion failed: " ++ exn_text e) ∈ events r
       ∧ Traceback e ∈ events r)
  ∧ (∀ L fs s1 s2 s3 s4 s5 s6 s7 model ckpt x out norm e,
       Osnet.build_model L fs = (Ok model, s1) →
       Osnet.torch_load L Osnet.weights_path s1 = (Ok ckpt, s2) →
       Osnet.load_state_dict L model (default ckpt (Osnet.state_dict_of L ckpt)) s2
       = (Ok tt, s3) →
       Osnet.randn L s3 = (Ok x, s4) →
       Osnet.forward L model x s4 = (Ok out, s5) →
       Osnet.l2_norm L out s5 = (Ok norm, s6) →
       Osnet.torch_onnx_export L model x Osnet.output_path s6 = (Raise e, s7) →
       outcome (Osnet.export_osnet_to_onnx L fs) = Raise e
       ∧ final (Osnet.export_osnet_to_onnx L fs) = s7).
Proof.
  split; [intros; apply convert_returns|].
  split; [intros; apply export_int8_model_returns|].
  split; [intros; apply quantize_onnx_model_returns|].
  split.
  { intros L input_path output_path fs fs' e [bytes Hin] Hq r. subst r.
    rewrite (quantize_onnx_model_caught H L input_path output_path fs fs' bytes e Hin Hq).
    repeat split.
    - do 5 apply list_elem_of_further. apply list_elem_of_here.
    - do 6 apply list_elem_of_further. apply list_elem_of_here. }
  split.
  { intros Y model_path output_dir fs fs' e Hin Hy r. subst r.
    rewrite (export_int8_model_caught_load H Y model_path output_dir fs fs' e Hin Hy).
    repeat split.
    do 3 apply list_elem_of_further. apply list_elem_of_here. }
  split.
  { intros Y model_path output_dir fs fs1 fs2 model e Hin Hy He r. subst r.
    rewrite (export_int8_model_caught_export H Y model_path output_dir fs fs1 fs2 model e
               Hin Hy He).
    repeat split.
    do 6 apply list_elem_of_further. apply list_elem_of_here. }
  split.
  { intros L MODELS_DIR model_key info fs fs' cbytes wbytes lines b rest z e
      Hkey Hc Hw Hl Hp Hz He r. subst r.
    rewrite (convert_caught H L MODELS_DIR model_key info fs fs' cbytes wbytes lines
               b rest z e Hkey Hc Hw Hl Hp Hz He).
    repeat split.
    - do 14 apply list_elem_of_further. apply list_elem_of_here.
    - do 15 apply list_elem_of_further. apply list_elem_of_here. }
  intros L fs s1 s2 s3 s4 s5 s6 s7 model ckpt x out norm e.
  apply export_osnet_propagates.
Qed.

(** [quantize_onnx_model] with the quantizer that raises. *)
Lemma library_exceptions_caught_witness :
  outcome (Quantize.quantize_onnx_model Demo.host Demo.quant_failing
             (py "models/a.onnx") (py "models/a_int8.onnx")
             {[ py "models/a.onnx" := Demo.file "abc" ]}) = Ok false.
Proof.
  destruct (library_exceptions_caught Demo.host) as (_ & _ & _ & Hq & _).
  apply (Hq Demo.quant_failing (py "models/a.onnx") (py "models/a_int8.onnx")
           {[ py "models/a.onnx" := Demo.file "abc" ]}
           {[ py "models/a.onnx" := Demo.file "abc" ]}
           (Demo.runtime_error "quantization failed")).
  - vm_compute. eexists. reflexivity.
  - reflexivity.
Defined.

(** ** Runs over several models *)

Lemma elem_of_events_prepend {A} (ev : event) (t : list event)
    (x : result A * fsys * list event) :
  ev ∈ events (prepend t x) ↔ ev ∈ t ∨ ev ∈ events x.
Proof. rewrite events_prepend. apply elem_of_app. Qed.

Section LoopRuns.

Variable H : host.

Lemma returns_bind {A B} (m : M A) (k : A → M B) (fs : fsys) :
  returns (m fs) → (∀ a fs', returns (k a fs')) → returns (bind m k fs).
Proof.
  intros [a Ha] Hk. rewrite bind_run. destruct (m fs) as [[r s1] t1].
  unfold outcome in Ha. cbn [fst] in Ha. subst r. apply returns_prepend, Hk.
Qed.

Lemma elem_of_events_bind {A B} (ev : event) (m : M A) (k : A → M B) (fs : fsys) :
  ev ∈ events (m fs) → ev ∈ events (bind m k fs).
Proof.
  intros Hev. rewrite bind_run. destruct (m fs) as [[[a|e] s1] t1]; [|exact Hev].
  apply elem_of_events_prepend. by left.
Qed.

Lemma print_found_run (onnx_models : list str) (fs : fsys) :
  Quantize.print_found onnx_models fs
  = (Ok tt, fs, map (λ m, Printed (py "   - " ++ m)) onnx_models).
Proof.
  induction onnx_models as [|m rest IH]; [reflexivity|].
  cbn [Quantize.print_found map]. by rewrite bind_print, IH.
Qed.

Lemma bind_assoc {A B C} (m : M A) (k : A → M B) (k' : B → M C) (fs : fsys) :
  bind (bind m k) k' fs = bind m (λ a, bind (k a) k') fs.
Proof.
  rewrite !bind_run. destruct (m fs) as [[[a|e] s1] t1]; [|reflexivity].
  rewrite bind_run. destruct (k a s1) as [[[b|e] s2] t2]; [|reflexivity].
  cbn [prepend fst snd]. by rewrite prepend_prepend.
Qed.

Lemma bind_ext {A B} (m : M A) (k1 k2 : A → M B) (fs : fsys) :
  (∀ a fs', k1 a fs' = k2 a fs') → bind m k1 fs = bind m k2 fs.
Proof.
  intros Hk. rewrite !bind_run. destruct (m fs) as [[[a|e] s1] t1]; [|reflexivity].
  by rewrite Hk.
Qed.

(** A computation that returns, with what it leaves. *)
Lemma returns_run {A} (x : result A * fsys * list event) :
  returns x → ∃ a s t, x = (Ok a, s, t).
Proof. destruct x as [[r s] t]. intros [a Ha]. cbn in Ha. subst r. by eexists _, _, _. Qed.

(** *** The quantization loop *)

Lemma quantize_each_returns (L : Quantize.quant_lib) (onnx_models : list str) :
  ∀ success_count fs,
    ∃ k s t, Quantize.quantize_each H L onnx_models success_count fs = (Ok k, s, t).
Proof.
  induction onnx_models as [|m rest IH]; intros n fs; [by eexists _, _, _|].
  cbn [Quantize.quantize_each]. rewrite bind_exists.
  destruct (bool_decide (is_Some (fs !! pjoin Quantize.models_dir (Quantize.output_name m)))).
  - rewrite bind_print. destruct (IH n fs) as (k & s & t & ->). by eexists _, _, _.
  - rewrite bind_run.
    destruct (returns_run _ (quantize_onnx_model_returns H L (pjoin Quantize.models_dir m)
                (pjoin Quantize.models_dir (Quantize.output_name m)) fs))
      as (ok & s1 & t1 & ->).
    destruct (IH (if ok then S n else n) s1) as (k & s & t & ->). by eexists _, _, _.
Qed.

(** The loop over two lists, one after the other. *)
Lemma quantize_each_app (L : Quantize.quant_lib) (a b : list str) :
  ∀ success_count fs,
    Quantize.quantize_each H L (a ++ b) success_count fs
    = bind (Quantize.quantize_each H L a success_count)
        (λ k, Quantize.quantize_each H L b k) fs.
Proof.
  induction a as [|m rest IH]; intros n fs.
  - cbn [app Quantize.quantize_each]. by rewrite bind_ret.
  - cbn [app Quantize.quantize_each]. rewrite bind_assoc, !bind_exists.
    destruct (bool_decide (is_Some (fs !! pjoin Quantize.models_dir (Quantize.output_name m)))).
    + rewrite bind_assoc, !bind_print. by rewrite IH.
    + rewrite bind_assoc. apply bind_ext. intros ok fs'. apply IH.
Qed.

Lemma quantize_each_reaches (L : Quantize.quant_lib) (pre : list str) (m : str)
    (post : list str) (fs : fsys) :
  ∃ k s t,
    Quantize.quantize_each H L pre 0 fs = (Ok k, s, t)
    ∧ Quantize.quantize_each H L (pre ++ m :: post) 0 fs
      = prepend t (Quantize.quantize_each H L (m :: post) k s).
Proof.
  destruct (quantize_each_returns L pre 0 fs) as (k & s & t & Hpre).
  exists k, s, t. split; [exact Hpre|]. by rewrite quantize_each_app, bind_run, Hpre.
Qed.

Lemma quantize_each_step (L : Quantize.quant_lib) (m : str) (post : list str)
    (success_count : nat) (fs : fsys) :
  let input_path := pjoin Quantize.models_dir m in
  let output_path := pjoin Quantize.models_dir (Quantize.output_name m) in
  let r := Quantize.quantize_onnx_model H L input_path output_path fs in
  (fs !! output_path = None →
   ∃ ok, outcome r = Ok ok
     ∧ Quantize.quantize_each H L (m :: post) success_count fs
       = prepend (events r)
           (Quantize.quantize_each H L post (if ok then S success_count else success_count)
              (final r)))
  ∧ (is_Some (fs !! output_path) →
     Quantize.quantize_each H L (m :: post) success_count fs
     = prepend [Printed (py "
⏭️  跳过 (已存在): " ++ Quantize.output_name m)]
         (Quantize.quantize_each H L post success_count fs)).
Proof.
  intros input_path output_path r. split.
  - intros Hout. subst r. cbn [Quantize.quantize_each]. fold input_path output_path.
    rewrite bind_exists, bool_decide_eq_false_2 by (rewrite Hout; apply is_Some_None).
    rewrite bind_run.
    destruct (returns_run _ (quantize_onnx_model_returns H L input_path output_path fs))
      as (ok & s1 & t1 & ->).
    exists ok. split; reflexivity.
  - intros Hout. cbn [Quantize.quantize_each]. fold output_path.
    by rewrite bind_exists, bool_decide_eq_true_2, bind_print.
Qed.

Lemma print_generated_run (onnx_models : list str) (fs : fsys) :
  ∃ t, Quantize.print_generated H onnx_models fs = (Ok tt, fs, t) ∧ printed_only t.
Proof.
  induction onnx_models as [|m rest (t & IH & Ht)]; [exists []; split; [reflexivity|constructor]|].
  cbn [Quantize.print_generated]. rewrite bind_exists.
  destruct (fs !! pjoin Quantize.models_dir (Quantize.output_name m)) as [bytes|] eqn:Hout.
  - rewrite bool_decide_eq_true_2 by (by eexists).
    rewrite bind_run, bind_getsize, Hout, print_run. cbv beta iota. rewrite IH.
    eexists. split; [reflexivity|]. by constructor.
  - rewrite bool_decide_eq_false_2 by apply is_Some_None. rewrite !bind_ret, IH.
    by exists t.
Qed.

(** [main] when the directory cannot be listed, when it holds no model
    to quantize, and when it holds some. *)
Lemma quantize_main_unlisted (L : Quantize.quant_lib) (fs : fsys) (e : exn) :
  listdir H Quantize.models_dir fs = Raise e →
  outcome (Quantize.main H L fs) = Raise e
  ∧ final (Quantize.main H L fs) = fs
  ∧ printed_only (events (Quantize.main H L fs)).
Proof.
  intros Hl. unfold Quantize.main. rewrite bind_print, bind_run, Hl.
  repeat split. unfold events. cbn [snd prepend app]. by repeat constructor.
Qed.

Lemma selected_listed (fs : fsys) (filenames : list str) :
  listdir H Quantize.models_dir fs = Ok filenames →
  selected H fs = filter (λ f, Quantize.is_input f = true) filenames.
Proof. intros Hl. unfold selected. by rewrite Hl. Qed.

Lemma quantize_main_no_model (L : Quantize.quant_lib) (fs : fsys) (filenames : list str) :
  listdir H Quantize.models_dir fs = Ok filenames →
  selected H fs = [] →
  outcome (Quantize.main H L fs) = Ok tt
  ∧ final (Quantize.main H L fs) = fs
  ∧ printed_only (events (Quantize.main H L fs)).
Proof.
  intros Hl Hsel. rewrite (selected_listed fs filenames Hl) in Hsel.
  unfold Quantize.main. rewrite bind_print, bind_run, Hl. cbv beta iota zeta.
  rewrite Hsel, bool_decide_eq_true_2 by reflexivity. autorewrite with run.
  repeat split. unfold events. cbn [snd app]. by repeat constructor.
Qed.

Lemma quantize_main_report (L : Quantize.quant_lib) (fs : fsys) (filenames : list str) :
  listdir H Quantize.models_dir fs = Ok filenames →
  selected H fs ≠ [] →
  ∃ k s t before after,
    Quantize.quantize_each H L (selected H fs) 0 fs = (Ok k, s, t)
    ∧ Quantize.main H L fs
      = (Ok tt, s,
         before ++ t
         ++ [ Printed (py "
" ++ rule60);
              Printed (py "📊 量化完成!");
              Printed (py "✅ 成功: " ++ str_of_nat k ++ py "/"
                         ++ str_of_nat (length (selected H fs))) ]
         ++ after)
    ∧ printed_only before ∧ printed_only after.
Proof.
  intros Hl Hsel. rewrite (selected_listed fs filenames Hl) in *.
  set (onnx_models := filter (λ f, Quantize.is_input f = true) filenames) in *.
  destruct (quantize_each_returns L onnx_models 0 fs) as (k & s & t & Hloop).
  destruct (print_generated_run onnx_models s) as (tg & Hgen & Htg).
  exists k, s, t. unfold Quantize.main. rewrite bind_print, bind_run, Hl.
  cbv beta iota zeta. fold onnx_models.
  rewrite bool_decide_eq_false_2 by exact Hsel.
  rewrite prepend_nil, bind_print, bind_run, print_found_run. cbv beta iota.
  rewrite bind_run, Hloop. cbv beta iota. autorewrite with run.
  destruct (bool_decide (0 < k)%nat).
  - autorewrite with run. rewrite Hgen. autorewrite with run.
    eexists (_ :: _ :: map _ onnx_models), _. split; [reflexivity|]. split.
    + cbn [app]. rewrite <- !app_assoc. cbn [app]. reflexivity.
    + split.
      * do 2 constructor; [done..|]. apply Forall_map, Forall_true. done.
      * repeat (apply List.Forall_cons; [exact I|]). exact Htg.
  - autorewrite with run.
    eexists (_ :: _ :: map _ onnx_models), []. split; [reflexivity|]. split.
    + cbn [app]. rewrite <- !app_assoc. cbn [app]. reflexivity.
    + split; [|constructor].
      do 2 constructor; [done..|]. apply Forall_map, Forall_true. done.
Qed.

(** *** The export loop *)

Lemma export_each_returns (Y : ExportInt8.yolo_lib) (todo : list (str * str)) :
  ∀ success_count total_count fs,
    ∃ counts s t,
      ExportInt8.export_each H Y todo success_count total_count fs = (Ok counts, s, t).
Proof.
  induction todo as [|[model_path description] rest IH]; intros sc tc fs;
    [by eexists _, _, _|].
  cbn [ExportInt8.export_each]. rewrite bind_print, bind_exists.
  destruct (bool_decide (is_Some (fs !! model_path))).
  - rewrite bind_run.
    destruct (returns_run _ (export_int8_model_returns H Y model_path (py "models") fs))
      as (ok & s1 & t1 & ->).
    destruct (IH (if ok then S sc else sc) (S tc) s1) as (c & s & t & ->).
    by eexists _, _, _.
  - rewrite bind_print. destruct (IH sc tc fs) as (c & s & t & ->). by eexists _, _, _.
Qed.

Lemma export_each_app (Y : ExportInt8.yolo_lib) (a b : list (str * str)) :
  ∀ success_count total_count fs,
    ExportInt8.export_each H Y (a ++ b) success_count total_count fs
    = bind (ExportInt8.export_each H Y a success_count total_count)
        (λ counts, ExportInt8.export_each H Y b counts.1 counts.2) fs.
Proof.
  induction a as [|[model_path description] rest IH]; intros sc tc fs.
  - cbn [app ExportInt8.export_each]. by rewrite bind_ret.
  - cbn [app ExportInt8.export_each]. rewrite bind_assoc, !bind_print.
    rewrite bind_assoc, !bind_exists.
    destruct (bool_decide (is_Some (fs !! model_path))).
    + rewrite bind_assoc. f_equal. apply bind_ext. intros ok fs'. apply IH.
    + rewrite bind_assoc, !bind_print. by rewrite IH.
Qed.

Lemma export_each_reaches (Y : ExportInt8.yolo_lib) (pre : list (str * str))
    (item : str * str) (post : list (str * str)) (fs : fsys) :
  ∃ counts s t,
    ExportInt8.export_each H Y pre 0 0 fs = (Ok counts, s, t)
    ∧ ExportInt8.export_each H Y (pre ++ item :: post) 0 0 fs
      = prepend t (ExportInt8.export_each H Y (item :: post) counts.1 counts.2 s).
Proof.
  destruct (export_each_returns Y pre 0 0 fs) as (c & s & t & Hpre).
  exists c, s, t. split; [exact Hpre|]. by rewrite export_each_app, bind_run, Hpre.
Qed.

Lemma export_each_step (Y : ExportInt8.yolo_lib) (model_path description : str)
    (post : list (str * str)) (success_count total_count : nat) (fs : fsys) :
  let r := ExportInt8.export_int8_model H Y model_path (py "models") fs in
  (is_Some (fs !! model_path) →
   ∃ ok, outcome r = Ok ok
     ∧ ExportInt8.export_each H Y ((model_path, description) :: post)
         success_count total_count fs
       = prepend (Printed (py "
🎯 " ++ description) :: events r)
           (ExportInt8.export_each H Y post
              (if ok then S success_count else success_count) (S total_count) (final r)))
  ∧ (fs !! model_path = None →
     ExportInt8.export_each H Y ((model_path, description) :: post)
       success_count total_count fs
     = prepend [ Printed (py "
🎯 " ++ description);
                 Printed (py "⏭️  跳过 (文件不存在): " ++ model_path) ]
         (ExportInt8.export_each H Y post success_count total_count fs)).
Proof.
  intros r. split.
  - intros Hin. subst r. cbn [ExportInt8.export_each].
    rewrite bind_print, bind_exists, bool_decide_eq_true_2 by exact Hin.
    rewrite bind_run.
    destruct (returns_run _ (export_int8_model_returns H Y model_path (py "models") fs))
      as (ok & s1 & t1 & ->).
    exists ok. split; [reflexivity|]. by rewrite prepend_prepend.
  - intros Hin. cbn [ExportInt8.export_each].
    rewrite bind_print, bind_exists, bool_decide_eq_false_2
      by (rewrite Hin; apply is_Some_None).
    by rewrite bind_print, prepend_prepend.
Qed.

Lemma export_main_report (Y : ExportInt8.yolo_lib) (fs : fsys) :
  ∃ counts s t before after,
    ExportInt8.export_each H Y ExportInt8.models_to_export 0 0 fs = (Ok counts, s, t)
    ∧ ExportInt8.main H Y fs
      = (Ok tt, s,
         before ++ t
         ++ [ Printed (py "
" ++ rule60);
              Printed (py "📊 导出完成!");
              Printed (py "✅ 成功: " ++ str_of_nat counts.1 ++ py "/"
                         ++ str_of_nat counts.2) ]
         ++ after)
    ∧ printed_only before ∧ printed_only after.
Proof.
  destruct (export_each_returns Y ExportInt8.models_to_export 0 0 fs)
    as (c & s & t & Hloop).
  exists c, s, t. unfold ExportInt8.main. rewrite bind_print, bind_run, Hloop.
  cbv beta iota. autorewrite with run.
  destruct (bool_decide (0 < c.1)%nat); autorewrite with run.
  - eexists [_], _. split; [reflexivity|]. split.
    + rewrite <- !app_assoc. cbn [app]. reflexivity.
    + split; by repeat constructor.
  - eexists [_], []. split; [reflexivity|]. split.
    + rewrite <- !app_assoc. cbn [app]. reflexivity.
    + split; by repeat constructor.
Qed.

(** *** The three conversions *)

Lemma convert_announces (L : Fastest.torch_lib) (MODELS_DIR model_key : str)
    (info : Fastest.model_info) (fs : fsys) :
  Fastest.models_get model_key = Some info →
  Printed (py "Converting " ++ Fastest.name info)
    ∈ events (Fastest.convert H L MODELS_DIR model_key fs).
Proof.
  intros Hkey. unfold Fastest.convert. rewrite Hkey. autorewrite with run.
  apply elem_of_events_prepend. left.
  apply list_elem_of_further, list_elem_of_here.
Qed.

Lemma convert_each_visits (L : Fastest.torch_lib) (MODELS_DIR : str)
    (todo : list (str * Fastest.model_info)) :
  Forall (λ ki, Fastest.models_get ki.1 = Some ki.2) todo →
  ∀ (results : list (str * bool)) (fs : fsys),
    returns (Fastest.convert_each H L MODELS_DIR todo results fs)
    ∧ ∀ key info, (key, info) ∈ todo →
        Printed (py "Converting " ++ Fastest.name info)
          ∈ events (Fastest.convert_each H L MODELS_DIR todo results fs).
Proof.
  induction 1 as [|[k0 i0] rest Hk0 _ IH]; intros results fs.
  - split; [apply returns_ok|]. intros k i Hm. by apply elem_of_nil in Hm.
  - cbn [Fastest.convert_each]. rewrite bind_run.
    pose proof (convert_returns H L MODELS_DIR k0 fs) as [ok Hok].
    pose proof (convert_announces L MODELS_DIR k0 i0 fs Hk0) as Hann.
    revert Hok Hann.
    destruct (Fastest.convert H L MODELS_DIR k0 fs) as [[r s1] t1].
    intros Hok Hann. unfold outcome in Hok. unfold events in Hann.
    cbn [fst snd] in Hok, Hann. subst r. cbv beta iota.
    destruct (IH (Fastest.dict_set results (Fastest.name i0) ok) s1) as [Hr Hv].
    split; [by apply returns_prepend|]. intros k i Hm.
    rewrite elem_of_events_prepend. apply elem_of_cons in Hm as [[= -> ->]|Hm].
    + by left.
    + right. by apply (Hv k i).
Qed.

Lemma print_summary_returns (results : list (str * bool)) (fs : fsys) :
  returns (Fastest.print_summary results fs).
Proof.
  induction results as [|[n b] rest IH]; [apply returns_ok|].
  cbn [Fastest.print_summary]. rewrite bind_print. by apply returns_prepend.
Qed.

Lemma models_known :
  Forall (λ ki, Fastest.models_get ki.1 = Some ki.2) Fastest.models.
Proof. repeat constructor. Qed.

Lemma convert_all_visits (L : Fastest.torch_lib) (MODELS_DIR : str) (fs : fsys) :
  returns (Fastest.convert_all H L MODELS_DIR fs)
  ∧ ∀ key info, (key, info) ∈ Fastest.models →
      Printed (py "Converting " ++ Fastest.name info)
        ∈ events (Fastest.convert_all H L MODELS_DIR fs).
Proof.
  unfold Fastest.convert_all.
  destruct (convert_each_visits L MODELS_DIR Fastest.models models_known [] fs) as [Hr Hv].
  split.
  - apply returns_bind; [exact Hr|]. intros results fs'. autorewrite with run.
    skip_events. apply returns_bind; [apply print_summary_returns|].
    intros [] fs''. apply returns_ok.
  - intros k i Hm. by apply elem_of_events_bind, (Hv k i).
Qed.


(** [convert_all] is the three conversions and the summary. *)
Lemma convert_all_run (L : Fastest.torch_lib) (MODELS_DIR : str) (fs : fsys) :
  let r1 := Fastest.convert H L MODELS_DIR (py "1") fs in
  let r2 := Fastest.convert H L MODELS_DIR (py "2") (final r1) in
  let r3 := Fastest.convert H L MODELS_DIR (py "3") (final r2) in
  let status (ok : bool) := if ok then py "✅ Success" else py "❌ Failed" in
  ∃ ok1 ok2 ok3,
    outcome r1 = Ok ok1 ∧ outcome r2 = Ok ok2 ∧ outcome r3 = Ok ok3
    ∧ Fastest.convert_all H L MODELS_DIR fs
      = (Ok (ok1 && ok2 && ok3), final r3,
         events r1 ++ events r2 ++ events r3
         ++ [ Printed (py "
" ++ rule60);
              Printed (py "Conversion Summary");
              Printed rule60;
              Printed (py "YOLO-Fastest-1.1" ++ py ": " ++ status ok1);
              Printed (py "YOLO-Fastest-XL" ++ py ": " ++ status ok2);
              Printed (py "YOLO-Fastest-1.1-Body" ++ py ": " ++ status ok3) ]).
Proof.
  intros r1 r2 r3 status. subst r1 r2 r3 status.
  unfold Fastest.convert_all, Fastest.models. cbn [Fastest.convert_each].
  rewrite bind_run, (bind_run (Fastest.convert H L MODELS_DIR (py "1"))).
  destruct (returns_run _ (convert_returns H L MODELS_DIR (py "1") fs))
    as (ok1 & s1 & t1 & ->).
  unfold outcome, final, events. cbn [fst snd].
  rewrite (bind_run (Fastest.convert H L MODELS_DIR (py "2"))).
  destruct (returns_run _ (convert_returns H L MODELS_DIR (py "2") s1))
    as (ok2 & s2 & t2 & ->).
  cbn [fst snd].
  rewrite (bind_run (Fastest.convert H L MODELS_DIR (py "3"))).
  destruct (returns_run _ (convert_returns H L MODELS_DIR (py "3") s2))
    as (ok3 & s3 & t3 & ->).
  cbn [fst snd].
  exists ok1, ok2, ok3. split; [reflexivity|]. split; [reflexivity|]. split; [reflexivity|].
  autorewrite with run. cbn [Fastest.dict_set Fastest.name].
  rewrite (bool_decide_eq_false_2 (py "YOLO-Fastest-1.1" = py "YOLO-Fastest-XL"))
    by (vm_compute; discriminate).
  cbn [Fastest.dict_set].
  rewrite (bool_decide_eq_false_2 (py "YOLO-Fastest-1.1" = py "YOLO-Fastest-1.1-Body"))
    by (vm_compute; discriminate).
  rewrite (bool_decide_eq_false_2 (py "YOLO-Fastest-XL" = py "YOLO-Fastest-1.1-Body"))
    by (vm_compute; discriminate).
  cbn [Fastest.dict_set Fastest.print_summary]. autorewrite with run.
  repeat (rewrite bind_assoc; autorewrite with run).
  cbn [forallb snd app]. rewrite andb_true_r, andb_assoc, <- !app_assoc. reflexivity.
Qed.

End LoopRuns.



Example quantize_main_selected :
  selected Demo.host demo_models = [py "b.onnx"; py "a.onnx"].
Proof. vm_compute. reflexivity. Qed.

(** Without a models directory [main] raises what [os.listdir] raises. *)
Example quantize_main_without_directory :
  Quantize.main Demo.host Demo.quant_ok ∅
  = (Raise (no_such_file (py "models")), ∅,
     [Printed (py "
    ╔════════════════════════════════════════════════════════╗
    ║         ONNX模型 INT8 量化工具                         ║
    ║         ONNX INT8 Quantization Tool                    ║
    ╚════════════════════════════════════════════════════════╝
    ")]).
Proof. vm_compute. reflexivity. Qed.


(** ** The placeholder network *)

(** C7, as stated, fails: a file of comments parses to the empty block
    list, and [build_model_from_cfg] raises on it. *)
Lemma build_model_raises_on_no_block :
  Fastest.parse_cfg_lines [py "# no block
"] = Ok []
  ∧ Fastest.build_model_from_cfg Demo.host [] ∅
    = (Raise (Exn IndexError (py "list index out of range")), ∅, []).
Proof. split; vm_compute; reflexivity. Qed.

(** C7, amended: on a block list that is not empty, what
    [build_model_from_cfg] does depends on the ["width"] entry of the
    first block alone.  When the entry is missing (320 is taken) or is
    an integer, it prints the size and returns the network whose
    backbone is Conv-BatchNorm-ReLU-MaxPool and whose head is a 1x1
    convolution; when [int] rejects the entry, it raises what [int]
    raises.  No other entry and no other block has any effect. *)
Theorem build_model_is_fixed_stack (H : host) (b : Fastest.block)
    (rest : list Fastest.block) (fs : fsys) :
  let width := match b !! py "width" with Some v => int_of_str H v | None => Ok 320%Z end in
  (∀ z, width = Ok z →
     Fastest.build_model_from_cfg H (b :: rest) fs
     = (Ok (Fastest.SimplifiedYOLOFastest z), fs,
        [Printed (py "Model input size: " ++ str_of_Z z ++ py "x" ++ str_of_Z z)])
     ∧ Fastest.input_size (Fastest.SimplifiedYOLOFastest z) = z
     ∧ Fastest.backbone (Fastest.SimplifiedYOLOFastest z)
       = [ Fastest.Conv2d 3 64 3 1; Fastest.BatchNorm2d 64; Fastest.ReLU true;
           Fastest.MaxPool2d 2 2 ]
     ∧ Fastest.head (Fastest.SimplifiedYOLOFastest z) = Fastest.Conv2d 64 255 1 0)
  ∧ (∀ e, width = Raise e →
       Fastest.build_model_from_cfg H (b :: rest) fs = (Raise e, fs, []))
  ∧ (∀ (b' : Fastest.block) rest',
       b' !! py "width" = b !! py "width" →
       Fastest.build_model_from_cfg H (b' :: rest') fs
       = Fastest.build_model_from_cfg H (b :: rest) fs).
Proof.
  intros width. unfold Fastest.build_model_from_cfg. split; [|split].
  - intros z Hz. rewrite !bind_lift. fold width. rewrite Hz.
    autorewrite with run. repeat split.
  - intros e He. rewrite !bind_lift. fold width. by rewrite He.
  - intros b' rest' Hw. rewrite !bind_lift. by rewrite Hw.
Qed.

(** The network built from the blocks of the small config file. *)
Lemma build_model_is_fixed_stack_witness :
  Fastest.build_model_from_cfg Demo.host demo_blocks ∅
  = (Ok (Fastest.SimplifiedYOLOFastest 416), ∅,
     [Printed (py "Model input size: " ++ str_of_Z 416 ++ py "x" ++ str_of_Z 416)]).
Proof.
  apply (build_model_is_fixed_stack Demo.host
           {[ py "type" := py "net"; py "width" := py "416"; py "batch" := py "1" ]}
           [ {[ py "type" := py "convolutional"; py "filters" := py "16" ]} ] ∅).
  vm_compute. reflexivity.
Defined.

(** ** What a reported success guarantees *)

Section Success.

Variable H : host.

(** Every way [quantize_onnx_model] can go. *)
Lemma quantize_onnx_model_cases (L : Quantize.quant_lib) (input_path output_path : str)
    (fs : fsys) :
  let start := [ Printed (py "
" ++ rule60); Printed (py "📦 输入模型: " ++ input_path) ] in
  let failed (e : exn) := [ Printed (py "❌ 量化失败: " ++ exn_text e); Traceback e ] in
  Quantize.quantize_onnx_model H L input_path output_path fs
  = match fs !! input_path with
    | None => (Ok false, fs, start ++ [Printed (py "❌ 模型文件不存在: " ++ input_path)])
    | Some bytes =>
        let called :=
          start ++ [ Printed (py "📊 原始大小: " ++ fmt_mb H (length bytes) ++ py " MB");
                     Printed (py "🔄 开始INT8动态量化...");
                     Called (py "quantize_dynamic") [input_path; output_path] ] in
        match Quantize.quantize_dynamic L input_path output_path fs with
        | (Raise e, fs') => (Ok false, fs', called ++ failed e)
        | (Ok _, fs') =>
            match fs' !! output_path with
            | None => (Ok false, fs', called ++ failed (no_such_file output_path))
            | Some quantized =>
                match Quantize.compression_ratio H (length bytes) (length quantized) with
                | Raise e => (Ok false, fs', called ++ failed e)
                | Ok ratio =>
                    (Ok true, fs',
                     called ++
                     [ Printed (py "✅ 量化成功: " ++ output_path);
                       Printed (py "📊 量化后大小: " ++ fmt_mb H (length quantized)
                                  ++ py " MB");
                       Printed (py "🗜️  压缩比: " ++ ratio ++ py "x") ])
                end
            end
        end
    end.
Proof.
  intros start failed. unfold Quantize.quantize_onnx_model. autorewrite with run.
  destruct (fs !! input_path) as [bytes|] eqn:Hin.
  - rewrite bool_decide_eq_true_2 by (by eexists). cbn [negb].
    rewrite bind_getsize, Hin. autorewrite with run.
    rewrite try_except_run. autorewrite with run. rewrite bind_extern.
    destruct (Quantize.quantize_dynamic L input_path output_path fs) as [[[]|e] fs'].
    + rewrite bind_getsize. destruct (fs' !! output_path) as [quantized|].
      * rewrite bind_lift.
        destruct (Quantize.compression_ratio H (length bytes) (length quantized));
          autorewrite with run; reflexivity.
      * autorewrite with run. reflexivity.
    + autorewrite with run. reflexivity.
  - rewrite bool_decide_eq_false_2 by apply is_Some_None. cbn [negb].
    autorewrite with run. reflexivity.
Qed.

(** A success of [quantize_onnx_model] leaves a non-empty output file. *)
Lemma quantize_success_output (L : Quantize.quant_lib) (input_path output_path : str)
    (fs : fsys) :
  outcome (Quantize.quantize_onnx_model H L input_path output_path fs) = Ok true →
  ∃ quantized,
    final (Quantize.quantize_onnx_model H L input_path output_path fs) !! output_path
    = Some quantized
    ∧ (0 < length quantized)%nat.
Proof.
  rewrite quantize_onnx_model_cases. cbv zeta.
  destruct (fs !! input_path) as [bytes|]; [|discriminate].
  destruct (Quantize.quantize_dynamic L input_path output_path fs) as [[[]|e] fs'];
    [|discriminate].
  destruct (fs' !! output_path) as [quantized|] eqn:Hout; [|discriminate].
  unfold Quantize.compression_ratio. case_bool_decide as Hlen; [discriminate|].
  intros _. exists quantized. split; [exact Hout|lia].
Qed.

Lemma bind_success {A B} (m : M A) (k : A → M B) (fs : fsys) (b : B) (P : fsys → Prop) :
  (∀ a fs1, outcome (k a fs1) = Ok b → P (final (k a fs1))) →
  outcome (bind m k fs) = Ok b → P (final (bind m k fs)).
Proof.
  intros Hk. rewrite bind_run. destruct (m fs) as [[[a|e] fs1] t1]; [|discriminate].
  rewrite outcome_prepend, final_prepend. by apply Hk.
Qed.

Lemma try_except_true (m : M bool) (h : exn → M bool) (fs : fsys) (P : fsys → Prop) :
  (∀ e fs', outcome (h e fs') ≠ Ok true) →
  (outcome (m fs) = Ok true → P (final (m fs))) →
  outcome (try_except m h fs) = Ok true → P (final (try_except m h fs)).
Proof.
  intros Hh Hm. rewrite try_except_run. destruct (m fs) as [[[a|e] fs1] t1]; [exact Hm|].
  rewrite outcome_prepend. intros Hok. by destruct (Hh e fs1).
Qed.

(** A success of [convert] leaves the output file. *)
Lemma convert_success_output (L : Fastest.torch_lib) (MODELS_DIR model_key : str)
    (info : Fastest.model_info) (fs : fsys) :
  Fastest.models_get model_key = Some info →
  outcome (Fastest.convert H L MODELS_DIR model_key fs) = Ok true →
  is_Some (final (Fastest.convert H L MODELS_DIR model_key fs)
             !! pjoin MODELS_DIR (Fastest.output info)).
Proof.
  intros Hkey. unfold Fastest.convert. rewrite Hkey. autorewrite with run.
  rewrite outcome_prepend, final_prepend.
  destruct (bool_decide (is_Some (fs !! pjoin MODELS_DIR (Fastest.cfg info))));
    cbn [negb]; [|autorewrite with run; discriminate].
  autorewrite with run.
  destruct (fs !! pjoin MODELS_DIR (Fastest.weights info)) as [wbytes|] eqn:Hw.
  2:{ rewrite bool_decide_eq_false_2 by apply is_Some_None. cbn [negb].
      autorewrite with run. discriminate. }
  rewrite bool_decide_eq_true_2 by (by eexists). cbn [negb].
  autorewrite with run. rewrite outcome_prepend, final_prepend.
  rewrite bind_getsize, Hw. autorewrite with run. rewrite outcome_prepend, final_prepend.
  apply (try_except_true _ _ fs (λ s, is_Some (s !! pjoin MODELS_DIR (Fastest.output info)))).
  { intros e fs'. autorewrite with run. discriminate. }
  rewrite bind_print, outcome_prepend, final_prepend.
  apply (bind_success _ _ fs true (λ s, is_Some (s !! pjoin MODELS_DIR (Fastest.output info)))).
  intros blocks fs1.
  rewrite bind_print, outcome_prepend, final_prepend.
  apply (bind_success _ _ fs1 true (λ s, is_Some (s !! pjoin MODELS_DIR (Fastest.output info)))).
  intros weights fs2.
  rewrite !bind_print, outcome_prepend, final_prepend.
  apply (bind_success _ _ fs2 true (λ s, is_Some (s !! pjoin MODELS_DIR (Fastest.output info)))).
  intros model fs3.
  rewrite bind_print, outcome_prepend, final_prepend, bind_extern.
  destruct (Fastest.torch_onnx_export L model _ fs3) as [[[]|e] fs4]; [|discriminate].
  rewrite outcome_prepend, final_prepend, bind_print, outcome_prepend, final_prepend.
  rewrite bind_extern.
  destruct (Fastest.onnx_load L _ fs4) as [[onnx_model|e] fs5]; [|discriminate].
  rewrite outcome_prepend, final_prepend, bind_extern.
  destruct (Fastest.onnx_check_model L onnx_model fs5) as [[[]|e] fs6]; [|discriminate].
  rewrite outcome_prepend, final_prepend, bind_print, outcome_prepend, final_prepend.
  rewrite bind_getsize.
  destruct (fs6 !! pjoin MODELS_DIR (Fastest.output info)) as [obytes|] eqn:Hout;
    [|discriminate].
  autorewrite with run. intros _. unfold final. cbn [fst snd]. rewrite Hout. by eexists.
Qed.

(** [export_int8_model] when the library returns the path of a file
    that is there: the file is moved to the target path. *)
Lemma export_int8_model_moves (Y : ExportInt8.yolo_lib) (model_path output_dir : str)
    (fs fs1 fs2 : fsys) (model : ExportInt8.yolo_model Y) (exported_path : str)
    (bytes : list Byte.byte) :
  let target_path :=
    pjoin output_dir (replace (py ".pt") [] (basename model_path) ++ py "_int8.onnx") in
  is_Some (fs !! model_path) →
  ExportInt8.YOLO Y model_path fs = (Ok model, fs1) →
  ExportInt8.yolo_export Y model fs1 = (Ok exported_path, fs2) →
  fs2 !! exported_path = Some bytes →
  outcome (ExportInt8.export_int8_model H Y model_path output_dir fs) = Ok true
  ∧ final (ExportInt8.export_int8_model H Y model_path output_dir fs)
    = <[ target_path := bytes ]> (delete exported_path fs2).
Proof.
  intros target_path Hin Hy He Hex. unfold ExportInt8.export_int8_model.
  fold target_path. autorewrite with run.
  rewrite bool_decide_eq_true_2 by exact Hin. cbn [negb].
  rewrite try_except_run, bind_extern, Hy. autorewrite with run.
  rewrite bind_extern, He. autorewrite with run.
  rewrite bool_decide_eq_true_2 by (by eexists).
  rewrite bind_run, bind_move, Hex. autorewrite with run.
  rewrite bind_getsize, lookup_insert_eq. autorewrite with run. split; reflexivity.
Qed.

(** [export_int8_model] when the library returns a path where no file
    is: nothing is written, and the result is [True] all the same. *)
Lemma export_int8_model_ghost (Y : ExportInt8.yolo_lib) (model_path output_dir : str)
    (fs fs1 fs2 : fsys) (model : ExportInt8.yolo_model Y) (exported_path : str) :
  is_Some (fs !! model_path) →
  ExportInt8.YOLO Y model_path fs = (Ok model, fs1) →
  ExportInt8.yolo_export Y model fs1 = (Ok exported_path, fs2) →
  fs2 !! exported_path = None →
  outcome (ExportInt8.export_int8_model H Y model_path output_dir fs) = Ok true
  ∧ final (ExportInt8.export_int8_model H Y model_path output_dir fs) = fs2.
Proof.
  intros Hin Hy He Hex. unfold ExportInt8.export_int8_model. autorewrite with run.
  rewrite bool_decide_eq_true_2 by exact Hin. cbn [negb].
  rewrite try_except_run, bind_extern, Hy. autorewrite with run.
  rewrite bind_extern, He. autorewrite with run.
  rewrite bool_decide_eq_false_2 by (rewrite Hex; apply is_Some_None).
  autorewrite with run. split; reflexivity.
Qed.

End Success.

(** C8, as stated, fails for [export_int8_model]: when the library
    returns a path where no file is, the function returns [True] and no
    file is at the output path. *)
Lemma export_int8_model_true_without_output :
  outcome (ExportInt8.export_int8_model Demo.host Demo.yolo_ghost (py "yolov8n.pt")
             (py "models") {[ py "yolov8n.pt" := Demo.file "checkpoint" ]}) = Ok true
  ∧ final (ExportInt8.export_int8_model Demo.host Demo.yolo_ghost (py "yolov8n.pt")
             (py "models") {[ py "yolov8n.pt" := Demo.file "checkpoint" ]})
      !! py "models/yolov8n_int8.onnx" = None.
Proof. split; vm_compute; reflexivity. Qed.

(** C8, amended: when [quantize_onnx_model] returns [True], a file of
    non-zero size is at its output path; when [convert] returns [True],
    a file is at the output path of the model; [export_int8_model] moves
    the file the library reports to the output path when that file is
    there, and returns [True] without writing anything when it is not. *)
Theorem success_leaves_output (H : host) :
  (∀ L input_path output_path fs,
     outcome (Quantize.quantize_onnx_model H L input_path output_path fs) = Ok true →
     ∃ quantized,
       final (Quantize.quantize_onnx_model H L input_path output_path fs) !! output_path
       = Some quantized
       ∧ (0 < length quantized)%nat)
  ∧ (∀ L MODELS_DIR model_key info fs,
       Fastest.models_get model_key = Some info →
       outcome (Fastest.convert H L MODELS_DIR model_key fs) = Ok true →
       is_Some (final (Fastest.convert H L MODELS_DIR model_key fs)
                  !! pjoin MODELS_DIR (Fastest.output info)))
  ∧ (∀ Y model_path output_dir fs fs1 fs2 model exported_path bytes,
       is_Some (fs !! model_path) →
       ExportInt8.YOLO Y model_path fs = (Ok model, fs1) →
       ExportInt8.yolo_export Y model fs1 = (Ok exported_path, fs2) →
       fs2 !! exported_path = Some bytes →
       outcome (ExportInt8.export_int8_model H Y model_path output_dir fs) = Ok true
       ∧ final (ExportInt8.export_int8_model H Y model_path output_dir fs)
         = <[ pjoin output_dir
                (replace (py ".pt") [] (basename model_path) ++ py "_int8.onnx")
              := bytes ]> (delete exported_path fs2))
  ∧ (∀ Y model_path output_dir fs fs1 fs2 model exported_path,
       is_Some (fs !! model_path) →
       ExportInt8.YOLO Y model_path fs = (Ok model, fs1) →
       ExportInt8.yolo_export Y model fs1 = (Ok exported_path, fs2) →
       fs2 !! exported_path = None →
       outcome (ExportInt8.export_int8_model H Y model_path output_dir fs) = Ok true
       ∧ final (ExportInt8.export_int8_model H Y model_path output_dir fs) = fs2).
Proof.
  split; [|split; [|split]].
  - intros L input_path output_path fs. apply quantize_success_output.
  - intros L MODELS_DIR model_key info fs. apply convert_success_output.
  - intros Y model_path output_dir fs fs1 fs2 model exported_path bytes.
    apply export_int8_model_moves.
  - intros Y model_path output_dir fs fs1 fs2 model exported_path.
    apply export_int8_model_ghost.
Qed.

(** The output of a quantization that worked. *)
Lemma success_leaves_output_witness :
  ∃ quantized,
    final (Quantize.quantize_onnx_model Demo.host Demo.quant_ok (py "models/a.onnx")
             (py "models/a_int8.onnx") demo_models) !! py "models/a_int8.onnx"
    = Some quantized
    ∧ (0 < length quantized)%nat.
Proof.
  destruct (success_leaves_output Demo.host) as (Hq & _).
  apply (Hq Demo.quant_ok (py "models/a.onnx") (py "models/a_int8.onnx") demo_models).
  vm_compute. reflexivity.
Defined.

Example convert_demo_export_fails :
  outcome (Fastest.convert Demo.host Demo.torch_failing (py "/m") (py "1")
             {[ py "/m/yolo-fastest-1.1/yolo-fastest-1.1.cfg" := demo_cfg;
                py "/m/yolo-fastest-1.1/yolo-fastest-1.1.weights" := demo_weights ]})
  = Ok false.
Proof. vm_compute. reflexivity. Qed.

Example export_demo_load_fails :
  outcome (ExportInt8.export_int8_model Demo.host Demo.yolo_failing (py "yolov8n.pt")
             (py "models") {[ py "yolov8n.pt" := Demo.file "checkpoint" ]}) = Ok false.
Proof. vm_compute. reflexivity. Qed.

Example export_demo_success :
  final (ExportInt8.export_int8_model Demo.host Demo.yolo_ok (py "yolov8n.pt")
           (py "models") {[ py "yolov8n.pt" := Demo.file "checkpoint" ]})
    !! py "models/yolov8n_int8.onnx" = Some (Demo.file "onnx").
Proof. vm_compute. reflexivity. Qed.

Example convert_demo_success :
  outcome (Fastest.convert Demo.host Demo.torch_ok (py "/m") (py "1")
             {[ py "/m/yolo-fastest-1.1/yolo-fastest-1.1.cfg" := demo_cfg;
                py "/m/yolo-fastest-1.1/yolo-fastest-1.1.weights" := demo_weights ]})
  = Ok true.
Proof. vm_compute. reflexivity. Qed.

(** ** The quantization script over a directory *)

Section Directory.

Lemma startswith_app (p r : str) : startswith p (p ++ r) = true.
Proof. induction p as [|a p IH]; [done|]. cbn [app startswith]. by rewrite N.eqb_refl. Qed.

Lemma startswith_true (p : str) : ∀ s, startswith p s = true → s = p ++ drop (length p) s.
Proof.
  induction p as [|a p IH]; intros s; [done|]. destruct s as [|b s]; [done|].
  cbn [startswith length drop app]. intros Hs. apply andb_true_iff in Hs as [Hab Hs].
  apply N.eqb_eq in Hab as ->. f_equal. by apply IH.
Qed.

(** [files_in d] lists the names [m] of the files [d/m]. *)
Lemma files_in_spec (d m : str) (fs : fsys) :
  m ∈ files_in d fs
  ↔ is_Some (fs !! pjoin d m) ∧ contains (py "/") m = false ∧ m ≠ [].
Proof.
  unfold files_in, pjoin. rewrite list_elem_of_omap. rewrite (app_assoc d (py "/") m).
  set (pre := d ++ py "/"). split.
  - intros ([p bytes] & Hin & Hsome). apply elem_of_map_to_list in Hin.
    cbn [fst] in Hsome.
    destruct (startswith pre p) eqn:Hpre; [|discriminate].
    destruct (contains (py "/") (drop (length pre) p)) eqn:Hsl; [discriminate|].
    cbn [andb negb] in Hsome. case_bool_decide as Hne; [discriminate|].
    cbn [negb] in Hsome. injection Hsome as <-.
    rewrite <- (startswith_true pre p Hpre). split; [by eexists|done].
  - intros ([bytes Hb] & Hsl & Hne). exists (pre ++ m, bytes).
    split; [by apply elem_of_map_to_list|]. cbn [fst].
    rewrite startswith_app, drop_app_length, Hsl. cbn [andb negb].
    by rewrite bool_decide_eq_false_2.
Qed.

Lemma py_onnx : py ".onnx" = [46; 111; 110; 110; 120].
Proof. reflexivity. Qed.

(** An occurrence of [.onnx] at the start of [b ++ ".onnx"], for a
    non-empty [b], is one at the start of [b]: [.] is not in [onnx]. *)
Lemma startswith_onnx_app (c : N) (b : str) :
  startswith (py ".onnx") (c :: b) = false →
  startswith (py ".onnx") ((c :: b) ++ py ".onnx") = false.
Proof.
  rewrite py_onnx.
  destruct b as [|b1 [|b2 [|b3 [|b4 b]]]]; cbn [app startswith];
    rewrite ?andb_false_r; intros Hb; first [reflexivity | exact Hb].
Qed.

(** For a name that holds [.onnx] as its extension only, the output
    name has [_int8] before the extension. *)
Lemma output_name_extension (base : str) :
  contains (py ".onnx") base = false →
  Quantize.output_name (base ++ py ".onnx") = base ++ py "_int8.onnx".
Proof.
  intros Hbase. unfold Quantize.output_name, replace. f_equal.
  induction base as [|c b IH].
  - rewrite py_onnx. reflexivity.
  - cbn [contains] in Hbase. apply orb_false_elim in Hbase as [Hhere Hlater].
    change ((c :: b) ++ py ".onnx") with (c :: (b ++ py ".onnx")).
    cbn [replace_go].
    change (c :: (b ++ py ".onnx")) with ((c :: b) ++ py ".onnx").
    rewrite (startswith_onnx_app c b Hhere). f_equal. by apply IH.
Qed.

End Directory.

Lemma elem_of_calls_of (ev : event) (evs : list event) :
  ev ∈ calls_of evs ↔ is_call ev = true ∧ ev ∈ evs.
Proof. unfold calls_of. by rewrite list_elem_of_filter. Qed.

Lemma calls_of_app (a b : list event) : calls_of (a ++ b) = calls_of a ++ calls_of b.
Proof. unfold calls_of. apply filter_app. Qed.

Lemma calls_of_printed_only (t : list event) : printed_only t → calls_of t = [].
Proof.
  induction 1 as [|ev t Hev _ IH]; [reflexivity|]. unfold calls_of in *.
  destruct ev; done.
Qed.

Lemma calls_of_printed {A} (f : A → str) (l : list A) :
  calls_of (map (λ x, Printed (f x)) l) = [].
Proof.
  induction l as [|x l IH]; [done|]. cbn [map]. unfold calls_of in *.
  by rewrite filter_cons_False.
Qed.

Section Rerun.

Variable H : host.

(** An input whose output file is there is skipped. *)
Lemma quantize_each_skips (L : Quantize.quant_lib) (m : str) (rest : list str)
    (success_count : nat) (fs : fsys) :
  is_Some (fs !! pjoin Quantize.models_dir (Quantize.output_name m)) →
  Quantize.quantize_each H L (m :: rest) success_count fs
  = prepend [Printed (py "
⏭️  跳过 (已存在): " ++ Quantize.output_name m)]
      (Quantize.quantize_each H L rest success_count fs).
Proof.
  intros Hout. cbn [Quantize.quantize_each].
  by rewrite bind_exists, bool_decide_eq_true_2, bind_print.
Qed.

Lemma quantize_each_all_present (L : Quantize.quant_lib) (onnx_models : list str)
    (success_count : nat) (fs : fsys) :
  (∀ m, m ∈ onnx_models →
        is_Some (fs !! pjoin Quantize.models_dir (Quantize.output_name m))) →
  Quantize.quantize_each H L onnx_models success_count fs
  = (Ok success_count, fs,
     map (λ m, Printed (py "
⏭️  跳过 (已存在): " ++ Quantize.output_name m)) onnx_models).
Proof.
  induction onnx_models as [|m rest IH]; intros Hall; [reflexivity|].
  rewrite quantize_each_skips by (apply Hall, list_elem_of_here).
  rewrite IH by (intros m' Hm'; by apply Hall, list_elem_of_further).
  reflexivity.
Qed.

(** A run over a directory where every selected model has its output
    calls no library and changes nothing; it returns when the directory
    can be listed. *)
Lemma quantize_main_nothing_to_do (L : Quantize.quant_lib) (fs : fsys) :
  (∀ m, m ∈ selected H fs →
        is_Some (fs !! pjoin Quantize.models_dir (Quantize.output_name m))) →
  outcome (Quantize.main H L fs)
  = match listdir H Quantize.models_dir fs with Ok _ => Ok tt | Raise e => Raise e end
  ∧ final (Quantize.main H L fs) = fs
  ∧ calls_of (events (Quantize.main H L fs)) = [].
Proof.
  intros Hall. destruct (listdir H Quantize.models_dir fs) as [filenames|e] eqn:Hl.
  - destruct (selected H fs) as [|m0 rest] eqn:Hsel.
    + destruct (quantize_main_no_model H L fs filenames Hl Hsel) as (Hout & Hfin & Hev).
      split; [exact Hout|]. split; [exact Hfin|]. by apply calls_of_printed_only.
    + destruct (quantize_main_report H L fs filenames Hl) as
        (k & s & t & before & after & Hloop & -> & Hb & Ha); [by rewrite Hsel|].
      rewrite Hsel in Hloop.
      rewrite (quantize_each_all_present L (m0 :: rest) 0 fs Hall) in Hloop.
      set (skips := map (λ m, Printed (py "
⏭️  跳过 (已存在): " ++ Quantize.output_name m)) (m0 :: rest)) in Hloop.
      assert (s = fs) as -> by congruence. assert (t = skips) as -> by congruence.
      split; [reflexivity|]. split; [reflexivity|].
      unfold events. cbn [snd]. rewrite !calls_of_app. unfold skips.
      rewrite calls_of_printed.
      by rewrite (calls_of_printed_only before), (calls_of_printed_only after).
  - destruct (quantize_main_unlisted H L fs e Hl) as (Hout & Hfin & Hev).
    split; [exact Hout|]. split; [exact Hfin|]. by apply calls_of_printed_only.
Qed.

Lemma quantize_onnx_model_calls (L : Quantize.quant_lib) (input_path output_path : str)
    (fs : fsys) (ev : event) :
  ev ∈ events (Quantize.quantize_onnx_model H L input_path output_path fs) →
  is_call ev = true →
  ev = Called (py "quantize_dynamic") [input_path; output_path].
Proof.
  rewrite quantize_onnx_model_cases. cbv zeta.
  destruct (fs !! input_path) as [bytes|].
  2:{ unfold events. cbn [snd app]. rewrite !elem_of_cons, elem_of_nil.
      intros [->|[->|[->|[]]]]; discriminate. }
  destruct (Quantize.quantize_dynamic L input_path output_path fs) as [[[]|e] fs'].
  2:{ unfold events. cbn [snd app]. rewrite !elem_of_cons, elem_of_nil.
      intros [->|[->|[->|[->|[->|[->|[->|[]]]]]]]]; first [discriminate|reflexivity]. }
  destruct (fs' !! output_path) as [quantized|].
  2:{ unfold events. cbn [snd app]. rewrite !elem_of_cons, elem_of_nil.
      intros [->|[->|[->|[->|[->|[->|[->|[]]]]]]]]; first [discriminate|reflexivity]. }
  destruct (Quantize.compression_ratio H (length bytes) (length quantized)).
  - unfold events. cbn [snd app]. rewrite !elem_of_cons, elem_of_nil.
    intros [->|[->|[->|[->|[->|[->|[->|[->|[]]]]]]]]]; first [discriminate|reflexivity].
  - unfold events. cbn [snd app]. rewrite !elem_of_cons, elem_of_nil.
    intros [->|[->|[->|[->|[->|[->|[->|[]]]]]]]]; first [discriminate|reflexivity].
Qed.

Lemma quantize_each_calls (L : Quantize.quant_lib) (onnx_models : list str) :
  ∀ (success_count : nat) (fs : fsys) (ev : event),
    ev ∈ events (Quantize.quantize_each H L onnx_models success_count fs) →
    is_call ev = true →
    ∃ m, m ∈ onnx_models
         ∧ ev = Called (py "quantize_dynamic")
                  [ pjoin Quantize.models_dir m;
                    pjoin Quantize.models_dir (Quantize.output_name m) ].
Proof.
  induction onnx_models as [|m0 rest IH]; intros success_count fs ev.
  - intros Hev. by apply elem_of_nil in Hev.
  - cbn [Quantize.quantize_each]. rewrite bind_exists.
    destruct (bool_decide (is_Some (fs !! pjoin Quantize.models_dir (Quantize.output_name m0)))).
    + rewrite bind_print, elem_of_events_prepend. intros [Hev|Hev] Hcall.
      * apply list_elem_of_singleton in Hev as ->. discriminate.
      * destruct (IH _ _ _ Hev Hcall) as (m & Hm & ->). exists m.
        split; [by apply list_elem_of_further|reflexivity].
    + rewrite bind_run.
      pose proof (quantize_onnx_model_calls L (pjoin Quantize.models_dir m0)
                    (pjoin Quantize.models_dir (Quantize.output_name m0)) fs ev) as Hone.
      revert Hone.
      destruct (Quantize.quantize_onnx_model H L _ _ fs) as [[[ok|e] s1] t1];
        unfold events at 1; cbn [snd]; intros Hone.
      * rewrite elem_of_events_prepend. intros [Hev|Hev] Hcall.
        -- exists m0. split; [apply list_elem_of_here|by apply Hone].
        -- destruct (IH _ _ _ Hev Hcall) as (m & Hm & ->). exists m.
           split; [by apply list_elem_of_further|reflexivity].
      * unfold events. cbn [snd]. intros Hev Hcall.
        exists m0. split; [apply list_elem_of_here|by apply Hone].
Qed.

End Rerun.

Section MainCalls.

Variable H : host.

(** Every library call of [main] quantizes a selected model into the
    output named after it. *)
Lemma quantize_main_calls (L : Quantize.quant_lib) (fs : fsys) (ev : event) :
  ev ∈ calls_of (events (Quantize.main H L fs)) →
  ∃ m, m ∈ selected H fs
       ∧ ev = Called (py "quantize_dynamic")
                [ pjoin Quantize.models_dir m;
                  pjoin Quantize.models_dir (Quantize.output_name m) ].
Proof.
  rewrite elem_of_calls_of. intros [Hcall Hev].
  assert (∀ evs, printed_only evs → ev ∈ evs → False) as Hprinted.
  { intros evs Hp Hin. pose proof (proj2 (elem_of_calls_of ev evs) (conj Hcall Hin)) as Hc.
    rewrite (calls_of_printed_only evs Hp) in Hc. by apply elem_of_nil in Hc. }
  destruct (listdir H Quantize.models_dir fs) as [filenames|e] eqn:Hl.
  - destruct (selected H fs) as [|m0 rest] eqn:Hsel.
    + destruct (quantize_main_no_model H L fs filenames Hl Hsel) as (_ & _ & Hp).
      destruct (Hprinted _ Hp Hev).
    + destruct (quantize_main_report H L fs filenames Hl) as
        (k & s & t & before & after & Hloop & Hmain & Hb & Ha); [by rewrite Hsel|].
      rewrite Hmain in Hev. unfold events in Hev. cbn [snd] in Hev.
      rewrite Hsel in Hloop.
      rewrite !elem_of_app in Hev. destruct Hev as [Hev|[Hev|[Hev|Hev]]].
      * destruct (Hprinted _ Hb Hev).
      * apply (quantize_each_calls H L (m0 :: rest) 0 fs ev); [|exact Hcall].
        rewrite Hloop. exact Hev.
      * exfalso. refine (Hprinted _ _ Hev). by repeat constructor.
      * destruct (Hprinted _ Ha Hev).
  - destruct (quantize_main_unlisted H L fs e Hl) as (_ & _ & Hp).
    destruct (Hprinted _ Hp Hev).
Qed.

End MainCalls.



Example after_good_run_files :
  files_in Quantize.models_dir after_good_run
  = [ py "c_int8.onnx"; py "b_int8.onnx"; py "a_int8.onnx"; py "b.onnx"; py "a.onnx" ].
Proof. vm_compute. reflexivity. Qed.


(** ** The menu of convert_fastest_to_onnx.py *)

Lemma printed_only_app (t1 t2 : list event) :
  printed_only t1 → printed_only t2 → printed_only (t1 ++ t2).
Proof. apply Forall_app_2. Qed.

Section Menu.

Variables (H : host) (L : Fastest.torch_lib) (MODELS_DIR : str).

Lemma show_menu_run (fs : fsys) :
  ∃ t, FastestMain.show_menu fs = (Ok tt, fs, t) ∧ printed_only t.
Proof.
  unfold FastestMain.show_menu. autorewrite with run. eexists. split; [reflexivity|].
  repeat constructor.
Qed.

(** The loop of the menu ends normally exactly when the choice [0] is
    entered; when the input ends before, [EOFError] leaves it. *)
Lemma menu_loop_outcome (stdin : list str) : ∀ fs,
  outcome (FastestMain.menu_loop H L MODELS_DIR stdin fs)
  = if existsb is_exit stdin then Ok tt else Raise FastestMain.eof_error.
Proof.
  induction stdin as [|line rest IH]; intros fs.
  - cbn [FastestMain.menu_loop existsb]. rewrite bind_run.
    destruct (show_menu_run fs) as (t & -> & _). cbv beta iota.
    by rewrite outcome_prepend, bind_print, outcome_prepend.
  - cbn [FastestMain.menu_loop existsb]. rewrite bind_run.
    destruct (show_menu_run fs) as (t & -> & _). cbv beta iota.
    rewrite outcome_prepend, bind_print, outcome_prepend. unfold is_exit at 1.
    destruct (bool_decide (strip line = py "0")); [reflexivity|]. cbn [orb].
    destruct (bool_decide (strip line = py "4")).
    { rewrite bind_run.
      destruct (convert_all_visits H L MODELS_DIR fs) as [[ok Hok] _]. revert Hok.
      destruct (Fastest.convert_all H L MODELS_DIR fs) as [[r s1] t1].
      unfold outcome at 1. cbn [fst]. intros ->. by rewrite outcome_prepend. }
    destruct (bool_decide (strip line ∈ [py "1"; py "2"; py "3"])).
    { rewrite bind_run.
      destruct (convert_returns H L MODELS_DIR (strip line) fs) as [ok Hok]. revert Hok.
      destruct (Fastest.convert H L MODELS_DIR (strip line) fs) as [[r s1] t1].
      unfold outcome at 1. cbn [fst]. intros ->. by rewrite outcome_prepend. }
    by rewrite bind_print, outcome_prepend.
Qed.

(** What is entered after the choice [0] is never read. *)
Lemma menu_loop_ignores_rest (pre : list str) (line : str) (post : list str) :
  is_exit line = true →
  ∀ fs, FastestMain.menu_loop H L MODELS_DIR (pre ++ line :: post) fs
        = FastestMain.menu_loop H L MODELS_DIR (pre ++ [line]) fs.
Proof.
  intros Hexit. induction pre as [|p pre IH]; intros fs.
  - cbn [app FastestMain.menu_loop]. unfold is_exit in Hexit. by rewrite Hexit.
  - cbn [app FastestMain.menu_loop]. apply bind_ext. intros [] fs1.
    apply bind_ext. intros [] fs2.
    destruct (bool_decide (strip p = py "0")); [reflexivity|].
    destruct (bool_decide (strip p = py "4")); [apply bind_ext; intros; apply IH|].
    destruct (bool_decide (strip p ∈ [py "1"; py "2"; py "3"]));
      apply bind_ext; intros; apply IH.
Qed.

End Menu.

(** X1: [main] of convert_fastest_to_onnx.py converts nothing unless the
    first answer is [y] or [Y] (surrounding blanks apart): for any other
    answer it prints its notice and the recommendation and returns; no
    file is opened, no library is called and the file system is
    unchanged, whatever else is entered. *)
Theorem fastest_main_declined (H : host) (L : Fastest.torch_lib) (MODELS_DIR : str)
    (answer : str) (stdin : list str) (fs : fsys) :
  FastestMain.lower (strip answer) ≠ py "y" →
  outcome (FastestMain.main H L MODELS_DIR (answer :: stdin) fs) = Ok tt
  ∧ final (FastestMain.main H L MODELS_DIR (answer :: stdin) fs) = fs
  ∧ printed_only (events (FastestMain.main H L MODELS_DIR (answer :: stdin) fs))
  ∧ FastestMain.main H L MODELS_DIR (answer :: stdin) fs
    = FastestMain.main H L MODELS_DIR [answer] fs.
Proof.
  intros Hno. unfold FastestMain.main. autorewrite with run.
  rewrite !bool_decide_eq_true_2 by exact Hno. autorewrite with run.
  repeat split. unfold events. cbn [snd]. repeat constructor.
Qed.

(** The answer [no]. *)
Lemma fastest_main_declined_witness :
  outcome (FastestMain.main Demo.host Demo.torch_ok (py "/m") [py "no"; py "4"] ∅) = Ok tt
  ∧ final (FastestMain.main Demo.host Demo.torch_ok (py "/m") [py "no"; py "4"] ∅) = ∅
  ∧ printed_only
      (events (FastestMain.main Demo.host Demo.torch_ok (py "/m") [py "no"; py "4"] ∅))
  ∧ FastestMain.main Demo.host Demo.torch_ok (py "/m") [py "no"; py "4"] ∅
    = FastestMain.main Demo.host Demo.torch_ok (py "/m") [py "no"] ∅.
Proof.
  apply (fastest_main_declined Demo.host Demo.torch_ok (py "/m") (py "no") [py "4"] ∅).
  vm_compute. discriminate.
Defined.

(** X2: once the first answer is [y], [main] of convert_fastest_to_onnx.py
    returns exactly when the choice [0] is entered; when the input ends
    before that, [EOFError] leaves [main], whatever the conversions did:
    a failed conversion never ends the menu.  With no input at all
    [EOFError] is raised at the first prompt. *)
Theorem fastest_main_outcome (H : host) (L : Fastest.torch_lib) (MODELS_DIR : str)
    (fs : fsys) :
  outcome (FastestMain.main H L MODELS_DIR [] fs) = Raise FastestMain.eof_error
  ∧ ∀ answer stdin,
      FastestMain.lower (strip answer) = py "y" →
      outcome (FastestMain.main H L MODELS_DIR (answer :: stdin) fs)
      = if existsb is_exit stdin then Ok tt else Raise FastestMain.eof_error.
Proof.
  split.
  - unfold FastestMain.main. autorewrite with run. reflexivity.
  - intros answer stdin Hyes. unfold FastestMain.main. autorewrite with run.
    rewrite bool_decide_eq_false_2 by (intros Hne; by apply Hne).
    rewrite outcome_prepend. apply menu_loop_outcome.
Qed.

(** The answer [Y], then an invalid choice and the choice [0]; and the
    answer [y] with input that ends before the choice [0]. *)
Lemma fastest_main_outcome_witness :
  outcome (FastestMain.main Demo.host Demo.torch_ok (py "/m") [py " Y
"; py "5"; py "0"] ∅) = Ok tt
  ∧ outcome (FastestMain.main Demo.host Demo.torch_ok (py "/m") [py "y"; py "4"] ∅)
    = Raise FastestMain.eof_error.
Proof.
  destruct (fastest_main_outcome Demo.host Demo.torch_ok (py "/m") ∅) as [_ Hmenu].
  split.
  - rewrite Hmenu by (vm_compute; reflexivity). reflexivity.
  - rewrite Hmenu by (vm_compute; reflexivity). reflexivity.
Defined.

(** X3: what is entered after the choice [0] is never read: the run of
    [main] is the same without it. *)
Theorem fastest_main_stops_at_exit (H : host) (L : Fastest.torch_lib) (MODELS_DIR : str)
    (answer : str) (pre : list str) (line : str) (post : list str) (fs : fsys) :
  is_exit line = true →
  FastestMain.main H L MODELS_DIR (answer :: pre ++ line :: post) fs
  = FastestMain.main H L MODELS_DIR (answer :: pre ++ [line]) fs.
Proof.
  intros Hexit. unfold FastestMain.main. autorewrite with run.
  destruct (bool_decide (FastestMain.lower (strip answer) ≠ py "y")); [reflexivity|].
  by rewrite menu_loop_ignores_rest.
Qed.

(** The choice [0] followed by more input. *)
Lemma fastest_main_stops_at_exit_witness :
  FastestMain.main Demo.host Demo.torch_ok (py "/m") [py "y"; py "9"; py " 0 "; py "4"] ∅
  = FastestMain.main Demo.host Demo.torch_ok (py "/m") [py "y"; py "9"; py " 0 "] ∅.
Proof.
  apply (fastest_main_stops_at_exit Demo.host Demo.torch_ok (py "/m") (py "y") [py "9"]
           (py " 0 ") [py "4"] ∅).
  vm_compute. reflexivity.
Defined.

(** ** convert_fastest_darknet_to_onnx.py *)

Lemma bind_path_exists {B} (p : str) (k : bool → M B) (fs : fsys) :
  bind (Paths.path_exists p) k fs = k (Paths.present p fs) fs.
Proof. rewrite bind_run. unfold Paths.path_exists. apply prepend_nil. Qed.

Lemma try_except_called_process_run {A} (m : M A) (h : exn → M A) (fs : fsys) :
  Darknet.try_except_called_process m h fs
  = match m fs with
    | (Ok a, s1, t1) => (Ok a, s1, t1)
    | (Raise e, s1, t1) =>
        if bool_decide (exn_cls e = Darknet.CalledProcessError)
        then prepend t1 (h e s1) else (Raise e, s1, t1)
    end.
Proof.
  unfold Darknet.try_except_called_process, prepend.
  destruct (m fs) as [[[a|e] s1] t1]; [reflexivity|].
  destruct (bool_decide (exn_cls e = Darknet.CalledProcessError)); [|reflexivity].
  by destruct (h e s1) as [[r s2] t2].
Qed.

Lemma print_models_run (todo : list (str * Darknet.model_info)) (fs : fsys) :
  ∃ t, Darknet.print_models todo fs = (Ok tt, fs, t) ∧ printed_only t.
Proof.
  induction todo as [|[key model] todo (t & IH & Ht)].
  - exists []. split; [reflexivity|constructor].
  - cbn [Darknet.print_models]. autorewrite with run. rewrite IH.
    eexists. split; [reflexivity|]. cbn [app]. by repeat constructor.
Qed.

(** X4: with [--auto], [main] of convert_fastest_darknet_to_onnx.py
    converts nothing: it prints (the warning about the virtual
    environment when [.venv] is missing, and one line) and returns; the
    input is not read, nothing is run and the file system is unchanged. *)
Theorem darknet_auto_converts_nothing (H : host) (P : Darknet.proc_lib)
    (stdin : list str) (fs : fsys) :
  outcome (Darknet.main H P true stdin fs) = Ok tt
  ∧ final (Darknet.main H P true stdin fs) = fs
  ∧ printed_only (events (Darknet.main H P true stdin fs))
  ∧ Darknet.main H P true stdin fs = Darknet.main H P true [] fs.
Proof.
  unfold Darknet.main. rewrite !bind_path_exists.
  destruct (Paths.present (py ".venv") fs); cbn [negb]; autorewrite with run;
    repeat split; unfold events; cbn [snd]; repeat constructor.
Qed.

Lemma printed_only_prepend {A} (t : list event) (x : result A * fsys * list event) :
  printed_only t → printed_only (events x) → printed_only (events (prepend t x)).
Proof. rewrite events_prepend. apply printed_only_app. Qed.

Lemma calls_of_prepend {A} (t : list event) (x : result A * fsys * list event) :
  printed_only t → calls_of (events (prepend t x)) = calls_of (events x).
Proof. intros Ht. by rewrite events_prepend, calls_of_app, calls_of_printed_only. Qed.

(** Every way [download_conversion_tool] can go. *)
Lemma download_conversion_tool_cases (P : Darknet.proc_lib) (fs : fsys) :
  Darknet.download_conversion_tool P fs
  = if Paths.present Darknet.repo_path fs then
      (Ok Darknet.repo_path, fs,
       [Printed (py "✅ Conversion tool already exists at: " ++ Darknet.repo_path)])
    else
      let start := [ Printed (py "📥 Cloning conversion tool from GitHub...");
                     Called (py "subprocess.run") git_clone ] in
      match Darknet.subprocess_run P git_clone fs with
      | (Ok _, fs') =>
          (Ok Darknet.repo_path, fs',
           start ++ [Printed (py "✅ Successfully cloned to: " ++ Darknet.repo_path)])
      | (Raise e, fs') =>
          if bool_decide (exn_cls e = Darknet.CalledProcessError) then
            (Raise (Darknet.system_exit 1), fs',
             start ++ [Printed (py "❌ Failed to clone repo: " ++ exn_text e)])
          else (Raise e, fs', start)
      end.
Proof.
  unfold Darknet.download_conversion_tool. rewrite bind_path_exists.
  destruct (Paths.present Darknet.repo_path fs); [by autorewrite with run|].
  autorewrite with run. rewrite try_except_called_process_run, bind_extern.
  fold git_clone.
  destruct (Darknet.subprocess_run P git_clone fs) as [[[]|e] fs'].
  - autorewrite with run. reflexivity.
  - destruct (bool_decide (exn_cls e = Darknet.CalledProcessError)); [|reflexivity].
    rewrite bind_print. reflexivity.
Qed.

Ltac solve_printed :=
  unfold printed_only in *;
  repeat first [ assumption | apply Forall_app_2
               | apply List.Forall_nil | apply List.Forall_cons; [exact I|] ].

Ltac darknet_start fs Ht :=
  unfold Darknet.convert_yolo_fastest; autorewrite with run;
  let t := fresh "t" in
  let Hrun := fresh "Hrun" in
  destruct (print_models_run Darknet.models fs) as (t & Hrun & Ht);
  rewrite bind_run, Hrun; cbv beta iota; autorewrite with run.

(** X5: [convert_yolo_fastest] converts nothing when the choice is [0],
    when it is not the key of a model, or when the config file or the
    weights file of the chosen model is missing: it prints and returns,
    the tool is neither cloned nor run and the file system is unchanged. *)
Theorem darknet_nothing_to_convert (H : host) (P : Darknet.proc_lib) (line : str)
    (rest : list str) (fs : fsys) :
  strip line = py "0"
  ∨ Darknet.models_get (strip line) = None
  ∨ (∃ model, Darknet.models_get (strip line) = Some model
              ∧ (fs !! Darknet.cfg model = None ∨ fs !! Darknet.weights model = None)) →
  outcome (Darknet.convert_yolo_fastest H P (line :: rest) fs) = Ok tt
  ∧ final (Darknet.convert_yolo_fastest H P (line :: rest) fs) = fs
  ∧ printed_only (events (Darknet.convert_yolo_fastest H P (line :: rest) fs)).
Proof.
  intros Hcase. darknet_start fs Ht.
  destruct (bool_decide (strip line = py "0")) eqn:Hzero.
  { autorewrite with run. repeat split. unfold events. cbn [snd]. solve_printed. }
  destruct Hcase as [Hz|[Hnone|(model & Hsome & Hmiss)]].
  - apply bool_decide_eq_false in Hzero. by destruct Hzero.
  - rewrite Hnone. autorewrite with run. repeat split.
    unfold events. cbn [snd]. solve_printed.
  - rewrite Hsome. autorewrite with run.
    destruct (fs !! Darknet.cfg model) as [cbytes|] eqn:Hc.
    + destruct Hmiss as [Hmiss|Hmiss]; [discriminate|].
      rewrite bool_decide_eq_true_2 by (by eexists). cbn [negb].
      autorewrite with run. rewrite Hmiss.
      rewrite bool_decide_eq_false_2 by apply is_Some_None. cbn [negb].
      autorewrite with run. repeat split. unfold events. cbn [snd]. solve_printed.
    + rewrite bool_decide_eq_false_2 by apply is_Some_None. cbn [negb].
      autorewrite with run. repeat split. unfold events. cbn [snd]. solve_printed.
Qed.

(** A choice that is not the key of a model. *)
Lemma darknet_nothing_to_convert_witness :
  outcome (Darknet.convert_yolo_fastest Demo.host DemoProc.proc_ok [py "7"] ∅) = Ok tt
  ∧ final (Darknet.convert_yolo_fastest Demo.host DemoProc.proc_ok [py "7"] ∅) = ∅
  ∧ printed_only (events (Darknet.convert_yolo_fastest Demo.host DemoProc.proc_ok [py "7"] ∅)).
Proof.
  apply (darknet_nothing_to_convert Demo.host DemoProc.proc_ok (py "7") [] ∅).
  right. left. vm_compute. reflexivity.
Defined.

(** X6: when the files of the chosen model are there, the directory
    of the tool is not and [git clone] fails, [convert_yolo_fastest]
    does not return: a [CalledProcessError] becomes [SystemExit(1)],
    any other exception leaves the function as it is.  The clone is the
    only command run: the conversion is not attempted. *)
Theorem darknet_clone_failure_exits (H : host) (P : Darknet.proc_lib) (line : str)
    (rest : list str) (model : Darknet.model_info) (fs fs' : fsys) (e : exn) :
  strip line ≠ py "0" →
  Darknet.models_get (strip line) = Some model →
  is_Some (fs !! Darknet.cfg model) →
  is_Some (fs !! Darknet.weights model) →
  Paths.present Darknet.repo_path fs = false →
  Darknet.subprocess_run P git_clone fs = (Raise e, fs') →
  outcome (Darknet.convert_yolo_fastest H P (line :: rest) fs)
  = Raise (if bool_decide (exn_cls e = Darknet.CalledProcessError)
           then Darknet.system_exit 1 else e)
  ∧ final (Darknet.convert_yolo_fastest H P (line :: rest) fs) = fs'
  ∧ calls_of (events (Darknet.convert_yolo_fastest H P (line :: rest) fs))
    = [Called (py "subprocess.run") git_clone].
Proof.
  intros Hzero Hsome Hc Hw Hrepo Hgit. darknet_start fs Ht.
  rewrite bool_decide_eq_false_2 by exact Hzero. rewrite Hsome.
  autorewrite with run. rewrite bool_decide_eq_true_2 by exact Hc. cbn [negb].
  autorewrite with run. rewrite bool_decide_eq_true_2 by exact Hw. cbn [negb].
  rewrite bind_run, download_conversion_tool_cases, Hrepo. cbv zeta. rewrite Hgit.
  destruct (bool_decide (exn_cls e = Darknet.CalledProcessError)).
  - split; [reflexivity|]. split; [reflexivity|].
    rewrite calls_of_prepend by solve_printed. reflexivity.
  - split; [reflexivity|]. split; [reflexivity|].
    rewrite calls_of_prepend by solve_printed. reflexivity.
Qed.

(** The first model, with its files, and a [git] that fails. *)
Lemma darknet_clone_failure_exits_witness :
  outcome (Darknet.convert_yolo_fastest Demo.host DemoProc.proc_failing [py "1"]
             DemoProc.darknet_inputs)
  = Raise (Darknet.system_exit 1)
  ∧ outcome (Darknet.convert_yolo_fastest Demo.host DemoProc.proc_missing [py "1"]
               DemoProc.darknet_inputs)
    = Raise (Exn FileNotFoundError (py "[Errno 2] No such file or directory")).
Proof.
  split.
  - refine (proj1 (darknet_clone_failure_exits Demo.host DemoProc.proc_failing (py "1") []
                     (default (Darknet.ModelInfo [] [] [] [] [] []) (Darknet.models_get (py "1")))
                     DemoProc.darknet_inputs DemoProc.darknet_inputs
                     (Exn Darknet.CalledProcessError
                        (py "Command returned non-zero exit status 1."))
                     _ _ _ _ _ _)).
    + vm_compute. discriminate.
    + vm_compute. reflexivity.
    + vm_compute. by eexists.
    + vm_compute. by eexists.
    + vm_compute. reflexivity.
    + reflexivity.
  - refine (proj1 (darknet_clone_failure_exits Demo.host DemoProc.proc_missing (py "1") []
                     (default (Darknet.ModelInfo [] [] [] [] [] []) (Darknet.models_get (py "1")))
                     DemoProc.darknet_inputs DemoProc.darknet_inputs
                     (Exn FileNotFoundError (py "[Errno 2] No such file or directory"))
                     _ _ _ _ _ _)).
    + vm_compute. discriminate.
    + vm_compute. reflexivity.
    + vm_compute. by eexists.
    + vm_compute. by eexists.
    + vm_compute. reflexivity.
    + reflexivity.
Defined.

Lemma present_of_file (d rest : str) (fs : fsys) :
  is_Some (fs !! pjoin d rest) → Paths.present d fs = true.
Proof.
  intros [bytes Hf]. unfold Paths.present. apply orb_true_iff. right.
  apply existsb_exists. exists (pjoin d rest, bytes). split.
  - apply list_elem_of_In, elem_of_map_to_list, Hf.
  - cbn [fst]. unfold pjoin. rewrite app_assoc. apply startswith_app.
Qed.

Lemma tool_script_under_repo :
  tool_script
  = pjoin Darknet.repo_path (py "project" ++ py "/" ++ py "Yolov4" ++ py "/" ++ py "export_onnx.py").
Proof. unfold tool_script, pjoin. by rewrite <- !app_assoc. Qed.

(** [convert_yolo_fastest] once the tool is there or was cloned: [fs1]
    and [t1] are the file system and the events [download_conversion_tool]
    leaves. *)
Lemma convert_yolo_fastest_with_tool (H : host) (P : Darknet.proc_lib) (line : str)
    (rest : list str) (model : Darknet.model_info) (fs fs1 : fsys) (t1 : list event) :
  strip line ≠ py "0" →
  Darknet.models_get (strip line) = Some model →
  is_Some (fs !! Darknet.cfg model) →
  is_Some (fs !! Darknet.weights model) →
  Darknet.download_conversion_tool P fs = (Ok Darknet.repo_path, fs1, t1) →
  let cmd := Darknet.export_command tool_script model in
  let r := Darknet.convert_yolo_fastest H P (line :: rest) fs in
  (fs1 !! tool_script = None →
   outcome r = Ok tt ∧ final r = fs1 ∧ calls_of (events r) = calls_of t1)
  ∧ (is_Some (fs1 !! tool_script) →
     calls_of (events r) = calls_of t1 ++ [Called (py "subprocess.run") cmd]
     ∧ final r = (Darknet.subprocess_run P cmd fs1).2
     ∧ outcome r
       = match (Darknet.subprocess_run P cmd fs1).1 with
         | Ok _ => Ok tt
         | Raise e =>
             if bool_decide (exn_cls e = Darknet.CalledProcessError) then Ok tt else Raise e
         end).
Proof.
  intros Hzero Hsome Hc Hw Htool cmd r. subst r cmd. unfold tool_script in *.
  darknet_start fs Ht.
  rewrite bool_decide_eq_false_2 by exact Hzero. rewrite Hsome.
  autorewrite with run. rewrite bool_decide_eq_true_2 by exact Hc. cbn [negb].
  autorewrite with run. rewrite bool_decide_eq_true_2 by exact Hw. cbn [negb].
  rewrite bind_run, Htool. cbv beta iota. autorewrite with run. split.
  - intros Hscript. rewrite bool_decide_eq_false_2 by (rewrite Hscript; apply is_Some_None).
    cbn [negb]. autorewrite with run. split; [reflexivity|]. split; [reflexivity|].
    unfold events. cbn [snd]. rewrite !calls_of_app.
    rewrite !calls_of_printed_only by solve_printed. cbn [app]. by rewrite app_nil_r.
  - intros Hscript. rewrite bool_decide_eq_true_2 by exact Hscript. cbn [negb].
    autorewrite with run.
    rewrite try_except_called_process_run, bind_extern.
    destruct (Darknet.subprocess_run P _ fs1) as [[[]|e] fs2]; cbn [fst snd].
    2: destruct (bool_decide (exn_cls e = Darknet.CalledProcessError)).
    all: autorewrite with run.
    all: try (destruct (fs2 !! Darknet.output model) as [bytes|] eqn:Hout;
              [ rewrite bool_decide_eq_true_2 by (by eexists);
                rewrite bind_getsize, Hout; autorewrite with run
              | rewrite bool_decide_eq_false_2 by apply is_Some_None;
                autorewrite with run ]).
    all: split; [|split; reflexivity].
    all: unfold events; cbn [snd]; rewrite !calls_of_app;
      rewrite !calls_of_printed_only by solve_printed; cbn [app];
      rewrite ?app_nil_r; reflexivity.
Qed.

(** X7: when the files of the chosen model and the conversion script of
    the tool are there, [convert_yolo_fastest] runs one command and no
    other: the script, with the config, weights and output paths, the
    strides and the neck of the model.  The file system is left as the
    command left it.  A [CalledProcessError] of the command is reported
    and the function returns; any other exception leaves the function. *)
Theorem darknet_conversion_runs_once (H : host) (P : Darknet.proc_lib) (line : str)
    (rest : list str) (model : Darknet.model_info) (fs : fsys) :
  strip line ≠ py "0" →
  Darknet.models_get (strip line) = Some model →
  is_Some (fs !! Darknet.cfg model) →
  is_Some (fs !! Darknet.weights model) →
  is_Some (fs !! tool_script) →
  let cmd := Darknet.export_command tool_script model in
  let r := Darknet.convert_yolo_fastest H P (line :: rest) fs in
  calls_of (events r) = [Called (py "subprocess.run") cmd]
  ∧ cmd = [ py "python"; py "tensorrt_inference/project/Yolov4/export_onnx.py";
            py "--cfg_file"; Darknet.cfg model;
            py "--weights_file"; Darknet.weights model;
            py "--output_file"; Darknet.output model;
            py "--strides"; Darknet.strides model;
            py "--neck"; Darknet.neck model ]
  ∧ final r = (Darknet.subprocess_run P cmd fs).2
  ∧ outcome r
    = match (Darknet.subprocess_run P cmd fs).1 with
      | Ok _ => Ok tt
      | Raise e =>
          if bool_decide (exn_cls e = Darknet.CalledProcessError) then Ok tt else Raise e
      end.
Proof.
  intros Hzero Hsome Hc Hw Hscript cmd r.
  assert (Paths.present Darknet.repo_path fs = true) as Hrepo.
  { rewrite tool_script_under_repo in Hscript. by apply present_of_file in Hscript. }
  pose proof (download_conversion_tool_cases P fs) as Htool. rewrite Hrepo in Htool.
  destruct (convert_yolo_fastest_with_tool H P line rest model fs fs _ Hzero Hsome Hc Hw Htool)
    as [_ Hrun].
  destruct (Hrun Hscript) as (Hcalls & Hfinal & Hout).
  split; [exact Hcalls|]. split; [reflexivity|]. split; [exact Hfinal|exact Hout].
Qed.

(** The first model, with its files and the tool. *)
Lemma darknet_conversion_runs_once_witness :
  outcome (Darknet.convert_yolo_fastest Demo.host DemoProc.proc_ok [py "1"]
             DemoProc.darknet_ready) = Ok tt
  ∧ is_Some (final (Darknet.convert_yolo_fastest Demo.host DemoProc.proc_ok [py "1"]
                      DemoProc.darknet_ready) !! py "models/yolo-fastest-1.1.onnx")
  ∧ outcome (Darknet.convert_yolo_fastest Demo.host DemoProc.proc_failing [py "1"]
               DemoProc.darknet_ready) = Ok tt
  ∧ outcome (Darknet.convert_yolo_fastest Demo.host DemoProc.proc_missing [py "1"]
               DemoProc.darknet_ready)
    = Raise (Exn FileNotFoundError (py "[Errno 2] No such file or directory")).
Proof.
  pose (model := default (Darknet.ModelInfo [] [] [] [] [] []) (Darknet.models_get (py "1"))).
  assert (strip (py "1") ≠ py "0") as Hzero by (vm_compute; discriminate).
  assert (Darknet.models_get (strip (py "1")) = Some model) as Hsome
    by (vm_compute; reflexivity).
  assert (is_Some (DemoProc.darknet_ready !! Darknet.cfg model)) as Hc
    by (vm_compute; by eexists).
  assert (is_Some (DemoProc.darknet_ready !! Darknet.weights model)) as Hw
    by (vm_compute; by eexists).
  assert (is_Some (DemoProc.darknet_ready !! tool_script)) as Hs
    by (vm_compute; by eexists).
  split; [|split; [|split]].
  - destruct (darknet_conversion_runs_once Demo.host DemoProc.proc_ok (py "1") [] model
                DemoProc.darknet_ready Hzero Hsome Hc Hw Hs) as (_ & _ & _ & ->).
    reflexivity.
  - destruct (darknet_conversion_runs_once Demo.host DemoProc.proc_ok (py "1") [] model
                DemoProc.darknet_ready Hzero Hsome Hc Hw Hs) as (_ & _ & -> & _).
    vm_compute. by eexists.
  - destruct (darknet_conversion_runs_once Demo.host DemoProc.proc_failing (py "1") [] model
                DemoProc.darknet_ready Hzero Hsome Hc Hw Hs) as (_ & _ & _ & ->).
    reflexivity.
  - destruct (darknet_conversion_runs_once Demo.host DemoProc.proc_missing (py "1") [] model
                DemoProc.darknet_ready Hzero Hsome Hc Hw Hs) as (_ & _ & _ & ->).
    reflexivity.
Defined.

(** X21: when the files of the chosen model are there and the directory
    of the tool is not, [convert_yolo_fastest] clones the tool first.
    When the clone returns and the conversion script is there, the
    conversion command is run next, on the files the clone left; when
    the script is still missing, the function prints that and returns,
    having run the clone only. *)
Theorem darknet_clones_then_converts (H : host) (P : Darknet.proc_lib) (line : str)
    (rest : list str) (model : Darknet.model_info) (fs fs1 : fsys) :
  strip line ≠ py "0" →
  Darknet.models_get (strip line) = Some model →
  is_Some (fs !! Darknet.cfg model) →
  is_Some (fs !! Darknet.weights model) →
  Paths.present Darknet.repo_path fs = false →
  Darknet.subprocess_run P git_clone fs = (Ok tt, fs1) →
  let cmd := Darknet.export_command tool_script model in
  let r := Darknet.convert_yolo_fastest H P (line :: rest) fs in
  (fs1 !! tool_script = None →
   outcome r = Ok tt ∧ final r = fs1
   ∧ calls_of (events r) = [Called (py "subprocess.run") git_clone])
  ∧ (is_Some (fs1 !! tool_script) →
     calls_of (events r)
     = [Called (py "subprocess.run") git_clone; Called (py "subprocess.run") cmd]
     ∧ final r = (Darknet.subprocess_run P cmd fs1).2
     ∧ outcome r
       = match (Darknet.subprocess_run P cmd fs1).1 with
         | Ok _ => Ok tt
         | Raise e =>
             if bool_decide (exn_cls e = Darknet.CalledProcessError) then Ok tt else Raise e
         end).
Proof.
  intros Hzero Hsome Hc Hw Hrepo Hgit cmd r.
  pose proof (download_conversion_tool_cases P fs) as Htool.
  rewrite Hrepo in Htool. cbv zeta in Htool. rewrite Hgit in Htool.
  exact (convert_yolo_fastest_with_tool H P line rest model fs fs1 _ Hzero Hsome Hc Hw Htool).
Qed.

(** The first model, with its files, and a [git] that brings the tool. *)
Lemma darknet_clones_then_converts_witness :
  outcome (Darknet.convert_yolo_fastest Demo.host DemoProc.proc_ok [py "1"]
             DemoProc.darknet_inputs) = Ok tt
  ∧ is_Some (final (Darknet.convert_yolo_fastest Demo.host DemoProc.proc_ok [py "1"]
                      DemoProc.darknet_inputs) !! py "models/yolo-fastest-1.1.onnx").
Proof.
  pose (model := default (Darknet.ModelInfo [] [] [] [] [] []) (Darknet.models_get (py "1"))).
  assert (strip (py "1") ≠ py "0") as Hzero by (vm_compute; discriminate).
  assert (Darknet.models_get (strip (py "1")) = Some model) as Hsome
    by (vm_compute; reflexivity).
  assert (is_Some (DemoProc.darknet_inputs !! Darknet.cfg model)) as Hc
    by (vm_compute; by eexists).
  assert (is_Some (DemoProc.darknet_inputs !! Darknet.weights model)) as Hw
    by (vm_compute; by eexists).
  assert (Paths.present Darknet.repo_path DemoProc.darknet_inputs = false) as Hrepo
    by (vm_compute; reflexivity).
  assert (Darknet.subprocess_run DemoProc.proc_ok git_clone DemoProc.darknet_inputs
          = (Ok tt, DemoProc.darknet_ready)) as Hgit by reflexivity.
  destruct (darknet_clones_then_converts Demo.host DemoProc.proc_ok (py "1") [] model
              DemoProc.darknet_inputs DemoProc.darknet_ready Hzero Hsome Hc Hw Hrepo Hgit)
    as [_ Hrun].
  destruct Hrun as (_ & Hfinal & Hout); [vm_compute; by eexists|].
  split.
  - rewrite Hout. reflexivity.
  - rewrite Hfinal. vm_compute. by eexists.
Defined.

(** ** More on the config file *)

Lemma parse_lines_skipped (line : str) (rest : list str) (blocks : list Fastest.block)
    (blk : Fastest.block) :
  is_skipped line = true →
  Fastest.parse_lines (line :: rest) blocks blk = Fastest.parse_lines rest blocks blk.
Proof. intros Hs. cbn [Fastest.parse_lines]. unfold is_skipped in Hs. by rewrite Hs. Qed.

Lemma parse_lines_filter (lines : list str) : ∀ blocks blk,
  Fastest.parse_lines (filter (λ l, is_skipped l = false) lines) blocks blk
  = Fastest.parse_lines lines blocks blk.
Proof.
  induction lines as [|line rest IH]; intros blocks blk; [reflexivity|].
  destruct (is_skipped line) eqn:Hs.
  - rewrite filter_cons_False by (rewrite Hs; discriminate).
    by rewrite parse_lines_skipped.
  - rewrite filter_cons_True by exact Hs.
    cbn [Fastest.parse_lines]. unfold is_skipped in Hs. rewrite Hs.
    destruct (startswith (py "[") (strip line)); [apply IH|].
    destruct (unpack2 (split 61 (strip line))) as [kv|e]; [|reflexivity].
    cbn [rbind]. apply IH.
Qed.

(** X8: blank lines and comment lines have no effect on [parse_cfg]: a
    file and the same file without them give the same blocks, or the
    same exception. *)
Theorem parse_cfg_ignores_blank_and_comment_lines (H : host) (cfg_file cfg_file' : str)
    (fs : fsys) (bytes bytes' : list Byte.byte) (lines : list str) :
  fs !! cfg_file = Some bytes →
  fs !! cfg_file' = Some bytes' →
  readlines H bytes = Ok lines →
  readlines H bytes' = Ok (filter (λ l, is_skipped l = false) lines) →
  outcome (Fastest.parse_cfg H cfg_file' fs) = outcome (Fastest.parse_cfg H cfg_file fs).
Proof.
  intros Hf Hf' Hl Hl'.
  rewrite (parse_cfg_run H cfg_file fs bytes lines Hf Hl).
  rewrite (parse_cfg_run H cfg_file' fs bytes' _ Hf' Hl').
  unfold outcome. cbn [fst]. unfold Fastest.parse_cfg_lines.
  by rewrite parse_lines_filter.
Qed.

(** The small config file and the same file without its comments. *)
Lemma parse_cfg_ignores_blank_and_comment_lines_witness :
  outcome (Fastest.parse_cfg Demo.host (py "clean.cfg") demo_cfg_fs)
  = outcome (Fastest.parse_cfg Demo.host (py "yolo.cfg") demo_cfg_fs).
Proof.
  apply (parse_cfg_ignores_blank_and_comment_lines Demo.host (py "yolo.cfg") (py "clean.cfg")
           demo_cfg_fs demo_cfg (Demo.file "[net]
width = 416
batch=1
[convolutional]
filters = 8
filters = 16
") demo_cfg_lines).
  - vm_compute. reflexivity.
  - vm_compute. reflexivity.
  - vm_compute. reflexivity.
  - vm_compute. reflexivity.
Defined.

Lemma has_type_insert (k v : str) (b : Fastest.block) : has_type b → has_type (<[ k := v ]> b).
Proof.
  unfold has_type. intros Hb. rewrite lookup_insert_is_Some.
  destruct (decide (k = py "type")) as [->|Hk]; [by left|by right].
Qed.

Lemma has_type_header (t : str) : has_type {[ py "type" := t ]}.
Proof. unfold has_type. rewrite lookup_singleton_eq. by eexists. Qed.

Lemma blocks_shaped_close (blocks : list Fastest.block) (blk : Fastest.block) :
  blocks_shaped blocks blk →
  Forall (λ b, b ≠ ∅) (if bool_decide (blk ≠ ∅) then blocks ++ [blk] else blocks)
  ∧ Forall has_type (tail (if bool_decide (blk ≠ ∅) then blocks ++ [blk] else blocks)).
Proof.
  intros (Hne & Hty & Hblk). case_bool_decide as Hb; [|done]. split.
  - apply Forall_app_2; [done|by constructor].
  - destruct blocks as [|b0 blocks]; [constructor|]. cbn [app tail] in *.
    apply Forall_app_2; [done|]. constructor; [by apply Hblk|constructor].
Qed.

Lemma parse_lines_shaped (lines : list str) : ∀ blocks blk st,
  Fastest.parse_lines lines blocks blk = Ok st →
  blocks_shaped blocks blk → blocks_shaped st.1 st.2.
Proof.
  induction lines as [|line rest IH]; intros blocks blk st.
  - cbn [Fastest.parse_lines]. by intros [= <-].
  - cbn [Fastest.parse_lines].
    destruct (bool_decide (strip line = []) || startswith (py "#") (strip line));
      [apply IH|].
    destruct (startswith (py "[") (strip line)).
    + intros Hst Hsh. apply (IH _ _ _ Hst).
      destruct (blocks_shaped_close blocks blk Hsh) as [Hne Hty].
      split; [exact Hne|]. split; [exact Hty|]. intros _. apply has_type_header.
    + destruct (unpack2 (split 61 (strip line))) as [kv|e]; [|discriminate].
      cbn [rbind]. intros Hst (Hne & Hty & Hblk). apply (IH _ _ _ Hst).
      split; [exact Hne|]. split; [exact Hty|]. intros Hb. by apply has_type_insert, Hblk.
Qed.

(** X9: no block [parse_cfg] returns is empty, and every block after
    the first has a ["type"] entry: only the first can be made of
    entries that stand before any header. *)
Theorem parse_cfg_blocks_are_typed (H : host) (cfg_file : str) (fs : fsys)
    (blocks : list Fastest.block) :
  outcome (Fastest.parse_cfg H cfg_file fs) = Ok blocks →
  Forall (λ b, b ≠ ∅) blocks ∧ Forall has_type (tail blocks).
Proof.
  unfold Fastest.parse_cfg. rewrite bind_run. unfold read_file.
  destruct (fs !! cfg_file) as [bytes|]; [|discriminate].
  rewrite outcome_prepend, bind_lift.
  destruct (readlines H bytes) as [lines|e]; [|discriminate].
  unfold lift, outcome. cbn [fst]. unfold Fastest.parse_cfg_lines.
  destruct (Fastest.parse_lines lines [] ∅) as [st|e] eqn:Hst; [|discriminate].
  cbn [rbind]. intros [= <-]. apply blocks_shaped_close.
  apply (parse_lines_shaped lines [] ∅ st Hst).
  split; [constructor|]. split; [constructor|]. done.
Qed.

(** The blocks of the small config file. *)
Lemma parse_cfg_blocks_are_typed_witness :
  Forall (λ b : Fastest.block, b ≠ ∅) demo_blocks ∧ Forall has_type (tail demo_blocks).
Proof.
  apply (parse_cfg_blocks_are_typed Demo.host (py "yolo.cfg") demo_fs demo_blocks).
  vm_compute. reflexivity.
Defined.

(** ** More on the weights file *)

Lemma list_ind4 {A} (P : list A → Prop) :
  (∀ l, (length l < 4)%nat → P l) →
  (∀ a b c d l, P l → P (a :: b :: c :: d :: l)) →
  ∀ l, P l.
Proof.
  intros Hs Hc l. remember (length l) as n eqn:Hn.
  revert l Hn. induction n as [n IH] using lt_wf_ind. intros l ->.
  destruct l as [|a [|b [|c [|d l]]]]; try (apply Hs; cbn [length]; lia).
  apply Hc. apply (IH (length l)); [cbn [length]; lia|reflexivity].
Qed.

Lemma items32_short (l : list Byte.byte) : (length l < 4)%nat → Fastest.items32 l = [].
Proof.
  destruct l as [|a [|b [|c [|d l]]]]; try reflexivity. cbn [length]. lia.
Qed.

Lemma items32_length_div (l : list Byte.byte) :
  length (Fastest.items32 l) = (length l / 4)%nat.
Proof.
  induction l as [l Hl|a b c d l IH] using list_ind4.
  - rewrite items32_short by exact Hl. by rewrite Nat.div_small.
  - cbn [Fastest.items32 length]. rewrite IH.
    change (S (S (S (S (length l))))) with (1 * 4 + length l)%nat.
    by rewrite Nat.div_add_l.
Qed.

Lemma items32_drop (k : nat) : ∀ l : list Byte.byte,
  Fastest.items32 (drop (4 * k) l) = drop k (Fastest.items32 l).
Proof.
  induction k as [|k IH]; intros l; [reflexivity|].
  replace (4 * S k)%nat with (S (S (S (S (4 * k))))) by lia.
  destruct l as [|a [|b [|c [|d l]]]]; cbn [drop Fastest.items32];
    rewrite ?drop_nil; try reflexivity.
  apply IH.
Qed.

(** What [load_weights] takes from the bytes of a file. *)
Lemma load_weights_bytes_drop (bytes : list Byte.byte) :
  (Fastest.load_weights_bytes bytes).2 = drop 5 (Fastest.items32 bytes).
Proof.
  unfold Fastest.load_weights_bytes, Fastest.fromfile32. cbn [snd].
  rewrite items32_drop, length_take.
  destruct (Nat.min_spec 5 (length (Fastest.items32 bytes))) as [[Hlt ->]|[Hge ->]];
    [reflexivity|].
  by rewrite !drop_ge by lia.
Qed.

(** X10: [load_weights] takes any file that exists: it opens the file
    once and returns its complete 32-bit values without the first five,
    [size / 4 - 5] of them (none when the file is shorter than the
    header), leaving out the bytes of an incomplete last value. *)
Theorem load_weights_takes_any_file (weights_file : str) (fs : fsys)
    (bytes : list Byte.byte) :
  fs !! weights_file = Some bytes →
  ∃ weights : list Fastest.raw32,
    Fastest.load_weights weights_file fs = (Ok weights, fs, [Opened weights_file])
    ∧ weights = drop 5 (Fastest.items32 bytes)
    ∧ length weights = (length bytes / 4 - 5)%nat.
Proof.
  intros Hf. exists (drop 5 (Fastest.items32 bytes)).
  unfold Fastest.load_weights, bind, read_file, ret. rewrite Hf.
  rewrite load_weights_bytes_drop. cbn [app]. split; [reflexivity|].
  split; [reflexivity|]. by rewrite length_drop, items32_length_div.
Qed.

(** A file of 27 bytes: one value after the header and three bytes over;
    and a file shorter than the header. *)
Lemma load_weights_takes_any_file_witness :
  (∃ weights : list Fastest.raw32,
     Fastest.load_weights (py "w") {[ py "w" := Demo.file "MAJRMINRREVNSEENSEENaaaabbb" ]}
     = (Ok weights, {[ py "w" := Demo.file "MAJRMINRREVNSEENSEENaaaabbb" ]}, [Opened (py "w")])
     ∧ weights = drop 5 (Fastest.items32 (Demo.file "MAJRMINRREVNSEENSEENaaaabbb"))
     ∧ length weights = 1%nat)
  ∧ (∃ weights : list Fastest.raw32,
       Fastest.load_weights (py "w") {[ py "w" := Demo.file "MAJRMIN" ]}
       = (Ok weights, {[ py "w" := Demo.file "MAJRMIN" ]}, [Opened (py "w")])
       ∧ weights = drop 5 (Fastest.items32 (Demo.file "MAJRMIN"))
       ∧ length weights = 0%nat).
Proof.
  split.
  - apply (load_weights_takes_any_file (py "w")
             {[ py "w" := Demo.file "MAJRMINRREVNSEENSEENaaaabbb" ]}
             (Demo.file "MAJRMINRREVNSEENSEENaaaabbb")).
    apply lookup_singleton_eq.
  - apply (load_weights_takes_any_file (py "w") {[ py "w" := Demo.file "MAJRMIN" ]}
             (Demo.file "MAJRMIN")).
    apply lookup_singleton_eq.
Defined.

(** ** What a run leaves of the file system *)

Section Preserves.

Context {A B : Type} (P : fsys → Prop).

Lemma preserves_ret (a : A) : preserves P (ret a).
Proof. by intros s. Qed.

Lemma preserves_lift (r : result A) : preserves P (lift r).
Proof. by intros s. Qed.

Lemma preserves_bind (m : M A) (k : A → M B) :
  preserves P m → (∀ a, preserves P (k a)) → preserves P (bind m k).
Proof.
  intros Hm Hk s Hs. specialize (Hm s Hs). rewrite bind_run.
  destruct (m s) as [[[a|e] s1] t1]; [|exact Hm].
  rewrite final_prepend. by apply Hk.
Qed.

Lemma preserves_try_except (m : M A) (h : exn → M A) :
  preserves P m → (∀ e, preserves P (h e)) → preserves P (try_except m h).
Proof.
  intros Hm Hh s Hs. specialize (Hm s Hs). rewrite try_except_run.
  destruct (m s) as [[[a|e] s1] t1]; [exact Hm|].
  rewrite final_prepend. by apply Hh.
Qed.

Lemma preserves_extern (fn : str) (args : list str) (o : fsys → result A * fsys) :
  (∀ s, P s → P (o s).2) → preserves P (extern fn args o).
Proof.
  intros Ho s Hs. specialize (Ho s Hs). unfold extern. by destruct (o s) as [r s'].
Qed.

End Preserves.

Lemma preserves_emit (P : fsys → Prop) (ev : event) : preserves P (emit ev).
Proof. by intros s. Qed.

Lemma preserves_exists (P : fsys → Prop) (path : str) : preserves P (exists_ path).
Proof. by intros s. Qed.

Lemma preserves_getsize (P : fsys → Prop) (path : str) : preserves P (getsize path).
Proof. intros s Hs. unfold getsize. by destruct (s !! path). Qed.

Lemma preserves_read_file (P : fsys → Prop) (path : str) : preserves P (read_file path).
Proof. intros s Hs. unfold read_file. by destruct (s !! path). Qed.

Lemma preserves_path_exists (P : fsys → Prop) (path : str) :
  preserves P (Paths.path_exists path).
Proof. by intros s. Qed.

Ltac keeps :=
  repeat first
    [ apply preserves_ret | apply preserves_lift | apply preserves_emit
    | apply preserves_exists | apply preserves_getsize | apply preserves_read_file
    | apply preserves_path_exists
    | apply preserves_extern; solve [auto]
    | apply preserves_try_except; [|intros ?]
    | apply preserves_bind; [|intros ?]
    | match goal with |- preserves _ (if ?b then _ else _) => destruct b end
    | match goal with |- preserves _ (match ?o with Some _ => _ | None => _ end) =>
        destruct o end ].

Section PreservesFastest.

Variables (H : host) (L : Fastest.torch_lib) (MODELS_DIR : str) (P : fsys → Prop).

Hypothesis export_keeps : ∀ model path s, P s → P (Fastest.torch_onnx_export L model path s).2.
Hypothesis load_keeps : ∀ path s, P s → P (Fastest.onnx_load L path s).2.
Hypothesis check_keeps : ∀ proto s, P s → P (Fastest.onnx_check_model L proto s).2.

Lemma convert_preserves (key : str) : preserves P (Fastest.convert H L MODELS_DIR key).
Proof. unfold Fastest.convert. keeps. Qed.

Lemma convert_each_preserves (todo : list (str * Fastest.model_info)) :
  ∀ results, preserves P (Fastest.convert_each H L MODELS_DIR todo results).
Proof.
  induction todo as [|[key info] todo IH]; intros results; cbn [Fastest.convert_each].
  - keeps.
  - apply preserves_bind; [apply convert_preserves|]. intros ok. apply IH.
Qed.

Lemma print_summary_preserves (results : list (str * bool)) :
  preserves P (Fastest.print_summary results).
Proof.
  induction results as [|[n ok] results IH]; cbn [Fastest.print_summary]; [keeps|].
  apply preserves_bind; [keeps|]. intros _. exact IH.
Qed.

Lemma convert_all_preserves : preserves P (Fastest.convert_all H L MODELS_DIR).
Proof.
  unfold Fastest.convert_all. apply preserves_bind; [apply convert_each_preserves|].
  intros results. do 3 (apply preserves_bind; [keeps|]; intros _).
  apply preserves_bind; [apply print_summary_preserves|]. intros _. keeps.
Qed.

Lemma menu_loop_preserves (stdin : list str) :
  preserves P (FastestMain.menu_loop H L MODELS_DIR stdin).
Proof.
  induction stdin as [|line rest IH]; cbn [FastestMain.menu_loop].
  - unfold FastestMain.show_menu. keeps.
  - apply preserves_bind; [unfold FastestMain.show_menu; keeps|]. intros _.
    apply preserves_bind; [keeps|]. intros _.
    destruct (bool_decide (strip line = py "0")); [keeps|].
    destruct (bool_decide (strip line = py "4")).
    { apply preserves_bind; [apply convert_all_preserves|]. intros _. exact IH. }
    destruct (bool_decide (strip line ∈ [py "1"; py "2"; py "3"])).
    { apply preserves_bind; [apply convert_preserves|]. intros _. exact IH. }
    apply preserves_bind; [keeps|]. intros _. exact IH.
Qed.

Lemma fastest_main_preserves (stdin : list str) :
  preserves P (FastestMain.main H L MODELS_DIR stdin).
Proof.
  unfold FastestMain.main. do 14 (apply preserves_bind; [keeps|]; intros _).
  destruct stdin as [|line rest]; [keeps|].
  destruct (bool_decide (FastestMain.lower (strip line) ≠ py "y")); [keeps|].
  apply menu_loop_preserves.
Qed.

End PreservesFastest.

(** X11: convert_fastest_to_onnx.py changes the file system through
    torch and onnx only: a property of the file system that the three
    library calls keep is kept by [convert], by [convert_all] and by
    [main], whatever is entered.  The script itself writes, moves and
    deletes nothing; where the library changes nothing, the files after
    a run are the files before it. *)
Theorem fastest_changes_files_through_torch_only (H : host) (L : Fastest.torch_lib)
    (MODELS_DIR : str) (P : fsys → Prop) :
  (∀ model path s, P s → P (Fastest.torch_onnx_export L model path s).2) →
  (∀ path s, P s → P (Fastest.onnx_load L path s).2) →
  (∀ proto s, P s → P (Fastest.onnx_check_model L proto s).2) →
  (∀ key, preserves P (Fastest.convert H L MODELS_DIR key))
  ∧ preserves P (Fastest.convert_all H L MODELS_DIR)
  ∧ (∀ stdin, preserves P (FastestMain.main H L MODELS_DIR stdin)).
Proof.
  intros He Hl Hc. split; [|split].
  - intros key. by apply convert_preserves.
  - by apply convert_all_preserves.
  - intros stdin. by apply fastest_main_preserves.
Qed.

(** A file beside the models is still there after [convert_all] with
    libraries that write the output files. *)
Lemma fastest_changes_files_through_torch_only_witness :
  is_Some (final (Fastest.convert_all Demo.host Demo.torch_ok (py "/m")
                    {[ py "notes.txt" := Demo.file "keep" ]}) !! py "notes.txt").
Proof.
  destruct (fastest_changes_files_through_torch_only Demo.host Demo.torch_ok (py "/m")
              (λ s, is_Some (s !! py "notes.txt"))) as (_ & Hall & _).
  - intros model path s Hs. cbn [Demo.torch_ok Fastest.torch_onnx_export snd].
    apply lookup_insert_is_Some'. by right.
  - intros path s Hs. cbn [Demo.torch_ok Fastest.onnx_load].
    by destruct (s !! path).
  - intros proto s Hs. exact Hs.
  - apply Hall. rewrite lookup_singleton_eq. by eexists.
Defined.

(** ** The library calls of [convert] *)

Lemma calls_of_cons (ev : event) (t : list event) :
  calls_of (ev :: t) = if is_call ev then ev :: calls_of t else calls_of t.
Proof.
  unfold calls_of. destruct ev; cbn [is_call];
    first [by rewrite filter_cons_True | by rewrite filter_cons_False].
Qed.

Ltac count_calls :=
  unfold events; cbn [snd];
  repeat (rewrite ?calls_of_app, ?calls_of_cons; cbn [is_call app]).

Lemma parse_cfg_shape (H : host) (cfg_file : str) (fs : fsys) :
  ∃ r, Fastest.parse_cfg H cfg_file fs = (r, fs, [Opened cfg_file]).
Proof.
  unfold Fastest.parse_cfg, bind, read_file, lift.
  destruct (fs !! cfg_file) as [bytes|]; [|by eexists].
  destruct (readlines H bytes) as [lines|e]; [|by eexists].
  destruct (Fastest.parse_cfg_lines lines); by eexists.
Qed.

Lemma load_weights_shape (weights_file : str) (fs : fsys) :
  ∃ r, Fastest.load_weights weights_file fs = (r, fs, [Opened weights_file]).
Proof.
  unfold Fastest.load_weights, bind, read_file, ret.
  destruct (fs !! weights_file) as [bytes|]; by eexists.
Qed.

Lemma build_model_shape (H : host) (blocks : list Fastest.block) (fs : fsys) :
  ∃ r t, Fastest.build_model_from_cfg H blocks fs = (r, fs, t) ∧ calls_of t = [].
Proof.
  unfold Fastest.build_model_from_cfg. rewrite bind_lift.
  destruct blocks as [|b rest]; [by eexists _, _|]. rewrite bind_lift.
  destruct (match b !! py "width" with Some v => int_of_str H v | None => Ok 320%Z end);
    [|by eexists _, _].
  autorewrite with run. by eexists _, _.
Qed.

(** The three calls are made in their order, each at most once. *)
Lemma convert_calls_prefix (H : host) (L : Fastest.torch_lib) (MODELS_DIR : str)
    (fs : fsys) :
  (∀ key info,
     Fastest.models_get key = Some info →
     let r := Fastest.convert H L MODELS_DIR key fs in
     calls_of (events r) `prefix_of` convert_calls (pjoin MODELS_DIR (Fastest.output info))
     ∧ (outcome r = Ok true →
        calls_of (events r) = convert_calls (pjoin MODELS_DIR (Fastest.output info))))
  ∧ (∀ key,
       Fastest.models_get key = None →
       calls_of (events (Fastest.convert H L MODELS_DIR key fs)) = []).
Proof.
  split.
  2:{ intros key Hkey. unfold Fastest.convert. rewrite Hkey. autorewrite with run.
      reflexivity. }
  intros key info Hkey r. subst r. unfold Fastest.convert, convert_calls. rewrite Hkey.
  autorewrite with run.
  destruct (bool_decide (is_Some (fs !! pjoin MODELS_DIR (Fastest.cfg info))));
    cbn [negb]; [|autorewrite with run; split; [apply prefix_nil|discriminate]].
  autorewrite with run.
  destruct (fs !! pjoin MODELS_DIR (Fastest.weights info)) as [wbytes|] eqn:Hw.
  2:{ rewrite bool_decide_eq_false_2 by apply is_Some_None. cbn [negb].
      autorewrite with run. split; [apply prefix_nil|discriminate]. }
  rewrite bool_decide_eq_true_2 by (by eexists). cbn [negb].
  autorewrite with run. rewrite bind_getsize, Hw. autorewrite with run.
  rewrite try_except_run. autorewrite with run. rewrite bind_run.
  destruct (parse_cfg_shape H (pjoin MODELS_DIR (Fastest.cfg info)) fs) as [r1 ->].
  destruct r1 as [blocks|e1].
  2:{ autorewrite with run. split; [count_calls; apply prefix_nil|discriminate]. }
  autorewrite with run. rewrite bind_run.
  destruct (load_weights_shape (pjoin MODELS_DIR (Fastest.weights info)) fs) as [r2 ->].
  destruct r2 as [weights|e2].
  2:{ autorewrite with run. split; [count_calls; apply prefix_nil|discriminate]. }
  autorewrite with run. rewrite bind_run.
  destruct (build_model_shape H blocks fs) as (r3 & t3 & -> & Ht3).
  destruct r3 as [model|e3].
  2:{ autorewrite with run. split; [|discriminate].
      count_calls. rewrite Ht3. apply prefix_nil. }
  autorewrite with run. rewrite bind_extern.
  destruct (Fastest.torch_onnx_export L model _ fs) as [[[]|e4] s4].
  2:{ autorewrite with run. split; [|discriminate].
      count_calls. rewrite Ht3. by eexists. }
  autorewrite with run. rewrite bind_extern.
  destruct (Fastest.onnx_load L _ s4) as [[proto|e5] s5].
  2:{ autorewrite with run. split; [|discriminate].
      count_calls. rewrite Ht3. by eexists. }
  rewrite bind_extern.
  destruct (Fastest.onnx_check_model L proto s5) as [[[]|e6] s6].
  2:{ autorewrite with run. split; [|discriminate].
      count_calls. rewrite Ht3. by eexists. }
  autorewrite with run. rewrite bind_getsize.
  destruct (s6 !! pjoin MODELS_DIR (Fastest.output info)) as [obytes|].
  - autorewrite with run. split; [|intros _]; count_calls; rewrite Ht3; reflexivity.
  - autorewrite with run. split; [|discriminate].
    count_calls. rewrite Ht3. reflexivity.
Qed.

(** What [convert] does once the two files are read and the network is
    built: the three calls, each made when the one before returned. *)
Lemma convert_calls_cases (H : host) (L : Fastest.torch_lib) (MODELS_DIR model_key : str)
    (info : Fastest.model_info) (fs : fsys) (cbytes wbytes : list Byte.byte)
    (lines : list str) (b : Fastest.block) (rest : list Fastest.block) (z : Z) :
  let cfg_path := pjoin MODELS_DIR (Fastest.cfg info) in
  let weights_path := pjoin MODELS_DIR (Fastest.weights info) in
  let output_path := pjoin MODELS_DIR (Fastest.output info) in
  let r := Fastest.convert H L MODELS_DIR model_key fs in
  Fastest.models_get model_key = Some info →
  fs !! cfg_path = Some cbytes →
  fs !! weights_path = Some wbytes →
  readlines H cbytes = Ok lines →
  Fastest.parse_cfg_lines lines = Ok (b :: rest) →
  match b !! py "width" with Some v => int_of_str H v | None => Ok 320%Z end = Ok z →
  match Fastest.torch_onnx_export L (Fastest.SimplifiedYOLOFastest z) output_path fs with
  | (Raise _, s1) =>
      calls_of (events r) = [Called (py "torch.onnx.export") [output_path]]
      ∧ outcome r = Ok false ∧ final r = s1
  | (Ok _, s1) =>
      match Fastest.onnx_load L output_path s1 with
      | (Raise _, s2) =>
          calls_of (events r)
          = [ Called (py "torch.onnx.export") [output_path];
              Called (py "onnx.load") [output_path] ]
          ∧ outcome r = Ok false ∧ final r = s2
      | (Ok onnx_model, s2) =>
          calls_of (events r) = convert_calls output_path
          ∧ final r = (Fastest.onnx_check_model L onnx_model s2).2
          ∧ outcome r
            = Ok match (Fastest.onnx_check_model L onnx_model s2).1 with
                 | Ok _ =>
                     bool_decide
                       (is_Some ((Fastest.onnx_check_model L onnx_model s2).2 !! output_path))
                 | Raise _ => false
                 end
      end
  end.
Proof.
  intros cfg_path weights_path output_path r Hkey Hc Hw Hl Hp Hz. subst r.
  remember (Fastest.convert H L MODELS_DIR model_key fs) as x eqn:Hx.
  unfold Fastest.convert in Hx. rewrite Hkey in Hx.
  fold cfg_path weights_path output_path in Hx. autorewrite with run in Hx.
  rewrite (bool_decide_eq_true_2 (is_Some (fs !! cfg_path))) in Hx by (by eexists).
  cbn [negb] in Hx. autorewrite with run in Hx.
  rewrite (bool_decide_eq_true_2 (is_Some (fs !! weights_path))) in Hx by (by eexists).
  cbn [negb] in Hx. autorewrite with run in Hx. rewrite bind_getsize, Hw in Hx.
  autorewrite with run in Hx. rewrite try_except_run in Hx. autorewrite with run in Hx.
  rewrite bind_run, (parse_cfg_run H cfg_path fs cbytes lines Hc Hl), Hp in Hx.
  autorewrite with run in Hx.
  unfold Fastest.load_weights at 1 in Hx.
  rewrite (bind_run (bind _ _)), (bind_run (read_file _)) in Hx.
  unfold read_file at 1 in Hx. rewrite Hw in Hx. autorewrite with run in Hx.
  unfold Fastest.build_model_from_cfg in Hx.
  rewrite (bind_run (bind _ _)), bind_lift, bind_lift, Hz in Hx. autorewrite with run in Hx.
  rewrite bind_extern in Hx. unfold convert_calls.
  destruct (Fastest.torch_onnx_export L _ output_path fs) as [[[]|e1] s1]; cbv beta iota in Hx.
  2:{ autorewrite with run in Hx. subst x. split; [count_calls; reflexivity|].
      split; reflexivity. }
  autorewrite with run in Hx. rewrite bind_extern in Hx.
  destruct (Fastest.onnx_load L output_path s1) as [[onnx_model|e2] s2]; cbv beta iota in Hx.
  2:{ autorewrite with run in Hx. subst x. split; [count_calls; reflexivity|].
      split; reflexivity. }
  rewrite bind_extern in Hx.
  destruct (Fastest.onnx_check_model L onnx_model s2) as [[[]|e3] s3];
    cbv beta iota in Hx; cbn [fst snd].
  2:{ autorewrite with run in Hx. subst x. split; [count_calls; reflexivity|].
      split; reflexivity. }
  autorewrite with run in Hx. rewrite bind_getsize in Hx.
  destruct (s3 !! output_path) as [obytes|].
  - autorewrite with run in Hx. subst x. rewrite bool_decide_eq_true_2 by (by eexists).
    split; [count_calls; reflexivity|]. split; reflexivity.
  - autorewrite with run in Hx. subst x. rewrite bool_decide_eq_false_2 by apply is_Some_None.
    split; [count_calls; reflexivity|]. split; reflexivity.
Qed.

(** X12: of [torch.onnx.export], [onnx.load] and
    [onnx.checker.check_model], the three calls recorded here (reading
    the two files, building the network and making the dummy input come
    before them and are not recorded), [convert] makes a beginning, in
    this order and each at most once, the first two on the output path
    of the model, and none for a key that names no model.  Once the two
    files are read and the network is built, the export is called on
    the files as they were, and each of the two other calls is made
    exactly when the call before it returned: a call that raises is the
    last, [convert] then returns [False] and leaves the files as that
    call left them.  [convert] returns [True] exactly when the three
    calls return and the output file is there after them. *)
Theorem convert_calls_in_order (H : host) (L : Fastest.torch_lib) (MODELS_DIR : str)
    (fs : fsys) :
  (∀ key info,
     Fastest.models_get key = Some info →
     let r := Fastest.convert H L MODELS_DIR key fs in
     calls_of (events r) `prefix_of` convert_calls (pjoin MODELS_DIR (Fastest.output info))
     ∧ (outcome r = Ok true →
        calls_of (events r) = convert_calls (pjoin MODELS_DIR (Fastest.output info))))
  ∧ (∀ key,
       Fastest.models_get key = None →
       calls_of (events (Fastest.convert H L MODELS_DIR key fs)) = [])
  ∧ (∀ key info cbytes wbytes lines b rest z,
       let output_path := pjoin MODELS_DIR (Fastest.output info) in
       let r := Fastest.convert H L MODELS_DIR key fs in
       Fastest.models_get key = Some info →
       fs !! pjoin MODELS_DIR (Fastest.cfg info) = Some cbytes →
       fs !! pjoin MODELS_DIR (Fastest.weights info) = Some wbytes →
       readlines H cbytes = Ok lines →
       Fastest.parse_cfg_lines lines = Ok (b :: rest) →
       match b !! py "width" with Some v => int_of_str H v | None => Ok 320%Z end = Ok z →
       match Fastest.torch_onnx_export L (Fastest.SimplifiedYOLOFastest z) output_path fs with
       | (Raise _, s1) =>
           calls_of (events r) = [Called (py "torch.onnx.export") [output_path]]
           ∧ outcome r = Ok false ∧ final r = s1
       | (Ok _, s1) =>
           match Fastest.onnx_load L output_path s1 with
           | (Raise _, s2) =>
               calls_of (events r)
               = [ Called (py "torch.onnx.export") [output_path];
                   Called (py "onnx.load") [output_path] ]
               ∧ outcome r = Ok false ∧ final r = s2
           | (Ok onnx_model, s2) =>
               calls_of (events r) = convert_calls output_path
               ∧ final r = (Fastest.onnx_check_model L onnx_model s2).2
               ∧ outcome r
                 = Ok match (Fastest.onnx_check_model L onnx_model s2).1 with
                      | Ok _ =>
                          bool_decide
                            (is_Some ((Fastest.onnx_check_model L onnx_model s2).2
                                        !! output_path))
                      | Raise _ => false
                      end
           end
       end).
Proof.
  destruct (convert_calls_prefix H L MODELS_DIR fs) as [Hprefix Hnone].
  split; [exact Hprefix|]. split; [exact Hnone|].
  intros key info cbytes wbytes lines b rest z. apply convert_calls_cases.
Qed.

(** The first model with the small config file and an export that
    raises: the export is the only call. *)
Lemma convert_calls_in_order_witness :
  let fs : fsys := {[ py "/m/yolo-fastest-1.1/yolo-fastest-1.1.cfg" := demo_cfg;
                      py "/m/yolo-fastest-1.1/yolo-fastest-1.1.weights" := demo_weights ]} in
  let r := Fastest.convert Demo.host Demo.torch_failing (py "/m") (py "1") fs in
  calls_of (events r) = [Called (py "torch.onnx.export") [py "/m/yolo-fastest-1.1.onnx"]]
  ∧ outcome r = Ok false
  ∧ final r = fs.
Proof.
  intros fs r.
  pose (info := default (Fastest.ModelInfo [] [] [] []) (Fastest.models_get (py "1"))).
  pose (b := default ∅ (demo_blocks !! 0%nat)).
  assert (Fastest.models_get (py "1") = Some info) as Hkey by (vm_compute; reflexivity).
  assert (fs !! pjoin (py "/m") (Fastest.cfg info) = Some demo_cfg) as Hc
    by (vm_compute; reflexivity).
  assert (fs !! pjoin (py "/m") (Fastest.weights info) = Some demo_weights) as Hw
    by (vm_compute; reflexivity).
  assert (readlines Demo.host demo_cfg = Ok demo_cfg_lines) as Hl
    by (vm_compute; reflexivity).
  assert (Fastest.parse_cfg_lines demo_cfg_lines = Ok (b :: drop 1 demo_blocks)) as Hp
    by (vm_compute; reflexivity).
  assert (match b !! py "width" with
          | Some v => int_of_str Demo.host v
          | None => Ok 320%Z
          end = Ok 416%Z) as Hz by (vm_compute; reflexivity).
  destruct (convert_calls_in_order Demo.host Demo.torch_failing (py "/m") fs)
    as (_ & _ & Hcases).
  exact (Hcases (py "1") info demo_cfg demo_weights demo_cfg_lines b
           (drop 1 demo_blocks) 416%Z Hkey Hc Hw Hl Hp Hz).
Defined.

(** ** [convert_all] and the three conversions *)

Lemma print_summary_run (results : list (str * bool)) (fs : fsys) :
  ∃ t, Fastest.print_summary results fs = (Ok tt, fs, t).
Proof.
  induction results as [|[n ok] results (t & IH)]; [by eexists|].
  cbn [Fastest.print_summary]. rewrite bind_print, IH. by eexists.
Qed.

(** X13: [convert_all] is the three conversions one after the other,
    each on the files the one before left: it returns the conjunction
    of their three results and leaves the files the third left, so that
    one failure makes the result [False] without keeping the others
    from running. *)
Theorem convert_all_is_the_three_conversions (H : host) (L : Fastest.torch_lib)
    (MODELS_DIR : str) (fs : fsys) :
  let r1 := Fastest.convert H L MODELS_DIR (py "1") fs in
  let r2 := Fastest.convert H L MODELS_DIR (py "2") (final r1) in
  let r3 := Fastest.convert H L MODELS_DIR (py "3") (final r2) in
  ∃ ok1 ok2 ok3,
    outcome r1 = Ok ok1 ∧ outcome r2 = Ok ok2 ∧ outcome r3 = Ok ok3
    ∧ outcome (Fastest.convert_all H L MODELS_DIR fs) = Ok (ok1 && ok2 && ok3)
    ∧ final (Fastest.convert_all H L MODELS_DIR fs) = final r3.
Proof.
  intros r1 r2 r3. subst r1 r2 r3.
  unfold Fastest.convert_all, Fastest.models. cbn [Fastest.convert_each].
  destruct (convert_returns H L MODELS_DIR (py "1") fs) as [ok1 Hok1]. revert Hok1.
  rewrite bind_run, (bind_run (Fastest.convert H L MODELS_DIR (py "1"))).
  destruct (Fastest.convert H L MODELS_DIR (py "1") fs) as [[r1 s1] t1].
  unfold outcome, final. cbn [fst snd]. intros ->.
  destruct (convert_returns H L MODELS_DIR (py "2") s1) as [ok2 Hok2]. revert Hok2.
  rewrite (bind_run (Fastest.convert H L MODELS_DIR (py "2"))).
  destruct (Fastest.convert H L MODELS_DIR (py "2") s1) as [[r2 s2] t2].
  unfold outcome, final. cbn [fst snd]. intros ->.
  destruct (convert_returns H L MODELS_DIR (py "3") s2) as [ok3 Hok3]. revert Hok3.
  rewrite (bind_run (Fastest.convert H L MODELS_DIR (py "3"))).
  destruct (Fastest.convert H L MODELS_DIR (py "3") s2) as [[r3 s3] t3].
  unfold outcome, final. cbn [fst snd]. intros ->.
  exists ok1, ok2, ok3. split; [reflexivity|]. split; [reflexivity|]. split; [reflexivity|].
  autorewrite with run. cbn [Fastest.dict_set Fastest.name].
  rewrite (bool_decide_eq_false_2 (py "YOLO-Fastest-1.1" = py "YOLO-Fastest-XL"))
    by (vm_compute; discriminate).
  cbn [Fastest.dict_set].
  rewrite (bool_decide_eq_false_2 (py "YOLO-Fastest-1.1" = py "YOLO-Fastest-1.1-Body"))
    by (vm_compute; discriminate).
  rewrite (bool_decide_eq_false_2 (py "YOLO-Fastest-XL" = py "YOLO-Fastest-1.1-Body"))
    by (vm_compute; discriminate).
  cbn [Fastest.dict_set]. rewrite bind_run.
  destruct (print_summary_run [ (py "YOLO-Fastest-1.1", ok1); (py "YOLO-Fastest-XL", ok2);
                                (py "YOLO-Fastest-1.1-Body", ok3) ] s3) as [t ->].
  autorewrite with run. cbn [fst snd forallb].
  by rewrite andb_true_r, andb_assoc.
Qed.

(** ** More on the quantization script *)

Lemma contains_unfold (p s : str) :
  contains p s
  = startswith p s || match s with [] => false | _ :: s' => contains p s' end.
Proof. by destruct s. Qed.

Lemma contains_app (p a b : str) : contains p (a ++ p ++ b) = true.
Proof.
  induction a as [|c a IH].
  - cbn [app]. by rewrite contains_unfold, startswith_app.
  - cbn [app contains]. rewrite IH. apply orb_true_r.
Qed.

(** X14: no output name is the name of an input: [main] never selects a
    file named as it names its outputs, so that a quantized model is
    not quantized again by a later run. *)
Theorem quantized_outputs_are_not_inputs :
  (∀ m, Quantize.is_input (Quantize.output_name m) = false)
  ∧ (∀ H fs m, Quantize.output_name m ∉ selected H fs).
Proof.
  assert (∀ m, Quantize.is_input (Quantize.output_name m) = false) as Hno.
  { intros m. unfold Quantize.is_input, Quantize.output_name.
    change (py "_int8.onnx") with (py "_int8" ++ py ".onnx").
    rewrite contains_app. apply andb_false_r. }
  split; [exact Hno|]. intros H fs m. unfold selected.
  destruct (listdir H Quantize.models_dir fs) as [filenames|e]; [|apply not_elem_of_nil].
  rewrite list_elem_of_filter. intros [Hin _]. by rewrite Hno in Hin.
Qed.

Lemma quantize_each_count (H : host) (L : Quantize.quant_lib) (onnx_models : list str) :
  ∀ success_count fs,
    ∃ k, outcome (Quantize.quantize_each H L onnx_models success_count fs) = Ok k
         ∧ (success_count ≤ k ≤ success_count + length onnx_models)%nat.
Proof.
  induction onnx_models as [|m rest IH]; intros n fs.
  - exists n. split; [reflexivity|cbn [length]; lia].
  - cbn [Quantize.quantize_each length]. rewrite bind_exists.
    destruct (bool_decide (is_Some (fs !! pjoin Quantize.models_dir (Quantize.output_name m)))).
    + rewrite bind_print, outcome_prepend. destruct (IH n fs) as (k & -> & Hk).
      exists k. split; [reflexivity|lia].
    + rewrite bind_run.
      destruct (quantize_onnx_model_returns H L (pjoin Quantize.models_dir m)
                  (pjoin Quantize.models_dir (Quantize.output_name m)) fs) as [ok Hok].
      revert Hok.
      destruct (Quantize.quantize_onnx_model H L _ _ fs) as [[r s1] t1].
      unfold outcome at 1. cbn [fst]. intros ->. rewrite outcome_prepend.
      destruct (IH (if ok then S n else n) s1) as (k & -> & Hk).
      exists k. split; [reflexivity|]. destruct ok; lia.
Qed.

(** X15: the count of successes the quantization loop returns is never
    above the number of models it was given: starting from 0, it lies
    between 0 and the number of selected models, whatever the library
    does. *)
Theorem quantize_success_count_bounded (H : host) (L : Quantize.quant_lib)
    (onnx_models : list str) (fs : fsys) :
  ∃ success_count,
    outcome (Quantize.quantize_each H L onnx_models 0 fs) = Ok success_count
    ∧ (success_count ≤ length onnx_models)%nat.
Proof.
  destruct (quantize_each_count H L onnx_models 0 fs) as (k & Hk & Hb).
  exists k. split; [exact Hk|lia].
Qed.

(** X16: when the quantizer returns and leaves an empty output file,
    [quantize_onnx_model] reports a division by zero and returns
    [False], and leaves the empty file where it is: the loop of [main]
    then takes the model as done and skips it.  When the quantizer
    returns and leaves no output file, the error reported is that the
    file is missing. *)
Theorem quantize_empty_output_fails_then_is_skipped (H : host) (L : Quantize.quant_lib)
    (m : str) (fs fs' : fsys) :
  let input_path := pjoin Quantize.models_dir m in
  let output_path := pjoin Quantize.models_dir (Quantize.output_name m) in
  let r := Quantize.quantize_onnx_model H L input_path output_path fs in
  is_Some (fs !! input_path) →
  Quantize.quantize_dynamic L input_path output_path fs = (Ok tt, fs') →
  (fs' !! output_path = Some [] →
   outcome r = Ok false ∧ final r = fs'
   ∧ Traceback (Exn ZeroDivisionError (py "float division by zero")) ∈ events r
   ∧ ∀ rest success_count,
       Quantize.quantize_each H L (m :: rest) success_count fs'
       = prepend [Printed (py "
⏭️  跳过 (已存在): " ++ Quantize.output_name m)]
           (Quantize.quantize_each H L rest success_count fs'))
  ∧ (fs' !! output_path = None →
     outcome r = Ok false ∧ final r = fs'
     ∧ Traceback (no_such_file output_path) ∈ events r).
Proof.
  intros input_path output_path r [bytes Hin] Hq. subst r.
  rewrite quantize_onnx_model_cases. cbv zeta. rewrite Hin, Hq. split.
  - intros Hout. rewrite Hout. unfold Quantize.compression_ratio.
    rewrite bool_decide_eq_true_2 by reflexivity.
    split; [reflexivity|]. split; [reflexivity|]. split.
    + unfold events. cbn [snd]. rewrite !elem_of_app, !elem_of_cons. right. right. by left.
    + intros rest n. apply quantize_each_skips. fold output_path. rewrite Hout. by eexists.
  - intros Hout. rewrite Hout.
    split; [reflexivity|]. split; [reflexivity|].
    unfold events. cbn [snd]. rewrite !elem_of_app, !elem_of_cons. right. right. by left.
Qed.

(** An empty model: the quantizer of the examples writes an empty file. *)
Lemma quantize_empty_output_fails_then_is_skipped_witness :
  outcome (Quantize.quantize_onnx_model Demo.host Demo.quant_ok (py "models/e.onnx")
             (py "models/e_int8.onnx") {[ py "models/e.onnx" := [] ]}) = Ok false
  ∧ final (Quantize.quantize_onnx_model Demo.host Demo.quant_ok (py "models/e.onnx")
             (py "models/e_int8.onnx") {[ py "models/e.onnx" := [] ]})
    = {[ py "models/e.onnx" := []; py "models/e_int8.onnx" := [] ]}.
Proof.
  destruct (quantize_empty_output_fails_then_is_skipped Demo.host Demo.quant_ok (py "e.onnx")
              {[ py "models/e.onnx" := [] ]}
              {[ py "models/e.onnx" := []; py "models/e_int8.onnx" := [] ]})
    as [Hempty _].
  - vm_compute. by eexists.
  - vm_compute. reflexivity.
  - destruct Hempty as (Hout & Hfin & _); [vm_compute; reflexivity|].
    split; [exact Hout|exact Hfin].
Defined.

Section PreservesQuantize.

Variables (H : host) (L : Quantize.quant_lib) (P : fsys → Prop).

Hypothesis quantize_keeps :
  ∀ input output s, P s → P (Quantize.quantize_dynamic L input output s).2.

Lemma quantize_onnx_model_preserves (input_path output_path : str) :
  preserves P (Quantize.quantize_onnx_model H L input_path output_path).
Proof. unfold Quantize.quantize_onnx_model. keeps. Qed.

Lemma quantize_each_preserves (onnx_models : list str) :
  ∀ success_count, preserves P (Quantize.quantize_each H L onnx_models success_count).
Proof.
  induction onnx_models as [|m rest IH]; intros n; cbn [Quantize.quantize_each]; [keeps|].
  apply preserves_bind; [keeps|]. intros [|].
  - apply preserves_bind; [keeps|]. intros _. apply IH.
  - apply preserves_bind; [apply quantize_onnx_model_preserves|]. intros ok. apply IH.
Qed.

Lemma print_found_preserves (onnx_models : list str) :
  preserves P (Quantize.print_found onnx_models).
Proof.
  induction onnx_models as [|m rest IH]; cbn [Quantize.print_found]; [keeps|].
  apply preserves_bind; [keeps|]. intros _. exact IH.
Qed.

Lemma print_generated_preserves (onnx_models : list str) :
  preserves P (Quantize.print_generated H onnx_models).
Proof.
  induction onnx_models as [|m rest IH]; cbn [Quantize.print_generated]; [keeps|].
  apply preserves_bind; [keeps|]. intros ?.
  apply preserves_bind; [keeps|]. intros _. exact IH.
Qed.

Lemma quantize_main_preserves : preserves P (Quantize.main H L).
Proof.
  unfold Quantize.main. apply preserves_bind; [keeps|]. intros _.
  apply preserves_bind; [by intros s|]. intros filenames. cbv zeta.
  destruct (bool_decide (filter (λ f, Quantize.is_input f = true) filenames = []));
    [keeps|].
  apply preserves_bind; [keeps|]. intros _.
  apply preserves_bind; [apply print_found_preserves|]. intros _.
  apply preserves_bind; [apply quantize_each_preserves|]. intros success_count.
  do 3 (apply preserves_bind; [keeps|]; intros _).
  destruct (bool_decide (0 < success_count)%nat); [|keeps].
  do 8 (apply preserves_bind; [keeps|]; intros _).
  apply print_generated_preserves.
Qed.

End PreservesQuantize.

(** X17: quantize_onnx_int8.py changes the file system through
    [quantize_dynamic] only: a property of the file system that the
    quantizer keeps is kept by [quantize_onnx_model] and by [main].  The
    script itself writes and deletes nothing: a failed quantization
    leaves behind whatever the quantizer wrote. *)
Theorem quantize_changes_files_through_quantizer_only (H : host) (L : Quantize.quant_lib)
    (P : fsys → Prop) :
  (∀ input output s, P s → P (Quantize.quantize_dynamic L input output s).2) →
  (∀ input_path output_path,
     preserves P (Quantize.quantize_onnx_model H L input_path output_path))
  ∧ preserves P (Quantize.main H L).
Proof.
  intros Hq. split.
  - intros input_path output_path. by apply quantize_onnx_model_preserves.
  - by apply quantize_main_preserves.
Qed.

(** With the quantizer that raises and writes nothing, a run leaves the
    directory as it was. *)
Lemma quantize_changes_files_through_quantizer_only_witness :
  final (Quantize.main Demo.host Demo.quant_failing demo_models) = demo_models.
Proof.
  destruct (quantize_changes_files_through_quantizer_only Demo.host Demo.quant_failing
              (λ s, s = demo_models)) as [_ Hmain].
  - intros input output s Hs. exact Hs.
  - by apply Hmain.
Defined.

(** ** More on the export script *)

Lemma export_each_count (H : host) (Y : ExportInt8.yolo_lib) (todo : list (str * str)) :
  ∀ success_count total_count fs,
    ∃ s t, outcome (ExportInt8.export_each H Y todo success_count total_count fs) = Ok (s, t)
           ∧ (success_count ≤ s)%nat ∧ (total_count ≤ t)%nat
           ∧ (s + total_count ≤ t + success_count)%nat
           ∧ (t ≤ total_count + length todo)%nat.
Proof.
  induction todo as [|[model_path description] rest IH]; intros s0 t0 fs.
  - exists s0, t0. split; [reflexivity|cbn [length]; lia].
  - cbn [ExportInt8.export_each length]. rewrite bind_print, outcome_prepend, bind_exists.
    destruct (bool_decide (is_Some (fs !! model_path))).
    + rewrite bind_run.
      destruct (export_int8_model_returns H Y model_path (py "models") fs) as [ok Hok].
      revert Hok.
      destruct (ExportInt8.export_int8_model H Y model_path (py "models") fs) as [[r s1] t1].
      unfold outcome at 1. cbn [fst]. intros ->. rewrite outcome_prepend.
      destruct (IH (if ok then S s0 else s0) (S t0) s1) as (s & t & -> & Hb).
      exists s, t. split; [reflexivity|]. destruct ok; lia.
    + rewrite bind_print, outcome_prepend.
      destruct (IH s0 t0 fs) as (s & t & -> & Hb).
      exists s, t. split; [reflexivity|lia].
Qed.

(** X18: the two counts the export loop returns are ordered: the
    successes are never more than the models tried, and the models
    tried never more than the models listed, whatever the library does
    and whichever checkpoints exist. *)
Theorem export_counts_are_ordered (H : host) (Y : ExportInt8.yolo_lib)
    (todo : list (str * str)) (fs : fsys) :
  ∃ success_count total_count,
    outcome (ExportInt8.export_each H Y todo 0 0 fs) = Ok (success_count, total_count)
    ∧ (success_count ≤ total_count ≤ length todo)%nat.
Proof.
  destruct (export_each_count H Y todo 0 0 fs) as (s & t & Hst & Hb).
  exists s, t. split; [exact Hst|lia].
Qed.

Lemma split_without (c : N) (s : str) : c ∉ s → split c s = [s].
Proof.
  induction s as [|x s IH]; [reflexivity|]. intros Hc.
  apply not_elem_of_cons in Hc as [Hx Hs]. cbn [split].
  rewrite (proj2 (N.eqb_neq x c)) by congruence. by rewrite IH.
Qed.

Lemma split_after (c : N) (a b : str) :
  ∃ p pre, split c (a ++ c :: b) = (p :: pre) ++ split c b.
Proof.
  induction a as [|x a (p & pre & IH)].
  - exists [], []. cbn [app split]. by rewrite N.eqb_refl.
  - cbn [app split]. rewrite IH. destruct (x =? c).
    + by exists [], (p :: pre).
    + by exists (x :: p), pre.
Qed.

Lemma basename_plain (n : str) : 47 ∉ n → basename n = n.
Proof. intros Hn. unfold basename. by rewrite split_without. Qed.

Lemma basename_pjoin (d n : str) : 47 ∉ n → basename (pjoin d n) = n.
Proof.
  intros Hn. unfold basename, pjoin. change (py "/" ++ n) with (47 :: n).
  destruct (split_after 47 d n) as (p & pre & ->).
  rewrite split_without by exact Hn. apply List.last_last.
Qed.

Lemma startswith_pt_app (c : N) (b : str) :
  startswith (py ".pt") (c :: b) = false →
  startswith (py ".pt") ((c :: b) ++ py ".pt") = false.
Proof.
  change (py ".pt") with [46; 112; 116].
  destruct b as [|b1 [|b2 b]]; cbn [app startswith];
    rewrite ?andb_false_r; intros Hb; first [reflexivity | exact Hb].
Qed.

Lemma replace_pt_extension (stem : str) :
  contains (py ".pt") stem = false → replace (py ".pt") [] (stem ++ py ".pt") = stem.
Proof.
  intros Hstem. unfold replace. induction stem as [|c b IH]; [reflexivity|].
  cbn [contains] in Hstem. apply orb_false_elim in Hstem as [Hhere Hlater].
  change ((c :: b) ++ py ".pt") with (c :: (b ++ py ".pt")).
  cbn [replace_go].
  change (c :: (b ++ py ".pt")) with ((c :: b) ++ py ".pt").
  rewrite (startswith_pt_app c b Hhere). f_equal. by apply IH.
Qed.

(** X19: for a checkpoint [stem.pt], with or without a directory before
    it, where [stem] holds no [/] and no [.pt], the file the library
    exported ends up at [output_dir/stem_int8.onnx], whatever directory
    the checkpoint is in and whatever the library named its file; the
    file is moved, so that nothing is left at the path the library
    reported unless that is the target itself. *)
Theorem export_target_is_named_after_checkpoint (H : host) (Y : ExportInt8.yolo_lib)
    (model_path stem output_dir : str) (fs fs1 fs2 : fsys)
    (model : ExportInt8.yolo_model Y) (exported_path : str) (bytes : list Byte.byte) :
  47 ∉ stem →
  contains (py ".pt") stem = false →
  model_path = stem ++ py ".pt" ∨ (∃ dir, model_path = pjoin dir (stem ++ py ".pt")) →
  is_Some (fs !! model_path) →
  ExportInt8.YOLO Y model_path fs = (Ok model, fs1) →
  ExportInt8.yolo_export Y model fs1 = (Ok exported_path, fs2) →
  fs2 !! exported_path = Some bytes →
  let after := final (ExportInt8.export_int8_model H Y model_path output_dir fs) in
  after !! pjoin output_dir (stem ++ py "_int8.onnx") = Some bytes
  ∧ (exported_path ≠ pjoin output_dir (stem ++ py "_int8.onnx") →
     after !! exported_path = None).
Proof.
  intros Hslash Hpt Hpath Hin Hy He Hex after. subst after.
  destruct (export_int8_model_moves H Y model_path output_dir fs fs1 fs2 model
              exported_path bytes Hin Hy He Hex) as [_ ->].
  assert (basename model_path = stem ++ py ".pt") as ->.
  { assert (47 ∉ stem ++ py ".pt") as Hn.
    { rewrite elem_of_app. intros [Hs|Hs]; [done|].
      change (py ".pt") with [46; 112; 116] in Hs.
      repeat (apply elem_of_cons in Hs as [Hs|Hs]; [discriminate|]).
      by apply elem_of_nil in Hs. }
    destruct Hpath as [->|[dir ->]]; [by apply basename_plain|by apply basename_pjoin]. }
  rewrite replace_pt_extension by exact Hpt. split.
  - apply lookup_insert_eq.
  - intros Hne. rewrite lookup_insert_ne by congruence. apply lookup_delete_eq.
Qed.

(** The checkpoint [yolov8n.pt] of the list of [main]. *)
Lemma export_target_is_named_after_checkpoint_witness :
  final (ExportInt8.export_int8_model Demo.host Demo.yolo_ok (py "yolov8n.pt") (py "models")
           {[ py "yolov8n.pt" := Demo.file "pt" ]}) !! py "models/yolov8n_int8.onnx"
  = Some (Demo.file "onnx")
  ∧ final (ExportInt8.export_int8_model Demo.host Demo.yolo_ok (py "yolov8n.pt") (py "models")
             {[ py "yolov8n.pt" := Demo.file "pt" ]}) !! py "yolov8n.onnx" = None.
Proof.
  destruct (export_target_is_named_after_checkpoint Demo.host Demo.yolo_ok (py "yolov8n.pt")
              (py "yolov8n") (py "models") {[ py "yolov8n.pt" := Demo.file "pt" ]}
              {[ py "yolov8n.pt" := Demo.file "pt" ]}
              (<[ py "yolov8n.onnx" := Demo.file "onnx" ]> {[ py "yolov8n.pt" := Demo.file "pt" ]})
              tt (py "yolov8n.onnx") (Demo.file "onnx")) as [Hat Hgone].
  - vm_compute. intros Hin. repeat (apply elem_of_cons in Hin as [Hin|Hin]; [discriminate|]).
    by apply elem_of_nil in Hin.
  - vm_compute. reflexivity.
  - left. vm_compute. reflexivity.
  - rewrite lookup_singleton_eq. by eexists.
  - reflexivity.
  - reflexivity.
  - apply lookup_insert_eq.
  - split; [exact Hat|]. apply Hgone. vm_compute. discriminate.
Defined.

(** ** More on the OSNet script *)

(** Running a computation step by step. *)
Lemma run_bind {A B} (m : M A) (k : A → M B) (fs s1 s2 : fsys) (a : A) (r : result B)
    (t1 t2 : list event) :
  m fs = (Ok a, s1, t1) → k a s1 = (r, s2, t2) → bind m k fs = (r, s2, t1 ++ t2).
Proof. intros Hm Hk. by rewrite bind_run, Hm, Hk. Qed.

Lemma run_extern {A} (fn : str) (args : list str) (o : fsys → result A * fsys)
    (fs s1 : fsys) (r : result A) :
  o fs = (r, s1) → extern fn args o fs = (r, s1, [Called fn args]).
Proof. intros Ho. unfold extern. by rewrite Ho. Qed.

Lemma run_lift {A} (r : result A) (a : A) (fs : fsys) :
  r = Ok a → lift r fs = (Ok a, fs, []).
Proof. by intros ->. Qed.

Lemma run_try_except_raise {A} (m : M A) (h : exn → M A) (fs s1 s2 : fsys) (e : exn)
    (r : result A) (t1 t2 : list event) :
  m fs = (Raise e, s1, t1) → h e s1 = (r, s2, t2) → try_except m h fs = (r, s2, t1 ++ t2).
Proof. intros Hm Hh. by rewrite try_except_run, Hm, Hh. Qed.

Lemma run_bind_raise {A B} (m : M A) (k : A → M B) (fs s1 : fsys) (e : exn)
    (t1 : list event) :
  m fs = (Raise e, s1, t1) → bind m k fs = (Raise e, s1, t1).
Proof. intros Hm. by rewrite bind_run, Hm. Qed.

Lemma run_if_print (b : bool) (x y : str) (fs : fsys) :
  (if b then print x else print y) fs = (Ok tt, fs, [Printed (if b then x else y)]).
Proof. by destruct b. Qed.

Ltac run_step :=
  cbv beta;
  first [ eapply run_bind; [apply print_run|]
        | eapply run_bind; [eapply run_extern; eassumption|]
        | eapply run_bind; [eapply run_lift; eassumption|]
        | apply print_run ].

(** X20: a failure of [onnx.checker.check_model] does not end
    [export_osnet_to_onnx]: when the other calls return, the failure is
    reported as a warning, the inference test is run all the same, and
    the function returns, having made every call once. *)
Theorem osnet_check_failure_is_tolerated (L : Osnet.osnet_lib)
    (fs s1 s2 s3 s4 s5 s6 s7 s8 s9 s10 s11 s12 : fsys)
    (model : Osnet.module L) (ckpt : Osnet.checkpoint L) (x out : Osnet.tensor L)
    (norm : str) (onnx_model : Osnet.proto L) (e : exn) (input_text output_text : str)
    (session : Osnet.session L) (onnx_output : Osnet.array L) (diff : bool * str) :
  Osnet.build_model L fs = (Ok model, s1) →
  Osnet.torch_load L Osnet.weights_path s1 = (Ok ckpt, s2) →
  Osnet.load_state_dict L model (default ckpt (Osnet.state_dict_of L ckpt)) s2 = (Ok tt, s3) →
  Osnet.randn L s3 = (Ok x, s4) →
  Osnet.forward L model x s4 = (Ok out, s5) →
  Osnet.l2_norm L out s5 = (Ok norm, s6) →
  Osnet.torch_onnx_export L model x Osnet.output_path s6 = (Ok tt, s7) →
  Osnet.onnx_load L Osnet.output_path s7 = (Ok onnx_model, s8) →
  Osnet.onnx_check_model L onnx_model s8 = (Raise e, s9) →
  Osnet.graph_input L onnx_model = Ok input_text →
  Osnet.graph_output L onnx_model = Ok output_text →
  Osnet.inference_session L Osnet.output_path s9 = (Ok session, s10) →
  Osnet.session_run L session x s10 = (Ok onnx_output, s11) →
  Osnet.max_diff L out onnx_output s11 = (Ok diff, s12) →
  outcome (Osnet.export_osnet_to_onnx L fs) = Ok tt
  ∧ final (Osnet.export_osnet_to_onnx L fs) = s12
  ∧ Printed (py "⚠️  ONNX模型验证失败: " ++ exn_text e)
      ∈ events (Osnet.export_osnet_to_onnx L fs)
  ∧ calls_of (events (Osnet.export_osnet_to_onnx L fs))
    = [ Called (py "torchreid.models.build_model") [py "osnet_ain_x1_0"];
        Called (py "torch.load") [Osnet.weights_path];
        Called (py "model.load_state_dict") [];
        Called (py "torch.randn") [];
        Called (py "model") [];
        Called (py "torch.norm") [];
        Called (py "torch.onnx.export") [Osnet.output_path];
        Called (py "onnx.load") [Osnet.output_path];
        Called (py "onnx.checker.check_model") [];
        Called (py "ort.InferenceSession") [Osnet.output_path];
        Called (py "session.run") [];
        Called (py "np.abs") [] ].
Proof.
  intros Hb Hl Hs Hr Hf Hn He Ho Hc Hgi Hgo Hi Hsr Hd.
  assert (∃ t, Osnet.export_osnet_to_onnx L fs = (Ok tt, s12, t)
               ∧ nth_error t 21 = Some (Printed (py "⚠️  ONNX模型验证失败: " ++ exn_text e))
               ∧ calls_of t
                 = [ Called (py "torchreid.models.build_model") [py "osnet_ain_x1_0"];
                     Called (py "torch.load") [Osnet.weights_path];
                     Called (py "model.load_state_dict") [];
                     Called (py "torch.randn") [];
                     Called (py "model") [];
                     Called (py "torch.norm") [];
                     Called (py "torch.onnx.export") [Osnet.output_path];
                     Called (py "onnx.load") [Osnet.output_path];
                     Called (py "onnx.checker.check_model") [];
                     Called (py "ort.InferenceSession") [Osnet.output_path];
                     Called (py "session.run") [];
                     Called (py "np.abs") [] ]) as (t & Hrun & Hwarn & Hcalls).
  { eexists. split.
    - unfold Osnet.export_osnet_to_onnx. repeat run_step.
      eapply run_bind.
      { eapply run_try_except_raise.
        - eapply run_bind_raise, run_extern. eassumption.
        - apply print_run. }
      repeat run_step.
      eapply run_bind; [apply run_if_print|].
      repeat run_step.
    - split; [reflexivity|]. destruct diff as [[|] difference]; reflexivity. }
  rewrite Hrun. split; [reflexivity|]. split; [reflexivity|]. split; [|exact Hcalls].
  apply list_elem_of_In. eapply nth_error_In. exact Hwarn.
Qed.

(** The libraries whose checker raises. *)
Lemma osnet_check_failure_is_tolerated_witness :
  outcome (Osnet.export_osnet_to_onnx (Demo.osnet true false) ∅) = Ok tt
  ∧ final (Osnet.export_osnet_to_onnx (Demo.osnet true false) ∅)
    = {[ Osnet.output_path := Demo.file "onnx" ]}
  ∧ Printed (py "⚠️  ONNX模型验证失败: invalid model")
      ∈ events (Osnet.export_osnet_to_onnx (Demo.osnet true false) ∅).
Proof.
  pose (s := ({[ Osnet.output_path := Demo.file "onnx" ]} : fsys)).
  destruct (osnet_check_failure_is_tolerated (Demo.osnet true false) ∅ ∅ ∅ ∅ ∅ ∅ ∅ s s s s s s
              tt tt tt tt (py "1.0000") tt (Demo.runtime_error "invalid model")
              (py "input - [0, 3, 256, 128]") (py "output - [0, 512]") tt tt
              (true, py "0.000000")) as (Hout & Hfinal & Hwarn & _); try reflexivity.
  split; [exact Hout|]. split; [exact Hfinal|exact Hwarn].
Defined.
